(** * Employee attendance management: store, policies, triggers and page handlers

    A shallow embedding of the attendance application: the relational schema
    of the migrations, the row-level-security policies keyed on [has_role],
    the trigger functions ([calculate_total_hours], [update_updated_at_column],
    [handle_new_user]), the lateness predicate [is_late_check_in], and the
    page handlers that issue requests against the store ([handleCheckIn],
    [handleCheckOut], the edit dialog's [handleSubmit], [loadInvitation],
    [handleSignUp]).

    Conventions.
    - A [timestamptz] is a count of microseconds since the epoch (the store's
      resolution); a JavaScript [Date] is a count of milliseconds.
    - A [date] is a count of days since the epoch.
    - SQL NULL is [None].
    - A statement either succeeds or raises an error of the store; a statement
      that raises leaves the tables as they were. *)

From Stdlib Require Import ZArith List String Ascii Bool Lia QArith Qabs.
From Stdlib Require Import DecimalString.
Import ListNotations.

Open Scope string_scope.
Open Scope Z_scope.

(** Equality of texts and identifiers. *)
Infix "=s?" := String.eqb (at level 70, no associativity).

(* ------------------------------------------------------------------ *)
(** ** Base types *)

Definition uuid := string.
Definition text := string.
Definition timestamptz := Z.
Definition date := Z.
Definition js_date := Z.

(** The errors of the store that the modelled statements can raise. *)
Inductive pg_error : Type :=
| insufficient_privilege        (* 42501: new row violates row-level security policy *)
| unique_violation              (* 23505: duplicate key value violates unique constraint *)
| numeric_value_out_of_range    (* 22003: numeric field overflow *)
| datetime_field_overflow       (* 22008: time field value out of range *)
| invalid_text_representation   (* 22P02: invalid input value for enum / integer *)
| multiple_rows.                (* PGRST116: more than one row for maybeSingle *)

Inductive result (A : Type) : Type :=
| Ok (a : A)
| Err (e : pg_error).
Arguments Ok {A} a.
Arguments Err {A} e.

Definition bind {A B : Type} (c : result A) (k : A -> result B) : result B :=
  match c with
  | Ok a => k a
  | Err e => Err e
  end.

Notation "x <- c ;; k" := (bind c (fun x => k))
  (at level 61, c at next level, right associativity).
Notation "' pat <- c ;; k" := (bind c (fun x => match x with pat => k end))
  (at level 61, pat pattern, c at next level, right associativity).

Definition is_error {A : Type} (r : result A) : bool :=
  match r with
  | Ok _ => false
  | Err _ => true
  end.

(** The [data] member of a response: null when the request raised. *)
Definition data {A : Type} (r : result A) : option A :=
  match r with
  | Ok a => Some a
  | Err _ => None
  end.

(* ------------------------------------------------------------------ *)
(** ** Enumerated types of the schema *)

(** [CREATE TYPE public.app_role AS ENUM ('admin', 'manager', 'employee')] *)
Inductive app_role : Type := admin | manager | employee.

(** [CREATE TYPE public.user_role AS ENUM ('employee', 'manager')] *)
Inductive user_role : Type := ur_employee | ur_manager.

(** [CREATE TYPE public.attendance_status AS ENUM
      ('present', 'absent', 'late', 'half-day')] *)
Inductive attendance_status : Type := present | absent | late | half_day.

Definition app_role_eqb (a b : app_role) : bool :=
  match a, b with
  | admin, admin | manager, manager | employee, employee => true
  | _, _ => false
  end.

Definition attendance_status_eqb (a b : attendance_status) : bool :=
  match a, b with
  | present, present | absent, absent | late, late | half_day, half_day => true
  | _, _ => false
  end.

Definition app_role_out (r : app_role) : text :=
  match r with
  | admin => "admin"
  | manager => "manager"
  | employee => "employee"
  end.

(** [s::app_role]: an input that is not a label of the enum raises. *)
Definition app_role_in (s : text) : result app_role :=
  if s =s? "admin" then Ok admin
  else if s =s? "manager" then Ok manager
  else if s =s? "employee" then Ok employee
  else Err invalid_text_representation.

(** [s::user_role] *)
Definition user_role_in (s : text) : result user_role :=
  if s =s? "employee" then Ok ur_employee
  else if s =s? "manager" then Ok ur_manager
  else Err invalid_text_representation.

(** A cast is strict: NULL casts to NULL. *)
Definition cast_null {A : Type} (f : text -> result A) (s : option text)
  : result (option A) :=
  match s with
  | None => Ok None
  | Some v => a <- f v ;; Ok (Some a)
  end.

Definition COALESCE {A : Type} (x : option A) (d : A) : A :=
  match x with
  | Some v => v
  | None => d
  end.

(* ------------------------------------------------------------------ *)
(** ** Relations *)

(** [auth.users], as far as the trigger reads it. The metadata is the JSON
    object given at sign-up; [->>] of a missing or null key is NULL. *)
Record raw_user_meta_data : Type := {
  meta_name : option text;
  meta_department : option text;
  meta_role : option text
}.

Record auth_users_row : Type := {
  au_id : uuid;
  au_email : text;
  au_raw_user_meta_data : raw_user_meta_data
}.

(** [public.profiles] *)
Record profiles_row : Type := {
  pr_id : uuid;
  pr_name : text;
  pr_email : text;
  pr_employee_id : text;
  pr_department : text;
  pr_role : user_role
}.

(** [public.user_roles], [UNIQUE (user_id, role)] *)
Record user_roles_row : Type := {
  ur_user_id : uuid;
  ur_role : app_role
}.

(** [public.attendance], [UNIQUE (user_id, date)], with the audit columns
    added by the later migration. [att_total_hours] is the DECIMAL(4,2)
    column, held as a count of hundredths. *)
Record attendance_row : Type := {
  att_id : uuid;
  att_user_id : uuid;
  att_date : date;
  att_check_in_time : option timestamptz;
  att_check_out_time : option timestamptz;
  att_status : attendance_status;
  att_total_hours : option Z;
  att_notes : option text;
  att_created_at : timestamptz;
  att_updated_at : timestamptz;
  att_modified_by : option uuid;
  att_modified_at : option timestamptz;
  att_original_status : option text;
  att_modification_reason : option text
}.

(** [public.invitations], [token UNIQUE],
    [status IN ('pending', 'accepted', 'expired')] *)
Record invitations_row : Type := {
  inv_id : uuid;
  inv_email : text;
  inv_name : text;
  inv_department : text;
  inv_role : app_role;
  inv_invited_by : uuid;
  inv_token : text;
  inv_status : text;
  inv_expires_at : timestamptz
}.

(** The JSON value of the [late_threshold] setting: [value->>'hours'] and
    [value->>'minutes'], NULL when the key is missing. The settings page
    writes integers ([parseInt]). *)
Record threshold_value : Type := {
  tv_hours : option Z;
  tv_minutes : option Z
}.

(** [public.settings], [key UNIQUE] *)
Record settings_row : Type := {
  set_key : text;
  set_value : threshold_value
}.

Record database : Type := {
  auth_users : list auth_users_row;
  profiles : list profiles_row;
  user_roles : list user_roles_row;
  attendance : list attendance_row;
  invitations : list invitations_row;
  settings : list settings_row;
  employee_id_seq : Z            (* last value handed out; START 1 *)
}.

Definition set_user_roles (db : database) (l : list user_roles_row) : database :=
  {| auth_users := auth_users db; profiles := profiles db; user_roles := l;
     attendance := attendance db; invitations := invitations db;
     settings := settings db; employee_id_seq := employee_id_seq db |}.

Definition set_attendance (db : database) (l : list attendance_row) : database :=
  {| auth_users := auth_users db; profiles := profiles db;
     user_roles := user_roles db; attendance := l;
     invitations := invitations db; settings := settings db;
     employee_id_seq := employee_id_seq db |}.

Definition set_invitations (db : database) (l : list invitations_row) : database :=
  {| auth_users := auth_users db; profiles := profiles db;
     user_roles := user_roles db; attendance := attendance db;
     invitations := l; settings := settings db;
     employee_id_seq := employee_id_seq db |}.

(* ------------------------------------------------------------------ *)
(** ** Sessions and the role predicate *)

(** The identity a request runs as: [Some uid] for the [authenticated] role
    with [auth.uid() = uid], [None] for the anonymous role. Every policy of
    the schema is declared [TO authenticated]; with row security enabled and
    no applicable policy, the anonymous role sees and writes nothing. *)
Definition session := option uuid.

(** [has_role(_user_id, _role)]:
    [SELECT EXISTS (SELECT 1 FROM user_roles
                    WHERE user_id = _user_id AND role = _role)] *)
Definition has_role (db : database) (_user_id : uuid) (_role : app_role) : bool :=
  existsb (fun r => (ur_user_id r =s? _user_id) && app_role_eqb (ur_role r) _role)
          (user_roles db).

(** [has_role(auth.uid(), 'manager') OR has_role(auth.uid(), 'admin')],
    for the [authenticated] role only. *)
Definition manager_or_admin (db : database) (s : session) : bool :=
  match s with
  | Some uid => has_role db uid manager || has_role db uid admin
  | None => false
  end.

(** "Only managers can insert roles": FOR INSERT WITH CHECK *)
Definition user_roles_insert_check (db : database) (s : session)
           (new : user_roles_row) : bool :=
  manager_or_admin db s.

(** "Managers can view all invitations": FOR SELECT USING *)
Definition invitations_select_using (db : database) (s : session)
           (r : invitations_row) : bool :=
  manager_or_admin db s.

(** "Managers can update invitations": FOR UPDATE USING *)
Definition invitations_update_using (db : database) (s : session)
           (r : invitations_row) : bool :=
  manager_or_admin db s.

(** "Employees can insert their own attendance":
    FOR INSERT WITH CHECK (auth.uid() = user_id) *)
Definition attendance_insert_check (db : database) (s : session)
           (new : attendance_row) : bool :=
  match s with
  | Some uid => uid =s? att_user_id new
  | None => false
  end.

(** "Employees can update their own attendance" and "Employees can view
    their own attendance": USING (auth.uid() = user_id OR has_role(manager)
    OR has_role(admin)) *)
Definition attendance_owner_or_manager (db : database) (s : session)
           (r : attendance_row) : bool :=
  match s with
  | Some uid =>
      (uid =s? att_user_id r) || has_role db uid manager || has_role db uid admin
  | None => false
  end.

Definition attendance_update_using := attendance_owner_or_manager.
Definition attendance_select_using := attendance_owner_or_manager.

(** "Managers can delete attendance": FOR DELETE USING *)
Definition attendance_delete_using (db : database) (s : session)
           (r : attendance_row) : bool :=
  manager_or_admin db s.

(* ------------------------------------------------------------------ *)
(** ** Statements on [user_roles] and deletion from [attendance] *)

Definition user_roles_key_eqb (a b : user_roles_row) : bool :=
  (ur_user_id a =s? ur_user_id b) && app_role_eqb (ur_role a) (ur_role b).

(** The insertion itself, constraints included; policies are checked by the
    caller (a SECURITY DEFINER trigger bypasses them). *)
Definition user_roles_store (db : database) (new : user_roles_row)
  : database * result unit :=
  if existsb (user_roles_key_eqb new) (user_roles db)
  then (db, Err unique_violation)
  else (set_user_roles db (user_roles db ++ [new]), Ok tt).

(** [INSERT INTO user_roles] through the API: a row failing the WITH CHECK
    expression raises. The expression is evaluated on the state before the
    statement ([has_role] is STABLE). *)
Definition insert_user_roles (s : session) (db : database) (new : user_roles_row)
  : database * result unit :=
  if user_roles_insert_check db s new
  then user_roles_store db new
  else (db, Err insufficient_privilege).

(** [DELETE FROM attendance WHERE cond] through the API. A USING expression
    is a filter: rows failing it are not seen by the statement, which deletes
    the remaining matches and reports how many, raising nothing. *)
Definition delete_attendance (s : session) (db : database)
           (cond : attendance_row -> bool) : database * result nat :=
  let hit r := cond r && attendance_select_using db s r
                      && attendance_delete_using db s r in
  (set_attendance db (filter (fun r => negb (hit r)) (attendance db)),
   Ok (List.length (filter hit (attendance db)))).

(* ------------------------------------------------------------------ *)
(** ** Time of day and the lateness predicate *)

Definition USECS_PER_SEC : Z := 1000000.
Definition USECS_PER_DAY : Z := 86400000000.
Definition MSECS_PER_DAY : Z := 86400000.

(** A value of type TIME: microseconds since midnight. *)
Definition time := Z.

Section TimeZone.

(** The session's [TimeZone] setting, as the offset from UTC (in
    microseconds) in effect at a given instant. *)
Variable utc_offset : timestamptz -> Z.

(** [ts::TIME]: the wall-clock time of day of the instant in the session's
    time zone. *)
Definition timestamptz_time (ts : timestamptz) : time :=
  (ts + utc_offset ts) mod USECS_PER_DAY.

(** [make_time(hour, min, sec)] with an integral [sec]. The fields are
    range-checked one by one (hour 24 and second 60 are let through), then
    the total must not exceed 24:00:00. *)
Definition make_time (hour min sec : Z) : result time :=
  if (hour <? 0) || (24 <? hour) || (min <? 0) || (59 <? min)
     || (sec <? 0) || (60 <? sec)
  then Err datetime_field_overflow
  else
    let t := ((hour * 60 + min) * 60 + sec) * USECS_PER_SEC in
    if USECS_PER_DAY <? t then Err datetime_field_overflow else Ok t.

(** [(value->>'hours')::INT]: an integer outside the 32-bit range raises. *)
Definition int4_in (z : Z) : result Z :=
  if (-2147483648 <=? z) && (z <=? 2147483647) then Ok z
  else Err numeric_value_out_of_range.

Definition int4_in_null (z : option Z) : result (option Z) :=
  match z with
  | None => Ok None
  | Some v => i <- int4_in v ;; Ok (Some i)
  end.

(** [SELECT ... FROM settings WHERE key = 'late_threshold'] *)
Definition late_threshold_row (db : database) : option settings_row :=
  find (fun r => set_key r =s? "late_threshold") (settings db).

(** [is_late_check_in(check_in_time)]. The result is a nullable boolean:
    [make_time] is strict, so a NULL minute makes the comparison NULL. *)
Definition is_late_check_in (db : database) (check_in_time : timestamptz)
  : result (option bool) :=
  (* SELECT (value->>'hours')::INT, (value->>'minutes')::INT
     INTO late_hours, late_minutes *)
  '(late_hours, late_minutes) <-
     match late_threshold_row db with
     | None => Ok (None, None)
     | Some r =>
         h <- int4_in_null (tv_hours (set_value r)) ;;
         m <- int4_in_null (tv_minutes (set_value r)) ;;
         Ok (h, m)
     end ;;
  (* IF late_hours IS NULL THEN late_hours := 9; late_minutes := 15; *)
  let '(late_hours, late_minutes) :=
    match late_hours with
    | None => (Some 9, Some 15)
    | Some _ => (late_hours, late_minutes)
    end in
  match late_hours, late_minutes with
  | Some h, Some m =>
      threshold_time <- make_time h m 0 ;;
      let check_in_time_only := timestamptz_time check_in_time in
      Ok (Some (threshold_time <? check_in_time_only))
  | _, _ => Ok None
  end.

End TimeZone.

(* ------------------------------------------------------------------ *)
(** ** Derived hours *)

(** Rounding of a rational to the nearest integer, ties away from zero (the
    rounding of NUMERIC). *)
Definition round_half_away (q : Q) : Z :=
  Z.sgn (Qnum q) *
  ((2 * Z.abs (Qnum q) + Zpos (Qden q)) / (2 * Zpos (Qden q))).

(** Assignment to a DECIMAL(4,2) column: the value is rounded to two
    decimals; a rounded value of 100 or more in magnitude raises. The result
    is the count of hundredths.

    The quotient assigned by the trigger is itself a NUMERIC carrying at
    least sixteen significant digits. It is taken exact here: the quotients
    are multiples of 1/(3.6 * 10^9) hours, so one that is not a tie between
    two hundredths lies further than 10^-10 from any tie, and the
    intermediate rounding cannot move it across. *)
Definition numeric_4_2 (q : Q) : result Z :=
  let c := round_half_away (q * 100) in
  if Z.abs c <? 10000 then Ok c else Err numeric_value_out_of_range.

(** The rational a stored DECIMAL(4,2) stands for. *)
Definition hundredths (c : Z) : Q := c # 100.

(** [EXTRACT(EPOCH FROM (b - a))]: the interval in seconds. *)
Definition EXTRACT_EPOCH (interval_usecs : Z) : Q := interval_usecs # 1000000.

Definition with_total_hours (r : attendance_row) (h : option Z) : attendance_row :=
  {| att_id := att_id r; att_user_id := att_user_id r; att_date := att_date r;
     att_check_in_time := att_check_in_time r;
     att_check_out_time := att_check_out_time r;
     att_status := att_status r; att_total_hours := h;
     att_notes := att_notes r; att_created_at := att_created_at r;
     att_updated_at := att_updated_at r; att_modified_by := att_modified_by r;
     att_modified_at := att_modified_at r;
     att_original_status := att_original_status r;
     att_modification_reason := att_modification_reason r |}.

Definition with_updated_at (r : attendance_row) (t : timestamptz) : attendance_row :=
  {| att_id := att_id r; att_user_id := att_user_id r; att_date := att_date r;
     att_check_in_time := att_check_in_time r;
     att_check_out_time := att_check_out_time r;
     att_status := att_status r; att_total_hours := att_total_hours r;
     att_notes := att_notes r; att_created_at := att_created_at r;
     att_updated_at := t; att_modified_by := att_modified_by r;
     att_modified_at := att_modified_at r;
     att_original_status := att_original_status r;
     att_modification_reason := att_modification_reason r |}.

(** Trigger function [calculate_total_hours], BEFORE INSERT OR UPDATE:
    [IF NEW.check_in_time IS NOT NULL AND NEW.check_out_time IS NOT NULL THEN
       NEW.total_hours :=
         EXTRACT(EPOCH FROM (NEW.check_out_time - NEW.check_in_time)) / 3600;
     END IF; RETURN NEW;] *)
Definition calculate_total_hours (NEW : attendance_row) : result attendance_row :=
  match att_check_in_time NEW, att_check_out_time NEW with
  | Some check_in, Some check_out =>
      h <- numeric_4_2 (EXTRACT_EPOCH (check_out - check_in) / 3600)%Q ;;
      Ok (with_total_hours NEW (Some h))
  | _, _ => Ok NEW
  end.

(** Trigger function [update_updated_at_column], BEFORE UPDATE:
    [NEW.updated_at = NOW(); RETURN NEW;] *)
Definition update_updated_at_column (NOW : timestamptz) (NEW : attendance_row)
  : attendance_row :=
  with_updated_at NEW NOW.

(* ------------------------------------------------------------------ *)
(** ** Statements on [attendance] *)

(** The columns an INSERT from the dashboard supplies. *)
Record attendance_insert : Type := {
  ins_user_id : uuid;
  ins_date : date;
  ins_check_in_time : timestamptz;
  ins_status : attendance_status
}.

(** The columns an UPDATE payload may carry; [None] leaves a column alone. *)
Record attendance_update : Type := {
  upd_check_out_time : option timestamptz;
  upd_status : option attendance_status;
  upd_modified_by : option uuid;
  upd_modified_at : option timestamptz;
  upd_original_status : option (option text);
  upd_modification_reason : option text
}.

Definition attendance_key_eqb (a b : attendance_row) : bool :=
  (att_user_id a =s? att_user_id b) && (att_date a =? att_date b).

(** [INSERT INTO attendance] through the API. [new_id] is the value of
    [gen_random_uuid()] and [NOW] the store's clock, for the column
    defaults. The BEFORE INSERT trigger runs, then the WITH CHECK expression,
    then the UNIQUE (user_id, date) constraint. *)
Definition insert_attendance (s : session) (NOW : timestamptz) (new_id : uuid)
           (db : database) (v : attendance_insert) : database * result unit :=
  let NEW :=
    {| att_id := new_id; att_user_id := ins_user_id v; att_date := ins_date v;
       att_check_in_time := Some (ins_check_in_time v);
       att_check_out_time := None;
       att_status := ins_status v; att_total_hours := None;
       att_notes := None; att_created_at := NOW; att_updated_at := NOW;
       att_modified_by := None; att_modified_at := None;
       att_original_status := None; att_modification_reason := None |} in
  match calculate_total_hours NEW with
  | Err e => (db, Err e)
  | Ok NEW =>
      if negb (attendance_insert_check db s NEW)
      then (db, Err insufficient_privilege)
      else if existsb (attendance_key_eqb NEW) (attendance db)
      then (db, Err unique_violation)
      else (set_attendance db (attendance db ++ [NEW]), Ok tt)
  end.

(** The SET list of an UPDATE applied to one row. *)
Definition apply_update (u : attendance_update) (r : attendance_row)
  : attendance_row :=
  {| att_id := att_id r; att_user_id := att_user_id r; att_date := att_date r;
     att_check_in_time := att_check_in_time r;
     att_check_out_time :=
       match upd_check_out_time u with
       | Some t => Some t
       | None => att_check_out_time r
       end;
     att_status := COALESCE (upd_status u) (att_status r);
     att_total_hours := att_total_hours r;
     att_notes := att_notes r; att_created_at := att_created_at r;
     att_updated_at := att_updated_at r;
     att_modified_by :=
       match upd_modified_by u with
       | Some m => Some m
       | None => att_modified_by r
       end;
     att_modified_at :=
       match upd_modified_at u with
       | Some t => Some t
       | None => att_modified_at r
       end;
     att_original_status := COALESCE (upd_original_status u) (att_original_status r);
     att_modification_reason :=
       match upd_modification_reason u with
       | Some t => Some t
       | None => att_modification_reason r
       end |}.

(** One row of an UPDATE: rows not matched, or hidden by the SELECT and
    UPDATE policies, are left alone; a matched row gets the SET list, then the
    BEFORE UPDATE triggers in name order ([calculate_attendance_hours],
    [update_attendance_updated_at]); the new row must satisfy the UPDATE
    policy again. *)
Definition update_attendance_row (s : session) (NOW : timestamptz) (db : database)
           (cond : attendance_row -> bool) (u : attendance_update)
           (r : attendance_row) : result attendance_row :=
  if cond r && attendance_select_using db s r && attendance_update_using db s r
  then
    NEW <- calculate_total_hours (apply_update u r) ;;
    let NEW := update_updated_at_column NOW NEW in
    if attendance_update_using db s NEW then Ok NEW
    else Err insufficient_privilege
  else Ok r.

Fixpoint update_attendance_rows (s : session) (NOW : timestamptz) (db : database)
         (cond : attendance_row -> bool) (u : attendance_update)
         (rows : list attendance_row) : result (list attendance_row) :=
  match rows with
  | [] => Ok []
  | r :: rest =>
      r' <- update_attendance_row s NOW db cond u r ;;
      rest' <- update_attendance_rows s NOW db cond u rest ;;
      Ok (r' :: rest')
  end.

(** [UPDATE attendance SET ... WHERE cond] through the API. *)
Definition update_attendance (s : session) (NOW : timestamptz) (db : database)
           (cond : attendance_row -> bool) (u : attendance_update)
  : database * result unit :=
  match update_attendance_rows s NOW db cond u (attendance db) with
  | Ok rows => (set_attendance db rows, Ok tt)
  | Err e => (db, Err e)
  end.

(* ------------------------------------------------------------------ *)
(** ** Dashboard: check-in and check-out *)

(** [new Date().toISOString()] read back by the store as a timestamptz. *)
Definition timestamptz_of_js (d : js_date) : timestamptz := d * 1000.

(** [new Date().toISOString().split("T")[0]]: the UTC calendar date. *)
Definition iso_date (d : js_date) : date := d / MSECS_PER_DAY.

(** JavaScript truthiness of a nullable boolean. *)
Definition truthy (b : option bool) : bool :=
  match b with
  | Some true => true
  | _ => false
  end.

Definition no_update : attendance_update :=
  {| upd_check_out_time := None; upd_status := None; upd_modified_by := None;
     upd_modified_at := None; upd_original_status := None;
     upd_modification_reason := None |}.

Section Dashboard.

Variable utc_offset : timestamptz -> Z.

(** [handleCheckIn]. [user] is the result of [getUser()], [clock] the
    browser's clock, [NOW] and [new_id] the store's clock and fresh
    identifier. The error of the rpc is not inspected: [isLate] is then
    null. The response of the insert is returned. *)
Definition handleCheckIn (user : session) (clock : js_date) (NOW : timestamptz)
           (new_id : uuid) (db : database) : database * result unit :=
  match user with
  | None => (db, Ok tt)
  | Some uid =>
      let today := iso_date clock in
      let now := timestamptz_of_js clock in
      let isLate :=
        match data (is_late_check_in utc_offset db now) with
        | Some b => b
        | None => None
        end in
      insert_attendance user NOW new_id db
        {| ins_user_id := uid; ins_date := today; ins_check_in_time := now;
           ins_status := if truthy isLate then late else present |}
  end.

(** [handleCheckOut]: [todayAttendance] is the record the page holds. *)
Definition handleCheckOut (user : session) (clock : js_date) (NOW : timestamptz)
           (todayAttendance : option attendance_row) (db : database)
  : database * result unit :=
  match todayAttendance with
  | None => (db, Ok tt)
  | Some rec =>
      let now := timestamptz_of_js clock in
      update_attendance user NOW db
        (fun r => att_id r =s? att_id rec)
        {| upd_check_out_time := Some now; upd_status := None;
           upd_modified_by := None; upd_modified_at := None;
           upd_original_status := None; upd_modification_reason := None |}
  end.

End Dashboard.

(* ------------------------------------------------------------------ *)
(** ** The edit dialog *)

(** White space as [String.prototype.trim] sees it, in the one-byte range:
    TAB, LF, VT, FF, CR, SPACE, NBSP. *)
Definition is_white_space (c : ascii) : bool :=
  let n := nat_of_ascii c in
  existsb (Nat.eqb n) [9; 10; 11; 12; 13; 32; 160]%nat.

Fixpoint trimStart (s : string) : string :=
  match s with
  | EmptyString => EmptyString
  | String c rest => if is_white_space c then trimStart rest else s
  end.

Definition reverse (s : string) : string :=
  string_of_list_ascii (rev (list_ascii_of_string s)).

Definition trimEnd (s : string) : string := reverse (trimStart (reverse s)).

Definition trim (s : string) : string := trimEnd (trimStart s).

Definition attendance_status_out (s : attendance_status) : text :=
  match s with
  | present => "present"
  | absent => "absent"
  | late => "late"
  | half_day => "half-day"
  end.

Record edit_input : Type := {
  ed_status : attendance_status;
  ed_reason : string
}.

(** [editSchema.parse]:
    [status: z.enum([...]), reason: z.string().trim().min(3, ...).max(500)].
    [None] is the thrown ZodError; the parsed reason is the trimmed one. *)
Definition editSchema_parse (i : edit_input) : option edit_input :=
  let reason := trim (ed_reason i) in
  if (String.length reason <? 3)%nat then None
  else if (500 <? String.length reason)%nat then None
  else Some {| ed_status := ed_status i; ed_reason := reason |}.

(** The [record] prop of the dialog: the row as the team page loaded it. *)
Record dialog_record : Type := {
  rec_id : uuid;
  rec_status : attendance_status
}.

Inductive submit_outcome : Type :=
| zod_error            (* toast: "Reason must be at least 3 characters" *)
| not_logged_in        (* toast: "You must be logged in" *)
| responded (r : result unit).

(** [EditAttendanceDialog.handleSubmit] *)
Definition handleSubmit (user : session) (clock : js_date) (NOW : timestamptz)
           (record : dialog_record) (status : attendance_status)
           (reason : string) (db : database) : database * submit_outcome :=
  match editSchema_parse {| ed_status := status; ed_reason := reason |} with
  | None => (db, zod_error)
  | Some validated =>
      match user with
      | None => (db, not_logged_in)
      | Some uid =>
          let '(db', r) :=
            update_attendance user NOW db
              (fun r => att_id r =s? rec_id record)
              {| upd_check_out_time := None;
                 upd_status := Some (ed_status validated);
                 upd_modified_by := Some uid;
                 upd_modified_at := Some (timestamptz_of_js clock);
                 upd_original_status :=
                   Some (if negb (attendance_status_eqb (rec_status record)
                                                        (ed_status validated))
                         then Some (attendance_status_out (rec_status record))
                         else None);
                 upd_modification_reason := Some (ed_reason validated) |} in
          (db', responded r)
      end
  end.

(* ------------------------------------------------------------------ *)
(** ** Invitations *)

(** [SELECT * FROM invitations WHERE cond] through the API. *)
Definition select_invitations (s : session) (db : database)
           (cond : invitations_row -> bool) : list invitations_row :=
  filter (fun r => cond r && invitations_select_using db s r) (invitations db).

(** [.maybeSingle()] *)
Definition maybeSingle {A : Type} (rows : list A) : result (option A) :=
  match rows with
  | [] => Ok None
  | [r] => Ok (Some r)
  | _ => Err multiple_rows
  end.

(** [new Date(ts)]: a timestamp of the store read by the browser, cut to
    milliseconds. *)
Definition js_of_timestamptz (ts : timestamptz) : js_date := ts / 1000.

(** The [invitationData] state of the sign-up page. *)
Record invitation_data : Type := {
  idata_email : text;
  idata_name : text;
  idata_department : text;
  idata_role : text;
  idata_token : text
}.

(** [loadInvitation(token)]: the value [invitationData] has afterwards,
    starting from null. *)
Definition loadInvitation (s : session) (clock : js_date) (db : database)
           (token : text) : option invitation_data :=
  match maybeSingle
          (select_invitations s db
             (fun r => (inv_token r =s? token) && (inv_status r =s? "pending")))
  with
  | Err _ | Ok None => None             (* "Invalid or expired invitation" *)
  | Ok (Some d) =>
      (* Check if invitation is expired *)
      if js_of_timestamptz (inv_expires_at d) <? clock
      then None                         (* "This invitation has expired" *)
      else Some {| idata_email := inv_email d; idata_name := inv_name d;
                   idata_department := inv_department d;
                   idata_role := app_role_out (inv_role d);
                   idata_token := inv_token d |}
  end.

Definition with_status (r : invitations_row) (st : text) : invitations_row :=
  {| inv_id := inv_id r; inv_email := inv_email r; inv_name := inv_name r;
     inv_department := inv_department r; inv_role := inv_role r;
     inv_invited_by := inv_invited_by r; inv_token := inv_token r;
     inv_status := st; inv_expires_at := inv_expires_at r |}.

(** [UPDATE invitations SET status = 'accepted' WHERE cond] through the API:
    rows hidden by the SELECT and UPDATE policies are not touched, and
    nothing is raised for them. *)
Definition accept_invitations (s : session) (db : database)
           (cond : invitations_row -> bool) : database * result unit :=
  let hit r := cond r && invitations_select_using db s r
                      && invitations_update_using db s r in
  (set_invitations db
     (map (fun r => if hit r then with_status r "accepted" else r)
          (invitations db)),
   Ok tt).

(* ------------------------------------------------------------------ *)
(** ** Registration: the trigger on the identity relation *)

(** [n::TEXT] for an integer. *)
Definition int8_out (n : Z) : text := NilZero.string_of_int (Z.to_int n).

(** [k] characters of [fill] repeated. *)
Definition fill_chars (fill : text) (k : nat) : text :=
  substring 0 k (String.concat "" (repeat fill k)).

(** [LPAD(s, len, fill)]: [s] padded on the left to [len] characters, and
    cut on the right when it is longer. *)
Definition LPAD (s : text) (len : nat) (fill : text) : text :=
  if (len <=? String.length s)%nat then substring 0 len s
  else fill_chars fill (len - String.length s) ++ s.

Definition set_employee_id_seq (db : database) (n : Z) : database :=
  {| auth_users := auth_users db; profiles := profiles db;
     user_roles := user_roles db; attendance := attendance db;
     invitations := invitations db; settings := settings db;
     employee_id_seq := n |}.

Definition set_profiles (db : database) (l : list profiles_row) : database :=
  {| auth_users := auth_users db; profiles := l;
     user_roles := user_roles db; attendance := attendance db;
     invitations := invitations db; settings := settings db;
     employee_id_seq := employee_id_seq db |}.

Definition set_auth_users (db : database) (l : list auth_users_row) : database :=
  {| auth_users := l; profiles := profiles db;
     user_roles := user_roles db; attendance := attendance db;
     invitations := invitations db; settings := settings db;
     employee_id_seq := employee_id_seq db |}.

(** [nextval('employee_id_seq')]: the sequence is advanced whatever becomes
    of the surrounding statement. *)
Definition nextval (db : database) : database * Z :=
  let n := employee_id_seq db + 1 in (set_employee_id_seq db n, n).

(** [INSERT INTO profiles]: primary key [id], [employee_id UNIQUE]. *)
Definition profiles_store (db : database) (new : profiles_row)
  : database * result unit :=
  if existsb (fun p => (pr_id p =s? pr_id new)
                       || (pr_employee_id p =s? pr_employee_id new))
             (profiles db)
  then (db, Err unique_violation)
  else (set_profiles db (profiles db ++ [new]), Ok tt).

(** Trigger function [handle_new_user] (AFTER INSERT ON auth.users), in its
    last definition. It is SECURITY DEFINER: no policy applies to its
    inserts. The VALUES list is evaluated left to right, so the sequence is
    advanced before the role is cast. *)
Definition handle_new_user (db : database) (NEW : auth_users_row)
  : database * result unit :=
  let meta := au_raw_user_meta_data NEW in
  let '(db, n) := nextval db in
  match cast_null user_role_in (meta_role meta) with
  | Err e => (db, Err e)
  | Ok role =>
      (* Insert into profiles *)
      match profiles_store db
              {| pr_id := au_id NEW;
                 pr_name := COALESCE (meta_name meta) "New User";
                 pr_email := au_email NEW;
                 pr_employee_id := "EMP" ++ LPAD (int8_out n) 4 "0";
                 pr_department := COALESCE (meta_department meta) "General";
                 pr_role := COALESCE role ur_employee |}
      with
      | (db, Err e) => (db, Err e)
      | (db, Ok _) =>
          (* Insert into user_roles *)
          match cast_null app_role_in (meta_role meta) with
          | Err e => (db, Err e)
          | Ok role =>
              user_roles_store db
                {| ur_user_id := au_id NEW;
                   ur_role := COALESCE role employee |}
          end
      end
  end.

(** [INSERT INTO auth.users] with the trigger [on_auth_user_created]. When
    the trigger raises, the insert is undone with it; the sequence keeps its
    value. *)
Definition insert_auth_users (db : database) (NEW : auth_users_row)
  : database * result unit :=
  match handle_new_user (set_auth_users db (auth_users db ++ [NEW])) NEW with
  | (db', Ok _) => (db', Ok tt)
  | (db', Err e) => (set_employee_id_seq db (employee_id_seq db'), Err e)
  end.

(* ------------------------------------------------------------------ *)
(** ** Registration: the sign-up page *)

(** The fields of the submitted form ([formData.get], null for a field that
    is absent or disabled). The role select is preset to "employee" and
    offers "employee" and "manager". *)
Record signup_form : Type := {
  form_name : option text;
  form_email : option text;
  form_password : option text;
  form_department : option text;
  form_role : option text
}.

(** [a || b] on nullable strings: the empty string is falsy. *)
Definition js_or (a b : option text) : option text :=
  match a with
  | Some s => if s =s? "" then b else a
  | None => b
  end.

Inductive signup_outcome : Type :=
| signup_failed (e : option pg_error)   (* toast.error(error.message) *)
| account_created.                       (* "Account created successfully!" *)

Section Auth.

(** Whether the identity service opens a session for a new user at once.
    When it does not (e-mail confirmation pending), the requests that
    follow sign-up run as the anonymous role. *)
Variable autoconfirm : bool.

(** [supabase.auth.signUp({email, password, options: {data}})]: the
    identity service inserts the identity record, [new_id] being its fresh
    identifier. A missing e-mail is refused by the service. *)
Definition signUp (new_id : uuid) (db : database) (email : option text)
           (meta : raw_user_meta_data)
  : database * option auth_users_row * option (option pg_error) :=
  match email with
  | None => (db, None, Some None)
  | Some e =>
      let NEW := {| au_id := new_id; au_email := e;
                    au_raw_user_meta_data := meta |} in
      match insert_auth_users db NEW with
      | (db', Ok _) => (db', Some NEW, None)
      | (db', Err err) => (db', None, Some (Some err))
      end
  end.

(** [handleSignUp] *)
Definition handleSignUp (new_id : uuid) (invitationData : option invitation_data)
           (form : signup_form) (db : database) : database * signup_outcome :=
  let name := js_or (option_map idata_name invitationData) (form_name form) in
  let email := js_or (option_map idata_email invitationData) (form_email form) in
  let department :=
    js_or (option_map idata_department invitationData) (form_department form) in
  let role := js_or (option_map idata_role invitationData) (form_role form) in
  let '(db, user, error) :=
    signUp new_id db email
      {| meta_name := name; meta_department := department; meta_role := role |} in
  match error with
  | Some e => (db, signup_failed e)
  | None =>
      (* If this is from an invitation, update invitation status and
         create user_role *)
      match invitationData, user with
      | Some inv, Some u =>
          let s : session := if autoconfirm then Some (au_id u) else None in
          let '(db, _) :=
            accept_invitations s db (fun r => inv_token r =s? idata_token inv) in
          (* Create user role entry *)
          let '(db, _) :=
            match app_role_in (idata_role inv) with
            | Ok r => insert_user_roles s db {| ur_user_id := au_id u; ur_role := r |}
            | Err e => (db, Err e)
            end in
          (db, account_created)
      | _, _ => (db, account_created)
      end
  end.

End Auth.

(* ------------------------------------------------------------------ *)
(** ** Reference notions the properties are stated with *)

(** A time of day given by hour and minute, in microseconds since midnight. *)
Definition time_of_hm (h m : Z) : time := (h * 3600 + m * 60) * USECS_PER_SEC.

(** The configured lateness threshold of a store: 9:15 when the setting row
    is absent, the hour and minute of the one row of that key ([key] is
    UNIQUE) when they are a time of day as the settings page admits it. *)
Inductive configured_threshold (db : database) : Z -> Z -> Prop :=
| threshold_absent :
    (forall r, In r (settings db) -> set_key r <> "late_threshold") ->
    configured_threshold db 9 15
| threshold_row : forall r h m,
    In r (settings db) ->
    set_key r = "late_threshold" ->
    (forall r', In r' (settings db) -> set_key r' = "late_threshold" -> r' = r) ->
    tv_hours (set_value r) = Some h ->
    tv_minutes (set_value r) = Some m ->
    0 <= h <= 23 -> 0 <= m <= 59 ->
    configured_threshold db h m.

(** The exact number of hours between two instants. *)
Definition exact_hours (check_in check_out : timestamptz) : Q :=
  ((check_out - check_in) # 1000000) / 3600.

(** A row whose timestamps lie 99.995 hours or more apart: its hours do not
    fit the DECIMAL(4,2) column, and no write of it passes the trigger. *)
Definition hours_overflow (r : attendance_row) : Prop :=
  exists check_in check_out,
    att_check_in_time r = Some check_in /\
    att_check_out_time r = Some check_out /\
    (19999 # 200 <= Qabs (exact_hours check_in check_out))%Q.

(** Rows that differ at most in the check-out time and in the two columns
    the triggers derive. *)
Definition same_but_check_out (r r' : attendance_row) : Prop :=
  att_id r' = att_id r /\ att_user_id r' = att_user_id r /\
  att_date r' = att_date r /\ att_check_in_time r' = att_check_in_time r /\
  att_status r' = att_status r /\ att_notes r' = att_notes r /\
  att_created_at r' = att_created_at r /\
  att_modified_by r' = att_modified_by r /\
  att_modified_at r' = att_modified_at r /\
  att_original_status r' = att_original_status r /\
  att_modification_reason r' = att_modification_reason r.

(** Rows that differ at most in the status, the audit columns and the two
    columns the triggers derive. *)
Definition same_but_audit (r r' : attendance_row) : Prop :=
  att_id r' = att_id r /\ att_user_id r' = att_user_id r /\
  att_date r' = att_date r /\ att_check_in_time r' = att_check_in_time r /\
  att_check_out_time r' = att_check_out_time r /\
  att_notes r' = att_notes r /\ att_created_at r' = att_created_at r.

(** Four decimal digits of an ordinal below 10000. *)
Definition digit (d : Z) : ascii := ascii_of_nat (48 + Z.to_nat (d mod 10)).

Definition zero_padded4 (n : Z) : text :=
  String (digit (n / 1000))
    (String (digit (n / 100)) (String (digit (n / 10)) (String (digit n) ""))).

Definition user_role_out (r : user_role) : text :=
  match r with
  | ur_employee => "employee"
  | ur_manager => "manager"
  end.

(* ------------------------------------------------------------------ *)
(** ** Example stores *)

Definition nine_fifteen : settings_row :=
  {| set_key := "late_threshold";
     set_value := {| tv_hours := Some 9; tv_minutes := Some 15 |} |}.

(** 2024-01-01T09:20:00Z, in milliseconds. *)
Definition jan1_0920 : js_date := 1704100800000.
(** 2024-01-01T17:20:00Z, in milliseconds. *)
Definition jan1_1720 : js_date := 1704129600000.
(** 2024-01-01T09:00:00Z, in milliseconds. *)
Definition jan1_0900 : js_date := 1704099600000.

Definition UTC : timestamptz -> Z := fun _ => 0.

(** Alice's record of 2024-01-01, checked in at 09:00. *)
Definition alice_jan1 : attendance_row :=
  {| att_id := "att-1"; att_user_id := "alice"; att_date := 19723;
     att_check_in_time := Some (timestamptz_of_js jan1_0900);
     att_check_out_time := None;
     att_status := present; att_total_hours := None; att_notes := None;
     att_created_at := timestamptz_of_js jan1_0900;
     att_updated_at := timestamptz_of_js jan1_0900;
     att_modified_by := None; att_modified_at := None;
     att_original_status := None; att_modification_reason := None |}.

(** Alice's record with a check-out at 17:20 written into it. *)
Definition alice_jan1_out : attendance_row :=
  apply_update
    {| upd_check_out_time := Some (timestamptz_of_js jan1_1720);
       upd_status := None; upd_modified_by := None; upd_modified_at := None;
       upd_original_status := None; upd_modification_reason := None |}
    alice_jan1.

(** A pending invitation for an employee, open until 2024-01-08. *)
Definition invite_bob : invitations_row :=
  {| inv_id := "inv-1"; inv_email := "bob@example.com"; inv_name := "Bob";
     inv_department := "Sales"; inv_role := employee; inv_invited_by := "mona";
     inv_token := "tok-bob"; inv_status := "pending";
     inv_expires_at := timestamptz_of_js (jan1_0900 + 7 * MSECS_PER_DAY) |}.

(** A store with a manager (mona), an employee (alice) with one record, the
    seeded threshold and one pending invitation. *)
Definition office : database :=
  {| auth_users :=
       [ {| au_id := "mona"; au_email := "mona@example.com";
            au_raw_user_meta_data :=
              {| meta_name := Some "Mona"; meta_department := Some "Ops";
                 meta_role := Some "manager" |} |};
         {| au_id := "alice"; au_email := "alice@example.com";
            au_raw_user_meta_data :=
              {| meta_name := Some "Alice"; meta_department := Some "Sales";
                 meta_role := Some "employee" |} |} ];
     profiles :=
       [ {| pr_id := "mona"; pr_name := "Mona"; pr_email := "mona@example.com";
            pr_employee_id := "EMP0001"; pr_department := "Ops";
            pr_role := ur_manager |};
         {| pr_id := "alice"; pr_name := "Alice"; pr_email := "alice@example.com";
            pr_employee_id := "EMP0002"; pr_department := "Sales";
            pr_role := ur_employee |} ];
     user_roles :=
       [ {| ur_user_id := "mona"; ur_role := manager |};
         {| ur_user_id := "alice"; ur_role := employee |} ];
     attendance := [ alice_jan1 ];
     invitations := [ invite_bob ];
     settings := [ nine_fifteen ];
     employee_id_seq := 2 |}.

(** The store after Mona has marked Alice absent, and Alice's record in it:
    status absent, original status present. *)
Definition office_edited : database :=
  fst (handleSubmit (Some "mona") jan1_1720 7
         {| rec_id := "att-1"; rec_status := present |}
         absent "  was on leave " office).

Definition alice_jan1_edited : attendance_row :=
  hd alice_jan1 (attendance office_edited).

(** The state of the sign-up page once a manager's session has looked up
    Bob's invitation. *)
Definition bob_invitation : invitation_data :=
  {| idata_email := "bob@example.com"; idata_name := "Bob";
     idata_department := "Sales"; idata_role := "employee";
     idata_token := "tok-bob" |}.

(** The office with Bob's invitation issued for another role. *)
Definition office_inviting (role : app_role) : database :=
  set_invitations office
    [ {| inv_id := "inv-1"; inv_email := "bob@example.com"; inv_name := "Bob";
         inv_department := "Sales"; inv_role := role; inv_invited_by := "mona";
         inv_token := "tok-bob"; inv_status := "pending";
         inv_expires_at := inv_expires_at invite_bob |} ].

(** The same store after 9999 sign-ups, the profile of ordinal 1000 gone. *)
Definition crowded_office : database := set_employee_id_seq office 9999.

(** Vera, who signed up as number 1000, and the store after 9999 sign-ups
    with her profile still there. *)
Definition vera : profiles_row :=
  {| pr_id := "vera"; pr_name := "Vera"; pr_email := "vera@example.com";
     pr_employee_id := "EMP1000"; pr_department := "Lab";
     pr_role := ur_employee |}.

Definition full_office : database :=
  {| auth_users :=
       (auth_users office ++
        [ {| au_id := "vera"; au_email := "vera@example.com";
             au_raw_user_meta_data :=
               {| meta_name := Some "Vera"; meta_department := Some "Lab";
                  meta_role := Some "employee" |} |} ])%list;
     profiles := (profiles office ++ [ vera ])%list;
     user_roles :=
       (user_roles office ++ [ {| ur_user_id := "vera"; ur_role := employee |} ])%list;
     attendance := attendance office;
     invitations := invitations office;
     settings := settings office;
     employee_id_seq := 9999 |}.

Definition bob_form : signup_form :=
  {| form_name := None; form_email := None; form_password := Some "secret1";
     form_department := None; form_role := None |}.

Definition carol_form : signup_form :=
  {| form_name := Some "Carol"; form_email := Some "carol@example.com";
     form_password := Some "secret2"; form_department := Some "Lab";
     form_role := Some "employee" |}.

Definition carol : auth_users_row :=
  {| au_id := "carol"; au_email := "carol@example.com";
     au_raw_user_meta_data :=
       {| meta_name := Some "Carol"; meta_department := None;
          meta_role := None |} |}.

(* ------------------------------------------------------------------ *)
(** ** The role hook *)

(** "Users can view all roles": FOR SELECT TO authenticated USING (true) *)
Definition user_roles_select_using (db : database) (s : session)
           (r : user_roles_row) : bool :=
  match s with
  | Some _ => true
  | None => false
  end.

(** [SELECT role FROM user_roles WHERE cond] through the API. *)
Definition select_user_roles (s : session) (db : database)
           (cond : user_roles_row -> bool) : list user_roles_row :=
  filter (fun r => cond r && user_roles_select_using db s r) (user_roles db).

(** [useUserRole]: the [roles] state once [loadRoles] has run, starting
    from the empty array. *)
Definition loadRoles (user : session) (db : database) : list text :=
  match user with
  | None => []
  | Some uid =>
      map (fun r => app_role_out (ur_role r))
          (select_user_roles user db (fun r => ur_user_id r =s? uid))
  end.

(** [hasRole = (role) => roles.includes(role)] *)
Definition hasRole (roles : list text) (role : text) : bool :=
  existsb (fun r => r =s? role) roles.

Definition isManager (roles : list text) : bool :=
  hasRole roles "manager" || hasRole roles "admin".

Definition isEmployee (roles : list text) : bool := hasRole roles "employee".

(* ------------------------------------------------------------------ *)
(** ** The settings page *)

Definition set_settings (db : database) (l : list settings_row) : database :=
  {| auth_users := auth_users db; profiles := profiles db;
     user_roles := user_roles db; attendance := attendance db;
     invitations := invitations db; settings := l;
     employee_id_seq := employee_id_seq db |}.

(** "Anyone can view settings" (FOR SELECT USING (true)) together with
    "Managers can update settings" (FOR ALL), which applies to SELECT too:
    permissive policies are joined by OR. *)
Definition settings_select_using (db : database) (s : session)
           (r : settings_row) : bool :=
  match s with
  | Some _ => true || manager_or_admin db s
  | None => false
  end.

(** "Managers can update settings": FOR ALL USING ... WITH CHECK ... *)
Definition settings_all_using (db : database) (s : session)
           (r : settings_row) : bool :=
  manager_or_admin db s.

Definition settings_all_check (db : database) (s : session)
           (new : settings_row) : bool :=
  manager_or_admin db s.

Definition update_settings_row (s : session) (db : database)
           (cond : settings_row -> bool) (v : threshold_value)
           (r : settings_row) : result settings_row :=
  if cond r && settings_select_using db s r && settings_all_using db s r
  then
    let NEW := {| set_key := set_key r; set_value := v |} in
    if settings_all_check db s NEW then Ok NEW else Err insufficient_privilege
  else Ok r.

Fixpoint update_settings_rows (s : session) (db : database)
         (cond : settings_row -> bool) (v : threshold_value)
         (rows : list settings_row) : result (list settings_row) :=
  match rows with
  | [] => Ok []
  | r :: rest =>
      r' <- update_settings_row s db cond v r ;;
      rest' <- update_settings_rows s db cond v rest ;;
      Ok (r' :: rest')
  end.

(** [UPDATE settings SET value = v WHERE cond] through the API. *)
Definition update_settings (s : session) (db : database)
           (cond : settings_row -> bool) (v : threshold_value)
  : database * result unit :=
  match update_settings_rows s db cond v (settings db) with
  | Ok rows => (set_settings db rows, Ok tt)
  | Err e => (db, Err e)
  end.

(** The [lateThreshold] state of the page: two integers ([parseInt] of the
    inputs, 0 for an input that does not parse). *)
Record late_threshold_state : Type := {
  lt_hours : Z;
  lt_minutes : Z
}.

(** [timeSchema.parse]:
    [hours: z.number().min(0).max(23), minutes: z.number().min(0).max(59)] *)
Definition timeSchema_parse (t : late_threshold_state)
  : option late_threshold_state :=
  if (0 <=? lt_hours t) && (lt_hours t <=? 23)
     && (0 <=? lt_minutes t) && (lt_minutes t <=? 59)
  then Some t else None.

Inductive save_outcome : Type :=
| invalid_time_format          (* toast: "Invalid time format" *)
| save_responded (r : result unit).

(** [Settings.handleSave] *)
Definition handleSave (s : session) (lateThreshold : late_threshold_state)
           (db : database) : database * save_outcome :=
  match timeSchema_parse lateThreshold with
  | None => (db, invalid_time_format)
  | Some validated =>
      let '(db', r) :=
        update_settings s db (fun r => set_key r =s? "late_threshold")
          {| tv_hours := Some (lt_hours validated);
             tv_minutes := Some (lt_minutes validated) |} in
      (db', save_responded r)
  end.

(** [SELECT value FROM settings WHERE cond] through the API. *)
Definition select_settings (s : session) (db : database)
           (cond : settings_row -> bool) : list settings_row :=
  filter (fun r => cond r && settings_select_using db s r) (settings db).

(** [Settings.loadSettings]: the value the page takes its state from, if
    any. *)
Definition loadSettings (s : session) (db : database) : option threshold_value :=
  match data (maybeSingle
                (select_settings s db (fun r => set_key r =s? "late_threshold")))
  with
  | Some (Some r) => Some (set_value r)
  | _ => None
  end.

(** [n.toString()] for an integer. *)
Definition Number_toString (n : Z) : string := NilZero.string_of_int (Z.to_int n).

(** [s.padStart(len, fill)]: padded on the left, never cut. *)
Definition padStart (s : string) (len : nat) (fill : string) : string :=
  if (len <=? String.length s)%nat then s
  else fill_chars fill (len - String.length s) ++ s.

(** [Settings.formatTime] *)
Definition formatTime (hours minutes : Z) : string :=
  let period := if 12 <=? hours then "PM" else "AM" in
  let displayHours :=
    if 12 <? hours then hours - 12 else if hours =? 0 then 12 else hours in
  Number_toString displayHours ++ ":"
    ++ padStart (Number_toString minutes) 2 "0" ++ " " ++ period.

(* ------------------------------------------------------------------ *)
(** ** The profile page *)

(** "Users can view all profiles": FOR SELECT USING (true) *)
Definition profiles_select_using (db : database) (s : session)
           (r : profiles_row) : bool :=
  match s with
  | Some _ => true
  | None => false
  end.

(** "Users can update their own profile": FOR UPDATE USING (auth.uid() = id) *)
Definition profiles_update_using (db : database) (s : session)
           (r : profiles_row) : bool :=
  match s with
  | Some uid => uid =s? pr_id r
  | None => false
  end.

Definition update_profiles_row (s : session) (db : database)
           (cond : profiles_row -> bool) (name department : text)
           (r : profiles_row) : result profiles_row :=
  if cond r && profiles_select_using db s r && profiles_update_using db s r
  then
    let NEW := {| pr_id := pr_id r; pr_name := name; pr_email := pr_email r;
                  pr_employee_id := pr_employee_id r;
                  pr_department := department; pr_role := pr_role r |} in
    if profiles_update_using db s NEW then Ok NEW
    else Err insufficient_privilege
  else Ok r.

Fixpoint update_profiles_rows (s : session) (db : database)
         (cond : profiles_row -> bool) (name department : text)
         (rows : list profiles_row) : result (list profiles_row) :=
  match rows with
  | [] => Ok []
  | r :: rest =>
      r' <- update_profiles_row s db cond name department r ;;
      rest' <- update_profiles_rows s db cond name department rest ;;
      Ok (r' :: rest')
  end.

(** [UPDATE profiles SET name = .., department = .. WHERE cond] through the
    API. *)
Definition update_profiles (s : session) (db : database)
           (cond : profiles_row -> bool) (name department : text)
  : database * result unit :=
  match update_profiles_rows s db cond name department (profiles db) with
  | Ok rows => (set_profiles db rows, Ok tt)
  | Err e => (db, Err e)
  end.

(** [Profile.handleUpdate]: [name] and [department] are the states of the
    two inputs. *)
Definition handleUpdate (user : session) (name department : text) (db : database)
  : database * result unit :=
  match user with
  | None => (db, Ok tt)
  | Some uid => update_profiles user db (fun r => pr_id r =s? uid) name department
  end.

(* ------------------------------------------------------------------ *)
(** ** The invitations page *)

Definition invitations_insert_check (db : database) (s : session)
           (new : invitations_row) : bool :=
  manager_or_admin db s.

Module Invitations.

Section Page.

(** [z.string().email()]: the e-mail test of the validation library. *)
Variable is_email : string -> bool.

(** [now() + INTERVAL '7 days'], the default of [expires_at], in the time
    zone of the store. *)
Variable seven_days_later : timestamptz -> timestamptz.

(** The [formData] state of the page. *)
Record form : Type := {
  email : text;
  name : text;
  department : text;
  role : text
}.

Record validated_form : Type := {
  v_email : text;
  v_name : text;
  v_department : text;
  v_role : app_role
}.

(** [invitationSchema.parse]:
    [email: z.string().email(..).max(255),
     name: z.string().trim().min(1, ..).max(100),
     department: z.string().trim().min(1, ..).max(100),
     role: z.enum(["employee", "manager", "admin"])] *)
Definition invitationSchema_parse (f : form) : option validated_form :=
  let n := trim (name f) in
  let d := trim (department f) in
  if is_email (email f) && (String.length (email f) <=? 255)%nat
     && (1 <=? String.length n)%nat && (String.length n <=? 100)%nat
     && (1 <=? String.length d)%nat && (String.length d <=? 100)%nat
  then
    match app_role_in (role f) with
    | Ok r => Some {| v_email := email f; v_name := n; v_department := d;
                      v_role := r |}
    | Err _ => None
    end
  else None.

(** [INSERT INTO invitations ... RETURNING *] through the API
    ([.insert(..).select().single()]). [new_id] and [new_token] are the
    values of [gen_random_uuid()] and [encode(gen_random_bytes(32), 'hex')].
    The row is returned under the SELECT policy, which is the expression of
    the INSERT policy. *)
Definition insert_invitations (s : session) (NOW : timestamptz)
           (new_id : uuid) (new_token : text) (db : database)
           (v : validated_form) (invited_by : uuid)
  : database * result invitations_row :=
  let NEW :=
    {| inv_id := new_id; inv_email := v_email v; inv_name := v_name v;
       inv_department := v_department v; inv_role := v_role v;
       inv_invited_by := invited_by; inv_token := new_token;
       inv_status := "pending"; inv_expires_at := seven_days_later NOW |} in
  if negb (invitations_insert_check db s NEW)
  then (db, Err insufficient_privilege)
  else if existsb (fun r => inv_token r =s? new_token) (invitations db)
  then (db, Err unique_violation)
  else (set_invitations db (invitations db ++ [NEW]), Ok NEW).

Inductive outcome : Type :=
| zod_error                  (* toast.error(error.errors[0].message) *)
| not_logged_in              (* "You must be logged in" *)
| responded (r : result invitations_row).

(** [Invitations.handleSubmit] *)
Definition handleSubmit (user : session) (NOW : timestamptz) (new_id : uuid)
           (new_token : text) (formData : form) (db : database)
  : database * outcome :=
  match invitationSchema_parse formData with
  | None => (db, zod_error)
  | Some validated =>
      match user with
      | None => (db, not_logged_in)
      | Some uid =>
          let '(db', r) :=
            insert_invitations user NOW new_id new_token db validated uid in
          (db', responded r)
      end
  end.

End Page.

(** [getStatusBadge(status, expiresAt)]: the label of the badge. *)
Definition getStatusBadge (clock : js_date) (status : text)
           (expiresAt : timestamptz) : text :=
  if js_of_timestamptz expiresAt <? clock then "Expired" else status.

End Invitations.

(* ------------------------------------------------------------------ *)
(** ** Migration of the profile roles *)

(** One row of [SELECT id, role::text::app_role FROM profiles] inserted
    with [ON CONFLICT (user_id, role) DO NOTHING]. *)
Definition migrate_profile (urs : list user_roles_row) (p : profiles_row)
  : result (list user_roles_row) :=
  r <- app_role_in (user_role_out (pr_role p)) ;;
  let new := {| ur_user_id := pr_id p; ur_role := r |} in
  Ok (if existsb (user_roles_key_eqb new) urs then urs else (urs ++ [new])%list).

Fixpoint migrate_profiles (ps : list profiles_row) (urs : list user_roles_row)
  : result (list user_roles_row) :=
  match ps with
  | [] => Ok urs
  | p :: rest => urs' <- migrate_profile urs p ;; migrate_profiles rest urs'
  end.

(** [INSERT INTO user_roles (user_id, role)
     SELECT id, role::text::app_role FROM profiles
     ON CONFLICT (user_id, role) DO NOTHING], run by the migration. *)
Definition migrate_roles (db : database) : database * result unit :=
  match migrate_profiles (profiles db) (user_roles db) with
  | Ok urs => (set_user_roles db urs, Ok tt)
  | Err e => (db, Err e)
  end.

(* ------------------------------------------------------------------ *)
(** ** The team page: search *)

(** [String.prototype.toLowerCase] on one code unit below 256: the letters
    A-Z and the capital letters of Latin-1 (all of 0xC0-0xDE but the
    multiplication sign). *)
Definition lower_char (c : ascii) : ascii :=
  let n := nat_of_ascii c in
  if ((65 <=? n) && (n <=? 90)
      || (192 <=? n) && (n <=? 222) && negb (n =? 215))%nat
  then ascii_of_nat (n + 32) else c.

Fixpoint toLowerCase (s : string) : string :=
  match s with
  | EmptyString => EmptyString
  | String c rest => String (lower_char c) (toLowerCase rest)
  end.

(** [s.includes(t)] *)
Fixpoint includes (s t : string) : bool :=
  String.prefix t s ||
  match s with
  | EmptyString => false
  | String _ rest => includes rest t
  end.

(** A record of the team page: the attendance row with the profile of its
    user embedded. *)
Record team_record : Type := {
  tr_row : attendance_row;
  tr_name : text;
  tr_employee_id : text;
  tr_department : text
}.

(** The search effect of [TeamAttendance]: the value of [filteredRecords]
    for the given [records] and [searchTerm]. The empty term is falsy. *)
Definition filteredRecords (records : list team_record) (searchTerm : string)
  : list team_record :=
  if searchTerm =s? "" then records
  else
    filter (fun record =>
              includes (toLowerCase (tr_name record)) (toLowerCase searchTerm)
              || includes (toLowerCase (tr_employee_id record))
                          (toLowerCase searchTerm)
              || includes (toLowerCase (tr_department record))
                          (toLowerCase searchTerm))
           records.

(* ------------------------------------------------------------------ *)
(** ** The attendance history page *)

(** [SELECT * FROM attendance WHERE cond] through the API. *)
Definition select_attendance (s : session) (db : database)
           (cond : attendance_row -> bool) : list attendance_row :=
  filter (fun r => cond r && attendance_select_using db s r) (attendance db).

(** [ORDER BY date DESC] *)
Fixpoint insert_by_date_desc (r : attendance_row) (l : list attendance_row)
  : list attendance_row :=
  match l with
  | [] => [r]
  | x :: rest =>
      if att_date x <=? att_date r then r :: l
      else x :: insert_by_date_desc r rest
  end.

Definition order_by_date_desc (l : list attendance_row) : list attendance_row :=
  fold_right insert_by_date_desc [] l.

Record monthly_stats : Type := {
  ms_present : nat;
  ms_absent : nat;
  ms_late : nat;
  ms_halfDay : nat
}.

(** [data.filter((r) => r.status === label).length] *)
Definition count_status (label : text) (rows : list attendance_row) : nat :=
  List.length (filter (fun r => attendance_status_out (att_status r) =s? label) rows).

(** [Attendance.loadAttendance]: the [records] and [monthlyStats] states
    afterwards, [None] when nobody is signed in. [monthStart] and [monthEnd]
    are the first and last day of the selected month. *)
Definition loadAttendance (user : session) (monthStart monthEnd : date)
           (db : database) : option (list attendance_row * monthly_stats) :=
  match user with
  | None => None
  | Some uid =>
      let rows :=
        order_by_date_desc
          (select_attendance user db
             (fun r => (att_user_id r =s? uid)
                       && (monthStart <=? att_date r)
                       && (att_date r <=? monthEnd))) in
      Some (rows,
            {| ms_present := count_status "present" rows;
               ms_absent := count_status "absent" rows;
               ms_late := count_status "late" rows;
               ms_halfDay := count_status "half-day" rows |})
  end.

(** [Attendance.getDateStatus]: the status shown for a day of the calendar. *)
Definition getDateStatus (records : list attendance_row) (day : date)
  : option attendance_status :=
  option_map att_status (find (fun r => att_date r =? day) records).

(* ------------------------------------------------------------------ *)
(** ** The uniqueness constraints of the schema *)

(** [attendance: UNIQUE (user_id, date)] *)
Definition ledger_unique (db : database) : Prop :=
  NoDup (map (fun r => (att_user_id r, att_date r)) (attendance db)).

(** [user_roles: UNIQUE (user_id, role)] *)
Definition grants_unique (db : database) : Prop := NoDup (user_roles db).

(** [profiles: PRIMARY KEY (id), employee_id UNIQUE] *)
Definition profiles_unique (db : database) : Prop :=
  NoDup (map pr_id (profiles db)) /\ NoDup (map pr_employee_id (profiles db)).

(** [invitations: token UNIQUE] *)
Definition tokens_unique (db : database) : Prop :=
  NoDup (map inv_token (invitations db)).

(* ------------------------------------------------------------------ *)
(** ** Further reference notions and examples *)

(** All the times of day the settings page admits. *)
Definition valid_times : list (Z * Z) :=
  flat_map (fun h => map (fun m => (Z.of_nat h, Z.of_nat m)) (seq 0 60)) (seq 0 24).

Fixpoint all_distinct (l : list string) : bool :=
  match l with
  | [] => true
  | x :: rest => negb (existsb (String.eqb x) rest) && all_distinct rest
  end.

(** The office with the threshold row lacking its hour. *)
Definition office_without_hour : database :=
  set_settings office
    [ {| set_key := "late_threshold";
         set_value := {| tv_hours := None; tv_minutes := Some 99 |} |} ].

(** The office with a threshold that is no time of day. *)
Definition office_with_hour_25 : database :=
  set_settings office
    [ {| set_key := "late_threshold";
         set_value := {| tv_hours := Some 25; tv_minutes := Some 0 |} |} ].

(** [settings: key UNIQUE] *)
Definition settings_unique (db : database) : Prop :=
  NoDup (map set_key (settings db)).

(** The row a check-in stores. *)
Definition checked_in_row (uid : uuid) (clock : js_date) (NOW : timestamptz)
           (new_id : uuid) (st : attendance_status) : attendance_row :=
  {| att_id := new_id; att_user_id := uid; att_date := iso_date clock;
     att_check_in_time := Some (timestamptz_of_js clock);
     att_check_out_time := None; att_status := st; att_total_hours := None;
     att_notes := None; att_created_at := NOW; att_updated_at := NOW;
     att_modified_by := None; att_modified_at := None;
     att_original_status := None; att_modification_reason := None |}.

(** A visitor's sign-up form that declares the manager role. *)
Definition dave_form : signup_form :=
  {| form_name := Some "Dave"; form_email := Some "dave@example.com";
     form_password := Some "secret3"; form_department := Some "Ops";
     form_role := Some "manager" |}.

(** Bob's invitation as the page holds it, when issued for another role. *)
Definition bob_invited_as (role : text) : invitation_data :=
  {| idata_email := "bob@example.com"; idata_name := "Bob";
     idata_department := "Sales"; idata_role := role;
     idata_token := "tok-bob" |}.

(** The grant the migration derives from a profile. *)
Definition profile_grant (p : profiles_row) : user_roles_row :=
  {| ur_user_id := pr_id p;
     ur_role := match pr_role p with
                | ur_employee => employee
                | ur_manager => manager
                end |}.

(** An e-mail test for the examples, and the expiry default of a store that
    runs in UTC. *)
Definition has_at_sign (s : string) : bool := includes s "@".

Definition seven_days_utc (t : timestamptz) : timestamptz := t + 7 * USECS_PER_DAY.

Definition erin_form : Invitations.form :=
  {| Invitations.email := "erin@example.com"; Invitations.name := " Erin ";
     Invitations.department := "Lab"; Invitations.role := "employee" |}.

Definition team : list team_record :=
  [ {| tr_row := alice_jan1; tr_name := "Alice"; tr_employee_id := "EMP0002";
       tr_department := "Sales" |};
    {| tr_row := alice_jan1_out; tr_name := "Mona"; tr_employee_id := "EMP0001";
       tr_department := "Ops" |} ].

(* ================================================================== *)
(** * Properties *)

(** ** Basic facts *)

Lemma app_role_eqb_eq (a b : app_role) : app_role_eqb a b = true <-> a = b.
Proof. destruct a, b; simpl; split; congruence. Qed.



Lemma set_attendance_same (db : database) : set_attendance db (attendance db) = db.
Proof. now destruct db. Qed.

Lemma filter_all {A : Type} (p : A -> bool) (l : list A) :
  (forall x, In x l -> p x = true) -> filter p l = l.
Proof.
  induction l as [|a l IH]; intros H; simpl; [reflexivity|].
  rewrite (H a (or_introl eq_refl)). f_equal. apply IH.
  intros x Hx. apply H. now right.
Qed.

Lemma filter_none {A : Type} (p : A -> bool) (l : list A) :
  (forall x, In x l -> p x = false) -> filter p l = [].
Proof.
  induction l as [|a l IH]; intros H; simpl; [reflexivity|].
  rewrite (H a (or_introl eq_refl)). apply IH.
  intros x Hx. apply H. now right.
Qed.

(* ------------------------------------------------------------------ *)
(** ** Authorization failures *)

(** C6, the claim as stated fails: Alice holds neither the manager nor the
    admin role, and her attempt to delete her own record raises no
    authorization error: the statement succeeds, having deleted no row. *)
Lemma unprivileged_delete_raises_nothing :
  has_role office "alice" manager = false /\
  has_role office "alice" admin = false /\
  In alice_jan1 (attendance office) /\
  delete_attendance (Some "alice") office (fun r => att_id r =s? "att-1")
    = (office, Ok 0%nat) /\
  snd (delete_attendance (Some "alice") office (fun r => att_id r =s? "att-1"))
    <> Err insufficient_privilege.
Proof.
  repeat split.
  - simpl. now left.
  - discriminate.
Qed.

(** [has_role] is true exactly when the role set holds the pair. *)
Lemma has_role_In (db : database) (uid : uuid) (role : app_role) :
  has_role db uid role = true <->
  In {| ur_user_id := uid; ur_role := role |} (user_roles db).
Proof.
  unfold has_role. rewrite existsb_exists. split.
  - intros [r [Hin Hr]]. apply andb_true_iff in Hr. destruct Hr as [Hu Hro].
    apply String.eqb_eq in Hu. apply app_role_eqb_eq in Hro.
    destruct r as [u ro]. cbn in Hu, Hro. now subst.
  - intros Hin. eexists. split; [exact Hin|]. cbn.
    rewrite String.eqb_refl. now apply app_role_eqb_eq.
Qed.

Lemma not_manager_or_admin (db : database) (uid : uuid) :
  ~ In {| ur_user_id := uid; ur_role := manager |} (user_roles db) ->
  ~ In {| ur_user_id := uid; ur_role := admin |} (user_roles db) ->
  manager_or_admin db (Some uid) = false.
Proof.
  intros Hm Ha. unfold manager_or_admin. apply orb_false_iff.
  split; apply not_true_is_false; intros H; apply has_role_In in H; tauto.
Qed.

(** C6, amended: for an identity holding neither the manager nor the admin
    role, inserting a UserRole row fails with the authorization error and
    leaves the store unchanged; deleting attendance records raises nothing,
    deletes no row and leaves the store (the ledger with it) unchanged. *)
Theorem unprivileged_role_insert_and_delete
        (db : database) (uid : uuid)
        (Hm : ~ In {| ur_user_id := uid; ur_role := manager |} (user_roles db))
        (Ha : ~ In {| ur_user_id := uid; ur_role := admin |} (user_roles db)) :
  (forall new, insert_user_roles (Some uid) db new
               = (db, Err insufficient_privilege)) /\
  (forall cond, delete_attendance (Some uid) db cond = (db, Ok 0%nat)).
Proof.
  pose proof (not_manager_or_admin db uid Hm Ha) as H. split.
  - intros new. unfold insert_user_roles, user_roles_insert_check.
    now rewrite H.
  - intros cond. unfold delete_attendance, attendance_delete_using.
    rewrite H.
    rewrite filter_all, filter_none, set_attendance_same; [reflexivity| |];
      intros x _; now rewrite andb_false_r.
Qed.

Lemma unprivileged_role_insert_and_delete_witness :
  (forall new, insert_user_roles (Some "alice") office new
               = (office, Err insufficient_privilege)) /\
  (forall cond, delete_attendance (Some "alice") office cond = (office, Ok 0%nat)).
Proof.
  apply (unprivileged_role_insert_and_delete office "alice");
    simpl; intros [H|[H|[]]]; discriminate H.
Defined.

(* ------------------------------------------------------------------ *)
(** ** Check-in *)

Lemma calculate_total_hours_no_check_out (r : attendance_row) :
  att_check_out_time r = None -> calculate_total_hours r = Ok r.
Proof.
  intros H. unfold calculate_total_hours. rewrite H.
  now destruct (att_check_in_time r).
Qed.

(** C4: when the ledger already holds a record for the user and the calendar
    date of the check-in, the check-in is rejected by the uniqueness
    constraint and the store, the original record with it, is unchanged. *)
Theorem second_check_in_rejected
        (utc_offset : timestamptz -> Z) (uid : uuid) (clock : js_date)
        (NOW : timestamptz) (new_id : uuid) (db : database)
        (r : attendance_row)
        (Hin : In r (attendance db))
        (Huser : att_user_id r = uid)
        (Hdate : att_date r = iso_date clock) :
  handleCheckIn utc_offset (Some uid) clock NOW new_id db
  = (db, Err unique_violation) /\
  In r (attendance (fst (handleCheckIn utc_offset (Some uid) clock NOW new_id db))).
Proof.
  assert (E : handleCheckIn utc_offset (Some uid) clock NOW new_id db
              = (db, Err unique_violation)).
  { unfold handleCheckIn, insert_attendance.
    rewrite calculate_total_hours_no_check_out by reflexivity.
    unfold attendance_insert_check. cbn [att_user_id].
    rewrite String.eqb_refl. cbn [negb].
    match goal with |- (if existsb ?p ?l then _ else _) = _ =>
      assert (Hex : existsb p l = true) end.
    { apply existsb_exists. exists r. split; [exact Hin|].
      unfold attendance_key_eqb. cbn [att_user_id att_date].
      rewrite Huser, Hdate, String.eqb_refl, Z.eqb_refl. reflexivity. }
    now rewrite Hex. }
  rewrite E. split; [reflexivity | exact Hin].
Qed.

Lemma second_check_in_rejected_witness :
  handleCheckIn UTC (Some "alice") jan1_0920 0 "att-2" office
  = (office, Err unique_violation) /\
  In alice_jan1
     (attendance (fst (handleCheckIn UTC (Some "alice") jan1_0920 0 "att-2" office))).
Proof.
  apply (second_check_in_rejected UTC "alice" jan1_0920 0 "att-2" office alice_jan1).
  - simpl. now left.
  - reflexivity.
  - reflexivity.
Defined.

(* ------------------------------------------------------------------ *)
(** ** Lateness *)

Lemma find_absent (db : database) :
  (forall r, In r (settings db) -> set_key r <> "late_threshold") ->
  late_threshold_row db = None.
Proof.
  unfold late_threshold_row. induction (settings db) as [|a l IH]; intros H.
  - reflexivity.
  - simpl. destruct (String.eqb_spec (set_key a) "late_threshold") as [E|_].
    + exfalso. exact (H a (or_introl eq_refl) E).
    + apply IH. intros r Hr. apply H. now right.
Qed.

Lemma find_present (db : database) (r : settings_row) :
  In r (settings db) ->
  set_key r = "late_threshold" ->
  (forall r', In r' (settings db) -> set_key r' = "late_threshold" -> r' = r) ->
  late_threshold_row db = Some r.
Proof.
  unfold late_threshold_row. induction (settings db) as [|a l IH];
    intros Hin Hkey Huniq; [contradiction|].
  simpl. destruct (String.eqb_spec (set_key a) "late_threshold") as [E|N].
  - f_equal. apply Huniq; [now left | exact E].
  - destruct Hin as [->|Hin]; [contradiction|].
    apply IH; [exact Hin | exact Hkey|].
    intros r' Hr'. apply Huniq. now right.
Qed.

Lemma int4_in_small (z : Z) : 0 <= z <= 59 -> int4_in z = Ok z.
Proof.
  intros H. unfold int4_in.
  destruct (Z.leb_spec (-2147483648) z); [|lia].
  destruct (Z.leb_spec z 2147483647); [|lia]. reflexivity.
Qed.

Lemma make_time_hm (h m : Z) :
  0 <= h <= 23 -> 0 <= m <= 59 -> make_time h m 0 = Ok (time_of_hm h m).
Proof.
  intros Hh Hm. unfold make_time, time_of_hm, USECS_PER_DAY, USECS_PER_SEC.
  destruct (Z.ltb_spec h 0); [lia|].
  destruct (Z.ltb_spec 24 h); [lia|].
  destruct (Z.ltb_spec m 0); [lia|].
  destruct (Z.ltb_spec 59 m); [lia|].
  change (0 <? 0) with false. change (60 <? 0) with false. cbn [orb].
  destruct (Z.ltb_spec 86400000000 (((h * 60 + m) * 60 + 0) * 1000000)); [lia|].
  f_equal. lia.
Qed.

Lemma is_late_check_in_value (utc_offset : timestamptz -> Z) (db : database)
      (h m : Z) (check_in_time : timestamptz) :
  configured_threshold db h m ->
  is_late_check_in utc_offset db check_in_time
  = Ok (Some (time_of_hm h m <? timestamptz_time utc_offset check_in_time)).
Proof.
  intros [Habs | r h' m' Hin Hkey Huniq Hh Hm Rh Rm]; unfold is_late_check_in.
  - rewrite (find_absent db Habs). cbn [bind].
    rewrite make_time_hm by lia. reflexivity.
  - rewrite (find_present db r Hin Hkey Huniq), Hh, Hm. cbn [int4_in_null bind].
    rewrite !int4_in_small by lia. cbn [bind].
    rewrite make_time_hm by lia. reflexivity.
Qed.

(** C1: with the configured threshold (9:15 when the setting row is absent),
    [is_late_check_in] returns true exactly when the wall-clock time of day
    of the check-in instant is strictly greater than the threshold; at the
    threshold itself it returns false. *)
Theorem is_late_iff_after_threshold
        (utc_offset : timestamptz -> Z) (db : database) (h m : Z)
        (check_in_time : timestamptz)
        (H : configured_threshold db h m) :
  exists b : bool,
    is_late_check_in utc_offset db check_in_time = Ok (Some b) /\
    (b = true <-> time_of_hm h m < timestamptz_time utc_offset check_in_time) /\
    (timestamptz_time utc_offset check_in_time = time_of_hm h m -> b = false).
Proof.
  exists (time_of_hm h m <? timestamptz_time utc_offset check_in_time).
  split; [now apply is_late_check_in_value|].
  split.
  - apply Z.ltb_lt.
  - intros ->. apply Z.ltb_irrefl.
Qed.

Lemma office_threshold : configured_threshold office 9 15.
Proof.
  apply (threshold_row office nine_fifteen 9 15); try reflexivity; try lia.
  - simpl. now left.
  - intros r' [<-|[]] _. reflexivity.
Defined.

Lemma is_late_iff_after_threshold_witness :
  exists b : bool,
    is_late_check_in UTC office (timestamptz_of_js jan1_0920) = Ok (Some b) /\
    (b = true <->
     time_of_hm 9 15 < timestamptz_time UTC (timestamptz_of_js jan1_0920)) /\
    (timestamptz_time UTC (timestamptz_of_js jan1_0920) = time_of_hm 9 15 ->
     b = false).
Proof.
  apply (is_late_iff_after_threshold UTC office 9 15 (timestamptz_of_js jan1_0920)).
  exact office_threshold.
Defined.

(** The boundary of the specification: 09:15:00 is on time, 09:15:01 late. *)
Example nine_fifteen_sharp_on_time :
  is_late_check_in UTC office (1704100500 * USECS_PER_SEC) = Ok (Some false).
Proof. reflexivity. Qed.

Example nine_fifteen_and_a_second_late :
  is_late_check_in UTC office (1704100501 * USECS_PER_SEC) = Ok (Some true).
Proof. reflexivity. Qed.

(** Without the setting row the threshold is 9:15. *)
Example default_threshold_applies :
  is_late_check_in UTC (set_attendance
                          {| auth_users := []; profiles := []; user_roles := [];
                             attendance := []; invitations := []; settings := [];
                             employee_id_seq := 0 |} [])
                   (1704100501 * USECS_PER_SEC) = Ok (Some true).
Proof. reflexivity. Qed.

(** The status a first check-in of the day is stored with. *)
Lemma handleCheckIn_status
      (utc_offset : timestamptz -> Z) (uid : uuid) (clock : js_date)
      (NOW : timestamptz) (new_id : uuid) (db : database) (h m : Z) :
  configured_threshold db h m ->
  (forall r, In r (attendance db) ->
             att_user_id r = uid -> att_date r <> iso_date clock) ->
  exists rec,
    handleCheckIn utc_offset (Some uid) clock NOW new_id db
    = (set_attendance db (attendance db ++ [rec]), Ok tt) /\
    att_user_id rec = uid /\ att_date rec = iso_date clock /\
    att_check_in_time rec = Some (timestamptz_of_js clock) /\
    att_check_out_time rec = None /\ att_total_hours rec = None /\
    att_status rec =
      (if time_of_hm h m <? timestamptz_time utc_offset (timestamptz_of_js clock)
       then late else present).
Proof.
  intros Hcfg Hfree. eexists. split.
  - unfold handleCheckIn, insert_attendance.
    rewrite (is_late_check_in_value utc_offset db h m _ Hcfg). cbn [data truthy].
    rewrite calculate_total_hours_no_check_out by reflexivity.
    unfold attendance_insert_check. cbn [att_user_id].
    rewrite String.eqb_refl. cbn [negb].
    match goal with |- (if existsb ?p ?l then _ else _) = _ =>
      assert (Hex : existsb p l = false) end.
    { apply not_true_is_false. intros Hex.
      apply existsb_exists in Hex. destruct Hex as [r [Hin Hk]].
      unfold attendance_key_eqb in Hk. cbn [att_user_id att_date] in Hk.
      apply andb_true_iff in Hk. destruct Hk as [Hu Hd].
      apply String.eqb_eq in Hu. apply Z.eqb_eq in Hd.
      apply (Hfree r Hin); [now rewrite <- Hu | now rewrite <- Hd]. }
    rewrite Hex. reflexivity.
  - cbn. repeat split.
    now destruct (time_of_hm h m <? timestamptz_time utc_offset (timestamptz_of_js clock)).
Qed.

(* ------------------------------------------------------------------ *)
(** ** Total hours *)

Lemma round_half_away_Z (n : Z) (d : positive) :
  let c := Z.sgn n * ((2 * Z.abs n + Zpos d) / (2 * Zpos d)) in
  - Zpos d <= 2 * c * Zpos d - 2 * n <= Zpos d.
Proof.
  intros c. subst c.
  pose proof (Z.div_mod (2 * Z.abs n + Zpos d) (2 * Zpos d) ltac:(lia)) as E.
  pose proof (Z.mod_pos_bound (2 * Z.abs n + Zpos d) (2 * Zpos d) ltac:(lia)) as B.
  set (k := (2 * Z.abs n + Zpos d) / (2 * Zpos d)) in *.
  set (r := (2 * Z.abs n + Zpos d) mod (2 * Zpos d)) in *.
  destruct (Z.sgn_spec n) as [[Hn ->]|[[Hn ->]|[Hn ->]]]; nia.
Qed.

(** Rounding moves a value by at most one half. *)
Lemma round_half_away_close (q : Q) :
  (Qabs (inject_Z (round_half_away q) - q) <= 1 # 2)%Q.
Proof.
  apply Qabs_Qle_condition.
  pose proof (round_half_away_Z (Qnum q) (Qden q)) as H. cbv zeta in H.
  fold (round_half_away q) in H.
  destruct q as [n d]. cbn [Qnum Qden] in *.
  set (c := round_half_away (n # d)) in *.
  unfold Qle, Qminus, Qplus, Qopp, inject_Z; cbn [Qnum Qden].
  split; nia.
Qed.

Lemma hundredths_close (q : Q) :
  (Qabs (hundredths (round_half_away (q * 100)) - q) <= 1 # 200)%Q.
Proof.
  apply Qabs_Qle_condition.
  pose proof (round_half_away_Z (Qnum (q * 100)) (Qden (q * 100))) as H.
  cbv zeta in H. fold (round_half_away (q * 100)) in H.
  set (c := round_half_away (q * 100)) in *.
  destruct q as [n d]. cbn [Qnum Qden Qmult] in H.
  rewrite Pos.mul_1_r in H.
  unfold hundredths, Qle, Qminus, Qplus, Qopp; cbn [Qnum Qden].
  rewrite !Pos2Z.inj_mul. split; nia.
Qed.

Lemma numeric_4_2_cases (q : Q) :
  (exists c, numeric_4_2 q = Ok c /\ Z.abs c < 10000 /\
             (Qabs (hundredths c - q) <= 1 # 200)%Q) \/
  (numeric_4_2 q = Err numeric_value_out_of_range /\
   (19999 # 200 <= Qabs q)%Q).
Proof.
  unfold numeric_4_2.
  destruct (Z.ltb_spec (Z.abs (round_half_away (q * 100))) 10000) as [Hlt|Hge].
  - left. eexists. split; [reflexivity|]. split; [exact Hlt|].
    apply hundredths_close.
  - right. split; [reflexivity|].
    pose proof (round_half_away_Z (Qnum (q * 100)) (Qden (q * 100))) as H.
    cbv zeta in H. fold (round_half_away (q * 100)) in H.
    set (c := round_half_away (q * 100)) in *.
    destruct q as [n d]. cbn [Qnum Qden Qmult] in H.
    rewrite Pos.mul_1_r in H.
    unfold Qle, Qabs; cbn [Qnum Qden]. nia.
Qed.

Lemma calculate_total_hours_cases (NEW : attendance_row) :
  (exists NEW', calculate_total_hours NEW = Ok NEW' /\
                (NEW' = NEW \/ exists h, NEW' = with_total_hours NEW (Some h))) \/
  (calculate_total_hours NEW = Err numeric_value_out_of_range /\
   hours_overflow NEW).
Proof.
  unfold calculate_total_hours, hours_overflow.
  destruct (att_check_in_time NEW) as [a|]; [|left; eauto].
  destruct (att_check_out_time NEW) as [b|]; [|left; eauto].
  change (EXTRACT_EPOCH (b - a) / 3600)%Q with (exact_hours a b).
  destruct (numeric_4_2_cases (exact_hours a b)) as [[c [E _]]|[E Hq]];
    rewrite E; cbn [bind].
  - left. eauto.
  - right. split; [reflexivity|]. exists a, b. auto.
Qed.

(** C3, the claim as stated fails: between 09:00 and 17:20 lie 25/3 hours,
    and the trigger stores 8.33, which is not that quotient. *)
Lemma total_hours_is_rounded :
  att_check_in_time alice_jan1_out = Some (timestamptz_of_js jan1_0900) /\
  att_check_out_time alice_jan1_out = Some (timestamptz_of_js jan1_1720) /\
  calculate_total_hours alice_jan1_out
  = Ok (with_total_hours alice_jan1_out (Some 833)) /\
  (exact_hours (timestamptz_of_js jan1_0900) (timestamptz_of_js jan1_1720)
   == 25 # 3)%Q /\
  ~ (hundredths 833
     == exact_hours (timestamptz_of_js jan1_0900) (timestamptz_of_js jan1_1720))%Q.
Proof.
  repeat split; try reflexivity. intros H. vm_compute in H. discriminate H.
Qed.

(** C3, amended: total hours is computed only when both timestamps are
    present, and is then (check-out - check-in) in seconds divided by 3600
    rounded to the two decimals of the DECIMAL(4,2) column, hence within
    0.005 of the exact quotient; when the quotient reaches 99.995 hours in
    magnitude the write is refused with a numeric overflow. When check-in or
    check-out is absent the trigger returns the row as it is, so an unset
    total-hours field remains unset, not zero. *)
Theorem calculate_total_hours_rounds (NEW : attendance_row) :
  (forall check_in check_out,
      att_check_in_time NEW = Some check_in ->
      att_check_out_time NEW = Some check_out ->
      (exists c,
          calculate_total_hours NEW = Ok (with_total_hours NEW (Some c)) /\
          Z.abs c < 10000 /\
          (Qabs (hundredths c - exact_hours check_in check_out) <= 1 # 200)%Q) \/
      (calculate_total_hours NEW = Err numeric_value_out_of_range /\
       (19999 # 200 <= Qabs (exact_hours check_in check_out))%Q)) /\
  (att_check_in_time NEW = None \/ att_check_out_time NEW = None ->
   calculate_total_hours NEW = Ok NEW) /\
  (att_check_out_time NEW = None -> att_total_hours NEW = None ->
   exists NEW', calculate_total_hours NEW = Ok NEW' /\
                att_total_hours NEW' = None /\ att_total_hours NEW' <> Some 0).
Proof.
  split; [|split].
  - intros a b Ha Hb. unfold calculate_total_hours. rewrite Ha, Hb.
    change (EXTRACT_EPOCH (b - a) / 3600)%Q with (exact_hours a b).
    destruct (numeric_4_2_cases (exact_hours a b)) as [[c [E [Hc Hq]]]|[E Hq]];
      rewrite E; cbn [bind]; [left; exists c|right]; auto.
  - intros [H|H]; unfold calculate_total_hours; rewrite H;
      [reflexivity | now destruct (att_check_in_time NEW)].
  - intros Hco Hth. exists NEW.
    rewrite calculate_total_hours_no_check_out by exact Hco.
    rewrite Hth. repeat split. discriminate.
Qed.

Lemma calculate_total_hours_rounds_witness :
  ((exists c,
       calculate_total_hours alice_jan1_out
       = Ok (with_total_hours alice_jan1_out (Some c)) /\
       Z.abs c < 10000 /\
       (Qabs (hundredths c
              - exact_hours (timestamptz_of_js jan1_0900)
                            (timestamptz_of_js jan1_1720)) <= 1 # 200)%Q) \/
   (calculate_total_hours alice_jan1_out = Err numeric_value_out_of_range /\
    (19999 # 200 <= Qabs (exact_hours (timestamptz_of_js jan1_0900)
                                      (timestamptz_of_js jan1_1720)))%Q)) /\
  calculate_total_hours alice_jan1 = Ok alice_jan1 /\
  (exists NEW', calculate_total_hours alice_jan1 = Ok NEW' /\
                att_total_hours NEW' = None /\ att_total_hours NEW' <> Some 0).
Proof.
  destruct (calculate_total_hours_rounds alice_jan1_out) as [Hboth _].
  destruct (calculate_total_hours_rounds alice_jan1) as [_ [Hnone Hunset]].
  split; [|split].
  - apply Hboth; reflexivity.
  - apply Hnone. right. reflexivity.
  - apply Hunset; reflexivity.
Defined.

(** The scenario of the specification: in at 09:20, out at 17:20, 8.00 hours. *)
Example eight_hours :
  calculate_total_hours
    (apply_update
       {| upd_check_out_time := Some (timestamptz_of_js jan1_1720);
          upd_status := None; upd_modified_by := None; upd_modified_at := None;
          upd_original_status := None; upd_modification_reason := None |}
       (apply_update no_update
          {| att_id := "att-9"; att_user_id := "alice"; att_date := 19723;
             att_check_in_time := Some (timestamptz_of_js jan1_0920);
             att_check_out_time := None; att_status := late;
             att_total_hours := None; att_notes := None;
             att_created_at := 0; att_updated_at := 0;
             att_modified_by := None; att_modified_at := None;
             att_original_status := None; att_modification_reason := None |}))
  = Ok {| att_id := "att-9"; att_user_id := "alice"; att_date := 19723;
          att_check_in_time := Some (timestamptz_of_js jan1_0920);
          att_check_out_time := Some (timestamptz_of_js jan1_1720);
          att_status := late; att_total_hours := Some 800; att_notes := None;
          att_created_at := 0; att_updated_at := 0;
          att_modified_by := None; att_modified_at := None;
          att_original_status := None; att_modification_reason := None |}.
Proof. reflexivity. Qed.

(* ------------------------------------------------------------------ *)
(** ** Updates of the ledger, row by row *)

Lemma update_attendance_rows_ok s NOW db cond u rows rows' :
  update_attendance_rows s NOW db cond u rows = Ok rows' ->
  Forall2 (fun r r' => update_attendance_row s NOW db cond u r = Ok r') rows rows'.
Proof.
  revert rows'. induction rows as [|r rest IH]; intros rows' H; simpl in H.
  - injection H as <-. constructor.
  - destruct (update_attendance_row s NOW db cond u r) as [r'|e] eqn:Er;
      cbn [bind] in H; [|discriminate].
    destruct (update_attendance_rows s NOW db cond u rest) as [rest'|e] eqn:Erest;
      cbn [bind] in H; [|discriminate].
    injection H as <-. constructor; [exact Er | now apply IH].
Qed.

Lemma update_attendance_rows_err s NOW db cond u rows e :
  update_attendance_rows s NOW db cond u rows = Err e ->
  exists r, In r rows /\ update_attendance_row s NOW db cond u r = Err e.
Proof.
  induction rows as [|r rest IH]; intros H; simpl in H; [discriminate|].
  destruct (update_attendance_row s NOW db cond u r) as [r'|e'] eqn:Er;
    cbn [bind] in H.
  - destruct (update_attendance_rows s NOW db cond u rest) as [rest'|e''] eqn:Erest;
      cbn [bind] in H; [discriminate|].
    injection H as ->. destruct (IH eq_refl) as [x [Hx Ex]].
    exists x. split; [now right | exact Ex].
  - injection H as ->. exists r. split; [now left | exact Er].
Qed.

(** The policy on updates reads the owner of a row only, and no update of
    the application moves a row to another owner. *)
Lemma attendance_update_using_owner db s (r r' : attendance_row) :
  att_user_id r' = att_user_id r ->
  attendance_update_using db s r' = attendance_update_using db s r.
Proof.
  intros H. unfold attendance_update_using, attendance_owner_or_manager.
  now rewrite H.
Qed.

Lemma calculate_total_hours_owner (r r' : attendance_row) :
  calculate_total_hours r = Ok r' -> att_user_id r' = att_user_id r.
Proof.
  intros H. destruct (calculate_total_hours_cases r) as [[x [E [->|[h ->]]]]|[E _]];
    rewrite E in H; try discriminate; injection H as <-; reflexivity.
Qed.

(** What an UPDATE does to one row: nothing when the row is not matched or
    not visible; otherwise the SET list, the derived hours and the stamp, or
    the overflow of the hours column. *)
Lemma update_attendance_row_cases s NOW db cond u r :
  (cond r && attendance_select_using db s r && attendance_update_using db s r
   = false /\
   update_attendance_row s NOW db cond u r = Ok r) \/
  (cond r && attendance_select_using db s r && attendance_update_using db s r
   = true /\
   ((exists NEW, calculate_total_hours (apply_update u r) = Ok NEW /\
                 update_attendance_row s NOW db cond u r
                 = Ok (update_updated_at_column NOW NEW)) \/
    (hours_overflow (apply_update u r) /\
     update_attendance_row s NOW db cond u r = Err numeric_value_out_of_range))).
Proof.
  unfold update_attendance_row.
  destruct (cond r && attendance_select_using db s r
            && attendance_update_using db s r) eqn:Hhit; [right|left; auto].
  split; [reflexivity|].
  destruct (calculate_total_hours_cases (apply_update u r)) as [[NEW [E _]]|[E Ho]];
    rewrite E; cbn [bind]; [left|right; auto].
  exists NEW. split; [reflexivity|].
  rewrite (attendance_update_using_owner db s r (update_updated_at_column NOW NEW)).
  - apply andb_true_iff in Hhit. destruct Hhit as [_ ->]. reflexivity.
  - cbn [update_updated_at_column with_updated_at att_user_id].
    now rewrite (calculate_total_hours_owner _ _ E).
Qed.

Lemma update_attendance_cases s NOW db cond u :
  (exists rows,
      update_attendance s NOW db cond u = (set_attendance db rows, Ok tt) /\
      Forall2 (fun r r' => update_attendance_row s NOW db cond u r = Ok r')
              (attendance db) rows) \/
  (update_attendance s NOW db cond u = (db, Err numeric_value_out_of_range) /\
   exists r, In r (attendance db) /\ cond r = true /\
             hours_overflow (apply_update u r)).
Proof.
  unfold update_attendance.
  destruct (update_attendance_rows s NOW db cond u (attendance db))
    as [rows|e] eqn:E.
  - left. exists rows. split; [reflexivity|].
    now apply update_attendance_rows_ok.
  - right. apply update_attendance_rows_err in E. destruct E as [r [Hr Er]].
    destruct (update_attendance_row_cases s NOW db cond u r)
      as [[_ E']|[Hhit [[NEW [_ E']]|[Ho E']]]]; rewrite E' in Er;
      try discriminate. injection Er as <-. split; [reflexivity|].
    exists r. split; [exact Hr|]. split; [|exact Ho].
    apply andb_true_iff in Hhit. destruct Hhit as [Hhit _].
    apply andb_true_iff in Hhit. now destruct Hhit.
Qed.

Lemma Forall2_same {A : Type} (R : A -> A -> Prop) (l : list A) :
  (forall x, In x l -> R x x) -> Forall2 R l l.
Proof.
  induction l as [|a l IH]; intros H; constructor.
  - apply H. now left.
  - apply IH. intros x Hx. apply H. now right.
Qed.

Lemma Forall2_weaken {A : Type} (R R' : A -> A -> Prop) (l l' : list A) :
  (forall x y, In x l -> R x y -> R' x y) -> Forall2 R l l' -> Forall2 R' l l'.
Proof.
  intros H F. induction F as [|x y l l' Hxy F IH]; constructor.
  - apply H; [now left | exact Hxy].
  - apply IH. intros a b Ha. apply H. now right.
Qed.

Lemma Forall2_In_l {A : Type} (R : A -> A -> Prop) (l l' : list A) (x : A) :
  Forall2 R l l' -> In x l -> exists y, In y l' /\ R x y.
Proof.
  intros F. induction F as [|a b l l' Hab F IH]; intros Hx; [contradiction|].
  destruct Hx as [->|Hx].
  - exists b. split; [now left | exact Hab].
  - destruct (IH Hx) as [y [Hy Hr]]. exists y. split; [now right | exact Hr].
Qed.

(* ------------------------------------------------------------------ *)
(** ** Check-out *)

Lemma calculate_total_hours_frame (r r' : attendance_row) :
  calculate_total_hours r = Ok r' ->
  r' = with_total_hours r (att_total_hours r').
Proof.
  intros H. destruct (calculate_total_hours_cases r) as [[x [E [->|[h ->]]]]|[E _]];
    rewrite E in H; try discriminate; injection H as <-; now destruct r.
Qed.

Lemma check_out_row_frame s NOW db cond now r r' :
  update_attendance_row s NOW db cond
    {| upd_check_out_time := Some now; upd_status := None;
       upd_modified_by := None; upd_modified_at := None;
       upd_original_status := None; upd_modification_reason := None |} r
  = Ok r' ->
  same_but_check_out r r'.
Proof.
  intros H.
  destruct (update_attendance_row_cases s NOW db cond
              {| upd_check_out_time := Some now; upd_status := None;
                 upd_modified_by := None; upd_modified_at := None;
                 upd_original_status := None; upd_modification_reason := None |} r)
    as [[_ E]|[_ [[NEW [Ec E]]|[_ E]]]]; rewrite E in H; try discriminate;
    injection H as <-.
  - unfold same_but_check_out. repeat split.
  - rewrite (calculate_total_hours_frame _ _ Ec).
    unfold same_but_check_out. repeat split.
Qed.

(** C9: for a record in the checked-in state, the check-out of its owner
    leaves in every row of the ledger everything but the check-out time and
    the derived columns as it was, the status with it, whatever the instant;
    when the statement succeeds the record carries the check-out instant and
    the hours derived from it; otherwise the hours overflowed and nothing
    changed. *)
Theorem check_out_keeps_status
        (uid : uuid) (clock : js_date) (NOW : timestamptz)
        (rec : attendance_row) (check_in : timestamptz) (db : database)
        (Hin : In rec (attendance db))
        (Hci : att_check_in_time rec = Some check_in)
        (Hco : att_check_out_time rec = None)
        (Hown : att_user_id rec = uid) :
  let now := timestamptz_of_js clock in
  let out := handleCheckOut (Some uid) clock NOW (Some rec) db in
  Forall2 same_but_check_out (attendance db) (attendance (fst out)) /\
  (exists rows, fst out = set_attendance db rows) /\
  ((snd out = Ok tt /\
    exists rec' h,
      In rec' (attendance (fst out)) /\
      same_but_check_out rec rec' /\
      att_status rec' = att_status rec /\
      att_check_out_time rec' = Some now /\
      numeric_4_2 (exact_hours check_in now) = Ok h /\
      att_total_hours rec' = Some h /\
      att_updated_at rec' = NOW) \/
   (snd out = Err numeric_value_out_of_range /\ fst out = db /\
    exists r c,
      In r (attendance db) /\ att_id r = att_id rec /\
      att_check_in_time r = Some c /\
      (19999 # 200 <= Qabs (exact_hours c now))%Q)).
Proof.
  intros now out. subst out. unfold handleCheckOut. fold now.
  set (u := {| upd_check_out_time := Some now; upd_status := None;
               upd_modified_by := None; upd_modified_at := None;
               upd_original_status := None; upd_modification_reason := None |}).
  set (cond := fun r : attendance_row => att_id r =s? att_id rec).
  destruct (update_attendance_cases (Some uid) NOW db cond u)
    as [[rows [E F]]|[E [r [Hr [Hc Ho]]]]]; rewrite E; cbn [fst snd].
  - split; [|split].
    + cbn [set_attendance attendance].
      apply (Forall2_weaken _ _ _ _ (fun x y _ H => check_out_row_frame _ _ _ _ _ _ _ H) F).
    + now exists rows.
    + left. split; [reflexivity|].
      destruct (Forall2_In_l _ _ _ rec F Hin) as [rec' [Hin' Hrow]].
      pose proof (check_out_row_frame _ _ _ _ _ _ _ Hrow) as Hframe.
      destruct (update_attendance_row_cases (Some uid) NOW db cond u rec)
        as [[Hhit _]|[_ [[NEW [Ec Er]]|[_ Er]]]].
      * exfalso. unfold cond, attendance_select_using, attendance_update_using,
          attendance_owner_or_manager in Hhit.
        rewrite Hown, !String.eqb_refl in Hhit. cbn in Hhit. discriminate.
      * rewrite Er in Hrow. injection Hrow as <-.
        unfold calculate_total_hours in Ec.
        cbn [apply_update att_check_in_time att_check_out_time u
             upd_check_out_time] in Ec.
        rewrite Hci in Ec.
        change (EXTRACT_EPOCH (now - check_in) / 3600)%Q
          with (exact_hours check_in now) in Ec.
        destruct (numeric_4_2 (exact_hours check_in now)) as [h|e] eqn:Eh;
          cbn [bind] in Ec; [|discriminate].
        injection Ec as <-.
        exists (update_updated_at_column NOW
                  (with_total_hours (apply_update u rec) (Some h))), h.
        split; [exact Hin'|]. split; [exact Hframe|].
        repeat split.
      * rewrite Er in Hrow. discriminate.
  - split; [|split].
    + apply Forall2_same. intros x _. unfold same_but_check_out. repeat split.
    + exists (attendance db). now rewrite set_attendance_same.
    + right. split; [reflexivity|]. split; [reflexivity|].
      destruct Ho as [c [co [Hrc [Hrco Hq]]]].
      cbn [apply_update att_check_in_time att_check_out_time u
           upd_check_out_time] in Hrc, Hrco.
      injection Hrco as <-.
      exists r, c. repeat split; try assumption.
      now apply String.eqb_eq.
Qed.

Lemma check_out_keeps_status_witness :
  let now := timestamptz_of_js jan1_1720 in
  let out := handleCheckOut (Some "alice") jan1_1720 7 (Some alice_jan1) office in
  Forall2 same_but_check_out (attendance office) (attendance (fst out)) /\
  (exists rows, fst out = set_attendance office rows) /\
  ((snd out = Ok tt /\
    exists rec' h,
      In rec' (attendance (fst out)) /\
      same_but_check_out alice_jan1 rec' /\
      att_status rec' = att_status alice_jan1 /\
      att_check_out_time rec' = Some now /\
      numeric_4_2 (exact_hours (timestamptz_of_js jan1_0900) now) = Ok h /\
      att_total_hours rec' = Some h /\
      att_updated_at rec' = 7) \/
   (snd out = Err numeric_value_out_of_range /\ fst out = office /\
    exists r c,
      In r (attendance office) /\ att_id r = att_id alice_jan1 /\
      att_check_in_time r = Some c /\
      (19999 # 200 <= Qabs (exact_hours c now))%Q)).
Proof.
  apply (check_out_keeps_status "alice" jan1_1720 7 alice_jan1
           (timestamptz_of_js jan1_0900) office).
  - simpl. now left.
  - reflexivity.
  - reflexivity.
  - reflexivity.
Defined.

(** The check-out of the example: 8.33 hours, the status as it was. *)
Example alice_checks_out :
  attendance (fst (handleCheckOut (Some "alice") jan1_1720 7 (Some alice_jan1) office))
  = [ with_updated_at (with_total_hours alice_jan1_out (Some 833)) 7 ] /\
  snd (handleCheckOut (Some "alice") jan1_1720 7 (Some alice_jan1) office) = Ok tt.
Proof. split; reflexivity. Qed.

(* ------------------------------------------------------------------ *)
(** ** Privileged edits *)


Lemma editSchema_parse_valid (status : attendance_status) (reason : string) :
  (3 <= String.length (trim reason) <= 500)%nat ->
  editSchema_parse {| ed_status := status; ed_reason := reason |}
  = Some {| ed_status := status; ed_reason := trim reason |}.
Proof.
  intros H. unfold editSchema_parse. cbn [ed_reason ed_status].
  destruct (Nat.ltb_spec (String.length (trim reason)) 3); [lia|].
  destruct (Nat.ltb_spec 500 (String.length (trim reason))); [lia|reflexivity].
Qed.

Lemma manager_sees_every_row db uid (r : attendance_row) :
  manager_or_admin db (Some uid) = true ->
  attendance_owner_or_manager db (Some uid) r = true.
Proof.
  unfold manager_or_admin, attendance_owner_or_manager. intros H.
  now rewrite <- orb_assoc, H, orb_true_r.
Qed.




(** The edit of the example, present to absent, and a reason of two
    letters, which does not reach the store. *)
Example mona_marks_alice_absent :
  map (fun r => (att_status r, att_original_status r, att_modified_by r,
                 att_modification_reason r))
      (attendance (fst (handleSubmit (Some "mona") jan1_1720 7
                          {| rec_id := "att-1"; rec_status := present |}
                          absent "  was on leave " office)))
  = [ (absent, Some "present", Some "mona", Some "was on leave") ].
Proof. reflexivity. Qed.

Example two_letters_rejected :
  handleSubmit (Some "mona") jan1_1720 7
    {| rec_id := "att-1"; rec_status := present |} absent "  no  " office
  = (office, zod_error).
Proof. reflexivity. Qed.



(** The two edits of the example in a row: the original status recorded by
    the first is gone after the second. *)
Example original_status_lost :
  att_original_status alice_jan1_edited = Some "present" /\
  map (fun r => (att_status r, att_original_status r, att_modification_reason r))
      (attendance (fst (handleSubmit (Some "mona") (jan1_1720 + 60000) 8
                          {| rec_id := "att-1"; rec_status := absent |}
                          absent "confirmed by phone" office_edited)))
  = [ (absent, None, Some "confirmed by phone") ].
Proof. split; reflexivity. Qed.

(* ------------------------------------------------------------------ *)
(** ** Registration trigger *)

Lemma LPAD_below_10000 :
  forallb (fun k => LPAD (int8_out (Z.of_nat k)) 4 "0" =s? zero_padded4 (Z.of_nat k))
          (seq 0 (Z.to_nat 10000)) = true.
Proof. vm_compute. reflexivity. Qed.

(** Below 10000, [LPAD(n::TEXT, 4, '0')] is the ordinal in four digits. *)
Lemma LPAD_zero_padded4 (n : Z) :
  0 <= n < 10000 -> LPAD (int8_out n) 4 "0" = zero_padded4 n.
Proof.
  intros H. pose proof LPAD_below_10000 as A.
  rewrite forallb_forall in A.
  specialize (A (Z.to_nat n)). rewrite Z2Nat.id in A by lia.
  apply String.eqb_eq, A, in_seq. lia.
Qed.

Lemma user_role_in_out (t : text) (r : user_role) :
  user_role_in t = Ok r -> user_role_out r = t.
Proof.
  unfold user_role_in.
  destruct (String.eqb_spec t "employee") as [->|_];
    [intros H; injection H as <-; reflexivity|].
  destruct (String.eqb_spec t "manager") as [->|_];
    [intros H; injection H as <-; reflexivity|discriminate].
Qed.

Lemma app_role_in_out (t : text) (r : app_role) :
  app_role_in t = Ok r -> app_role_out r = t.
Proof.
  unfold app_role_in.
  destruct (String.eqb_spec t "admin") as [->|_];
    [intros H; injection H as <-; reflexivity|].
  destruct (String.eqb_spec t "manager") as [->|_];
    [intros H; injection H as <-; reflexivity|].
  destruct (String.eqb_spec t "employee") as [->|_];
    [intros H; injection H as <-; reflexivity|discriminate].
Qed.

Lemma cast_user_role_label (t : option text) (r : option user_role) :
  cast_null user_role_in t = Ok r ->
  user_role_out (COALESCE r ur_employee) = COALESCE t "employee".
Proof.
  destruct t as [t|]; cbn [cast_null].
  - destruct (user_role_in t) as [x|e] eqn:E; cbn [bind]; [|discriminate].
    intros H. injection H as <-. cbn [COALESCE]. now apply user_role_in_out.
  - intros H. injection H as <-. reflexivity.
Qed.

Lemma cast_app_role_label (t : option text) (r : option app_role) :
  cast_null app_role_in t = Ok r ->
  app_role_out (COALESCE r employee) = COALESCE t "employee".
Proof.
  destruct t as [t|]; cbn [cast_null].
  - destruct (app_role_in t) as [x|e] eqn:E; cbn [bind]; [|discriminate].
    intros H. injection H as <-. cbn [COALESCE]. now apply app_role_in_out.
  - intros H. injection H as <-. reflexivity.
Qed.

(** The store after a successful insert of an identity record, field by
    field, the employee code as the trigger computes it. *)
Lemma insert_auth_users_ok (db db' : database) (NEW : auth_users_row) :
  insert_auth_users db NEW = (db', Ok tt) ->
  exists p ur,
    auth_users db' = (auth_users db ++ [NEW])%list /\
    profiles db' = (profiles db ++ [p])%list /\
    user_roles db' = (user_roles db ++ [ur])%list /\
    attendance db' = attendance db /\
    invitations db' = invitations db /\
    settings db' = settings db /\
    employee_id_seq db' = employee_id_seq db + 1 /\
    pr_id p = au_id NEW /\
    pr_name p = COALESCE (meta_name (au_raw_user_meta_data NEW)) "New User" /\
    pr_email p = au_email NEW /\
    pr_employee_id p = "EMP" ++ LPAD (int8_out (employee_id_seq db + 1)) 4 "0" /\
    pr_department p
    = COALESCE (meta_department (au_raw_user_meta_data NEW)) "General" /\
    user_role_out (pr_role p)
    = COALESCE (meta_role (au_raw_user_meta_data NEW)) "employee" /\
    ur_user_id ur = au_id NEW /\
    app_role_out (ur_role ur)
    = COALESCE (meta_role (au_raw_user_meta_data NEW)) "employee".
Proof.
  unfold insert_auth_users, handle_new_user, nextval.
  destruct (cast_null user_role_in (meta_role (au_raw_user_meta_data NEW)))
    as [urole|e] eqn:Eu; [|discriminate].
  unfold profiles_store.
  match goal with |- context [if ?c then _ else _] => destruct c end;
    [discriminate|].
  destruct (cast_null app_role_in (meta_role (au_raw_user_meta_data NEW)))
    as [arole|e] eqn:Ea; [|discriminate].
  unfold user_roles_store.
  match goal with |- context [if ?c then _ else _] => destruct c end;
    [discriminate|].
  intros H. injection H as <-.
  eexists _, _. cbn.
  repeat (split; [reflexivity|]).
  split; [now apply cast_user_role_label|].
  split; [reflexivity|now apply cast_app_role_label].
Qed.

(** The insert succeeds when the role label of the metadata is absent or one
    of the two the profile admits, and the identifier and the employee code
    are not taken. *)
Lemma insert_auth_users_succeeds (db : database) (NEW : auth_users_row) :
  (meta_role (au_raw_user_meta_data NEW) = None \/
   meta_role (au_raw_user_meta_data NEW) = Some "employee" \/
   meta_role (au_raw_user_meta_data NEW) = Some "manager") ->
  (forall p, In p (profiles db) ->
             pr_id p <> au_id NEW /\
             pr_employee_id p
             <> "EMP" ++ LPAD (int8_out (employee_id_seq db + 1)) 4 "0") ->
  (forall ur, In ur (user_roles db) -> ur_user_id ur <> au_id NEW) ->
  exists db', insert_auth_users db NEW = (db', Ok tt).
Proof.
  intros Hrole Hprof Hroles.
  unfold insert_auth_users, handle_new_user, nextval.
  assert (Hcast : exists u a,
             cast_null user_role_in (meta_role (au_raw_user_meta_data NEW)) = Ok u /\
             cast_null app_role_in (meta_role (au_raw_user_meta_data NEW)) = Ok a).
  { destruct Hrole as [->|[->| ->]]; eexists _, _; split; reflexivity. }
  destruct Hcast as [u [a [-> Ea]]].
  unfold profiles_store.
  match goal with |- context [if existsb ?f ?l then _ else _] =>
    assert (Hp : existsb f l = false) end.
  { apply not_true_is_false. intros Hex. apply existsb_exists in Hex.
    destruct Hex as [p [Hin Hp]]. cbn in Hin.
    destruct (Hprof p Hin) as [Hid Hcode].
    apply orb_true_iff in Hp. cbn in Hp.
    destruct Hp as [Hp|Hp]; apply String.eqb_eq in Hp; auto. }
  rewrite Hp. rewrite Ea. unfold user_roles_store.
  match goal with |- context [if existsb ?f ?l then _ else _] =>
    assert (Hr : existsb f l = false) end.
  { apply not_true_is_false. intros Hex. apply existsb_exists in Hex.
    destruct Hex as [r [Hin Hr]]. cbn in Hin.
    unfold user_roles_key_eqb in Hr. cbn in Hr.
    apply andb_true_iff in Hr. destruct Hr as [Hr _].
    apply String.eqb_eq in Hr. symmetry in Hr. exact (Hroles r Hin Hr). }
  rewrite Hr. eexists. reflexivity.
Qed.

Lemma LPAD_from_10000 :
  forallb (fun k =>
             let n := 10000 + Z.of_nat k in
             (LPAD (int8_out n) 4 "0" =s? zero_padded4 (n / 10))
             && negb (LPAD (int8_out n) 4 "0" =s? int8_out n))
          (seq 0 1000) = true.
Proof. vm_compute. reflexivity. Qed.

(** From 10000 to 10999, [LPAD(n::TEXT, 4, '0')] keeps the first four of
    the five digits: the code of ordinal [n / 10], and not the digits of
    [n]. *)
Lemma LPAD_cuts_fifth_digit (n : Z) :
  10000 <= n <= 10999 ->
  (LPAD (int8_out n) 4 "0" = zero_padded4 (n / 10)) /\
  (LPAD (int8_out n) 4 "0" <> int8_out n).
Proof.
  intros H. pose proof LPAD_from_10000 as A.
  rewrite forallb_forall in A.
  specialize (A (Z.to_nat (n - 10000))). cbv zeta in A.
  rewrite Z2Nat.id in A by lia.
  replace (10000 + (n - 10000)) with n in A by lia.
  assert (Hk : In (Z.to_nat (n - 10000)) (seq 0 1000)) by (apply in_seq; lia).
  apply A in Hk. apply andb_true_iff in Hk. destruct Hk as [H1 H2]. split.
  - now apply String.eqb_eq.
  - intros E. rewrite E, String.eqb_refl in H2. discriminate H2.
Qed.

(** C8, the defect: once the sequence has passed 9999 the trigger no longer
    assigns the ordinal zero-padded. For the ordinals 10000 to 10999,
    [LPAD(.., 4, '0')] cuts the fifth digit, so the code is the one ordinal
    [n / 10] got; with that profile still in the store the UNIQUE constraint
    on the employee code refuses the profile, the trigger raises, and the
    insert of the identity record fails: no identity, no profile and no role
    grant are created, only the sequence moves on. With a role label the
    profile admits (or none) the error is the unique violation. *)
Theorem employee_code_reused_past_9999
        (db : database) (NEW : auth_users_row) (p : profiles_row)
        (Hseq : 10000 <= employee_id_seq db + 1 <= 10999)
        (Hin : In p (profiles db))
        (Hcode : pr_employee_id p
                 = "EMP" ++ zero_padded4 ((employee_id_seq db + 1) / 10)) :
  let n := employee_id_seq db + 1 in
  ("EMP" ++ LPAD (int8_out n) 4 "0" = pr_employee_id p) /\
  (LPAD (int8_out n) 4 "0" <> int8_out n) /\
  (exists e, insert_auth_users db NEW = (set_employee_id_seq db n, Err e)) /\
  ((meta_role (au_raw_user_meta_data NEW) = None \/
    meta_role (au_raw_user_meta_data NEW) = Some "employee" \/
    meta_role (au_raw_user_meta_data NEW) = Some "manager") ->
   insert_auth_users db NEW = (set_employee_id_seq db n, Err unique_violation)).
Proof.
  cbv zeta. destruct (LPAD_cuts_fifth_digit _ Hseq) as [Hcut Hne].
  assert (Hsame : "EMP" ++ LPAD (int8_out (employee_id_seq db + 1)) 4 "0"
                  = pr_employee_id p) by (now rewrite Hcut, Hcode).
  assert (Hrun : forall u,
             cast_null user_role_in (meta_role (au_raw_user_meta_data NEW)) = Ok u ->
             insert_auth_users db NEW
             = (set_employee_id_seq db (employee_id_seq db + 1),
                Err unique_violation)).
  { intros u Eu. unfold insert_auth_users, handle_new_user, nextval.
    rewrite Eu. unfold profiles_store.
    match goal with |- context [if existsb ?f ?l then _ else _] =>
      assert (Hp : existsb f l = true) end.
    { apply existsb_exists. exists p. split; [exact Hin|].
      apply orb_true_iff. right. cbn. apply String.eqb_eq.
      symmetry. exact Hsame. }
    rewrite Hp. reflexivity. }
  repeat split; try assumption.
  - destruct (cast_null user_role_in (meta_role (au_raw_user_meta_data NEW)))
      as [u|e] eqn:Eu.
    + exists unique_violation. now apply (Hrun u).
    + exists e. unfold insert_auth_users, handle_new_user, nextval.
      rewrite Eu. reflexivity.
  - intros [E|[E|E]]; rewrite E in Hrun; eapply Hrun; reflexivity.
Qed.

Lemma employee_code_reused_past_9999_witness :
  employee_id_seq full_office + 1 = 10000 /\
  In vera (profiles full_office) /\
  pr_employee_id vera = "EMP1000" /\
  insert_auth_users full_office carol
  = (set_employee_id_seq full_office 10000, Err unique_violation).
Proof.
  split; [reflexivity|]. split; [simpl; auto|]. split; [reflexivity|].
  apply (employee_code_reused_past_9999 full_office carol vera).
  - vm_compute. split; discriminate.
  - simpl. auto.
  - reflexivity.
  - left. reflexivity.
Defined.

(** Where the profile of ordinal 1000 is gone, the identity record inserted
    when the sequence stands at 9999 takes ordinal 10000 and gets the code
    EMP1000, whose digits read 1000: the code of ordinal 1000, not the
    ordinal zero-padded. *)
Lemma employee_code_cut_at_10000 :
  employee_id_seq crowded_office + 1 = 10000 /\
  snd (insert_auth_users crowded_office carol) = Ok tt /\
  map pr_employee_id
      (skipn 2 (profiles (fst (insert_auth_users crowded_office carol))))
  = [ "EMP1000" ] /\
  "EMP1000" <> "EMP" ++ int8_out 10000 /\
  "EMP1000" = "EMP" ++ LPAD (int8_out 1000) 4 "0" /\
  option_map Z.of_uint (NilZero.uint_of_string "1000") <> Some 10000.
Proof. repeat split; try reflexivity; discriminate. Qed.

(** X22: for every identity record whose insert succeeds while the
    next value of the sequence is below 10000, the trigger creates one
    profile and one role grant for it, the employee code being the prefix
    EMP followed by that next value zero-padded to four digits, and name,
    department and role taken from the registration metadata or the defaults
    'New User', 'General', 'employee' when absent; the insert does succeed
    when the role label is absent, 'employee' or 'manager' and the
    identifier and the code are not taken. *)
Theorem handle_new_user_creates_profile
        (db : database) (NEW : auth_users_row)
        (Hseq : 0 <= employee_id_seq db + 1 < 10000) :
  (forall db', insert_auth_users db NEW = (db', Ok tt) ->
     exists p ur,
       auth_users db' = (auth_users db ++ [NEW])%list /\
       profiles db' = (profiles db ++ [p])%list /\
       user_roles db' = (user_roles db ++ [ur])%list /\
       employee_id_seq db' = employee_id_seq db + 1 /\
       pr_id p = au_id NEW /\
       pr_email p = au_email NEW /\
       pr_employee_id p = "EMP" ++ zero_padded4 (employee_id_seq db') /\
       pr_name p = COALESCE (meta_name (au_raw_user_meta_data NEW)) "New User" /\
       pr_department p
       = COALESCE (meta_department (au_raw_user_meta_data NEW)) "General" /\
       user_role_out (pr_role p)
       = COALESCE (meta_role (au_raw_user_meta_data NEW)) "employee" /\
       ur_user_id ur = au_id NEW /\
       app_role_out (ur_role ur)
       = COALESCE (meta_role (au_raw_user_meta_data NEW)) "employee") /\
  ((meta_role (au_raw_user_meta_data NEW) = None \/
    meta_role (au_raw_user_meta_data NEW) = Some "employee" \/
    meta_role (au_raw_user_meta_data NEW) = Some "manager") ->
   (forall p, In p (profiles db) ->
              pr_id p <> au_id NEW /\
              pr_employee_id p <> "EMP" ++ zero_padded4 (employee_id_seq db + 1)) ->
   (forall ur, In ur (user_roles db) -> ur_user_id ur <> au_id NEW) ->
   exists db', insert_auth_users db NEW = (db', Ok tt)).
Proof.
  split.
  - intros db' H.
    destruct (insert_auth_users_ok db db' NEW H)
      as (p & ur & Ha & Hp & Hr & _ & _ & _ & Hs & Hid & Hn & He & Hc & Hd & Hro & Hu & Hro').
    exists p, ur. rewrite Hs, <- (LPAD_zero_padded4 _ Hseq).
    repeat split; assumption.
  - intros Hrole Hprof Hroles.
    apply insert_auth_users_succeeds; try assumption.
    rewrite (LPAD_zero_padded4 _ Hseq). exact Hprof.
Qed.

Lemma handle_new_user_creates_profile_witness :
  exists db', insert_auth_users office carol = (db', Ok tt) /\
  exists p ur,
    auth_users db' = (auth_users office ++ [carol])%list /\
    profiles db' = (profiles office ++ [p])%list /\
    user_roles db' = (user_roles office ++ [ur])%list /\
    employee_id_seq db' = 3 /\
    pr_employee_id p = "EMP0003" /\
    pr_name p = "Carol" /\ pr_department p = "General" /\
    user_role_out (pr_role p) = "employee" /\
    ur_user_id ur = "carol" /\ app_role_out (ur_role ur) = "employee".
Proof.
  destruct (handle_new_user_creates_profile office carol) as [Hok Hrun].
  - vm_compute. split; [discriminate | reflexivity].
  - exists (fst (insert_auth_users office carol)).
    split; [reflexivity|].
    destruct (Hok (fst (insert_auth_users office carol)) eq_refl)
      as (p & ur & Ha & Hp & Hr & Hs & _ & _ & He & Hn & Hd & Hro & Hu & Hro').
    exists p, ur. rewrite Hs in He.
    repeat split; assumption.
Defined.

(* ------------------------------------------------------------------ *)
(** ** Invitations: lookup *)

Lemma insert_auth_users_invitations (db : database) (NEW : auth_users_row) :
  invitations (fst (insert_auth_users db NEW)) = invitations db.
Proof.
  destruct (insert_auth_users db NEW) as [db' [[]|e]] eqn:E.
  - destruct (insert_auth_users_ok db db' NEW E)
      as (p & ur & _ & _ & _ & _ & Hi & _). exact Hi.
  - unfold insert_auth_users in E.
    destruct (handle_new_user _ NEW) as [db1 [[]|e1]]; [discriminate|].
    injection E as <- _. reflexivity.
Qed.





(** The invitation of the example is found by a manager's session while it
    is open, by nobody once it has expired, and never by a visitor who is
    not signed in. *)
Example invitation_found_while_open :
  loadInvitation (Some "mona") jan1_0920 office "tok-bob" = Some bob_invitation.
Proof. reflexivity. Qed.

Example invitation_hidden_from_visitors :
  loadInvitation None jan1_0920 office "tok-bob" = None.
Proof. reflexivity. Qed.

(* ------------------------------------------------------------------ *)
(** ** Invitations: acceptance *)

Lemma map_unchanged {A : Type} (f : A -> A) (l : list A) :
  (forall x, In x l -> f x = x) -> map f l = l.
Proof.
  induction l as [|a l IH]; intros H; simpl; [reflexivity|].
  rewrite (H a (or_introl eq_refl)). f_equal. apply IH.
  intros x Hx. apply H. now right.
Qed.

Lemma set_invitations_same (db : database) :
  set_invitations db (invitations db) = db.
Proof. now destruct db. Qed.

(** For a session that holds neither the manager nor the admin role, the two
    requests of the acceptance step change nothing: the update finds no row
    it may touch, and the insert is refused. *)
Lemma acceptance_blocked (s : session) (db : database)
      (cond : invitations_row -> bool) (new : user_roles_row) :
  manager_or_admin db s = false ->
  accept_invitations s db cond = (db, Ok tt) /\
  insert_user_roles s db new = (db, Err insufficient_privilege).
Proof.
  intros H. split.
  - unfold accept_invitations, invitations_update_using. rewrite H.
    rewrite map_unchanged, set_invitations_same; [reflexivity|].
    intros x _. now rewrite andb_false_r.
  - unfold insert_user_roles, user_roles_insert_check. now rewrite H.
Qed.


(** The same registration when the service opens no session at sign-up: the
    acceptance step runs as the anonymous role, with the same outcome. *)
Example employee_invitation_stays_pending_unconfirmed :
  map inv_status
      (invitations (fst (handleSignUp false "bob" (Some bob_invitation)
                           bob_form office)))
  = [ "pending" ].
Proof. reflexivity. Qed.

(** An invitation for a manager is accepted, the trigger having granted the
    manager role from the metadata before the update runs. *)
Example manager_invitation_accepted :
  let out := handleSignUp true "bob"
               (Some {| idata_email := "bob@example.com"; idata_name := "Bob";
                        idata_department := "Sales"; idata_role := "manager";
                        idata_token := "tok-bob" |})
               bob_form (office_inviting manager) in
  map inv_status (invitations (fst out)) = [ "accepted" ] /\
  has_role (fst out) "bob" manager = true.
Proof. split; reflexivity. Qed.

(** An invitation for an admin cannot be used at all: the trigger casts the
    role to the enum of the profile, which has no such label, and the
    sign-up fails. *)
Example admin_invitation_fails :
  handleSignUp true "bob"
    (Some {| idata_email := "bob@example.com"; idata_name := "Bob";
             idata_department := "Sales"; idata_role := "admin";
             idata_token := "tok-bob" |})
    bob_form (office_inviting admin)
  = (set_employee_id_seq (office_inviting admin) 3,
     signup_failed (Some invalid_text_representation)).
Proof. reflexivity. Qed.

(* ================================================================== *)
(** * Further properties *)

(** ** The role hook and the policies *)

Lemma app_role_out_eqb (a b : app_role) :
  (app_role_out a =s? app_role_out b) = app_role_eqb a b.
Proof. destruct a, b; reflexivity. Qed.

Lemma hasRole_loadRoles (db : database) (uid : uuid) (role : app_role) :
  hasRole (loadRoles (Some uid) db) (app_role_out role) = has_role db uid role.
Proof.
  unfold hasRole, loadRoles, select_user_roles, has_role.
  rewrite (filter_ext _ (fun r => ur_user_id r =s? uid))
    by (intros r; cbn; apply andb_true_r).
  induction (user_roles db) as [|r l IH]; [reflexivity|].
  cbn [filter existsb].
  destruct (ur_user_id r =s? uid) eqn:E; cbn [map existsb andb].
  - now rewrite app_role_out_eqb, IH.
  - exact IH.
Qed.

(** X1: what the role hook tells the pages agrees with what the policies of
    the store decide: [isManager] is the manager-or-admin test of the
    policies, and [hasRole] of a role label is [has_role] on the role set. *)
Theorem hook_agrees_with_policies (db : database) (s : session) :
  isManager (loadRoles s db) = manager_or_admin db s /\
  (forall uid role,
      s = Some uid ->
      hasRole (loadRoles s db) (app_role_out role) = has_role db uid role) /\
  (forall uid, s = Some uid ->
               isEmployee (loadRoles s db) = has_role db uid employee).
Proof.
  split; [|split].
  - destruct s as [uid|]; [|reflexivity].
    unfold isManager, manager_or_admin.
    now rewrite <- (hasRole_loadRoles db uid manager),
                <- (hasRole_loadRoles db uid admin).
  - intros uid role ->. apply hasRole_loadRoles.
  - intros uid ->. apply (hasRole_loadRoles db uid employee).
Qed.

Lemma hook_agrees_with_policies_witness :
  isManager (loadRoles (Some "mona") office) = true /\
  isManager (loadRoles (Some "alice") office) = false /\
  isEmployee (loadRoles (Some "alice") office) = has_role office "alice" employee.
Proof.
  destruct (hook_agrees_with_policies office (Some "mona")) as [Hm _].
  destruct (hook_agrees_with_policies office (Some "alice")) as [Ha [_ He]].
  split; [rewrite Hm; reflexivity|].
  split; [rewrite Ha; reflexivity|]. now apply He.
Defined.

(* ------------------------------------------------------------------ *)
(** ** The settings page *)

Lemma update_settings_rows_map s db cond v rows :
  update_settings_rows s db cond v rows
  = Ok (map (fun r =>
               if cond r && settings_select_using db s r
                  && settings_all_using db s r
               then {| set_key := set_key r; set_value := v |} else r) rows).
Proof.
  induction rows as [|r rest IH]; [reflexivity|].
  cbn [update_settings_rows map]. rewrite IH. unfold update_settings_row.
  destruct (cond r && settings_select_using db s r && settings_all_using db s r)
    eqn:Hhit; cbn [bind]; [|reflexivity].
  apply andb_true_iff in Hhit. destruct Hhit as [_ Hm].
  unfold settings_all_using in Hm. unfold settings_all_check. now rewrite Hm.
Qed.

Lemma update_settings_value s db cond v :
  update_settings s db cond v
  = (set_settings db
       (map (fun r =>
               if cond r && settings_select_using db s r
                  && settings_all_using db s r
               then {| set_key := set_key r; set_value := v |} else r)
            (settings db)),
     Ok tt).
Proof. unfold update_settings. now rewrite update_settings_rows_map. Qed.

Lemma set_settings_same (db : database) : set_settings db (settings db) = db.
Proof. now destruct db. Qed.

Lemma timeSchema_parse_valid (t : late_threshold_state) :
  0 <= lt_hours t <= 23 -> 0 <= lt_minutes t <= 59 ->
  timeSchema_parse t = Some t.
Proof.
  intros Hh Hm. unfold timeSchema_parse.
  destruct (Z.leb_spec 0 (lt_hours t)); [|lia].
  destruct (Z.leb_spec (lt_hours t) 23); [|lia].
  destruct (Z.leb_spec 0 (lt_minutes t)); [|lia].
  destruct (Z.leb_spec (lt_minutes t) 59); [|lia]. reflexivity.
Qed.

Lemma timeSchema_parse_invalid (t : late_threshold_state) :
  lt_hours t < 0 \/ 23 < lt_hours t \/ lt_minutes t < 0 \/ 59 < lt_minutes t ->
  timeSchema_parse t = None.
Proof.
  intros H. unfold timeSchema_parse.
  destruct (Z.leb_spec 0 (lt_hours t)); [|reflexivity].
  destruct (Z.leb_spec (lt_hours t) 23); [|reflexivity].
  destruct (Z.leb_spec 0 (lt_minutes t)); [|reflexivity].
  destruct (Z.leb_spec (lt_minutes t) 59); [|reflexivity]. lia.
Qed.

Lemma save_rewrites_the_row (v : threshold_value) (l : list settings_row)
      (r : settings_row) :
  NoDup (map set_key l) -> In r l -> set_key r = "late_threshold" ->
  filter (fun x => set_key x =s? "late_threshold")
         (map (fun x => if set_key x =s? "late_threshold"
                        then {| set_key := set_key x; set_value := v |} else x) l)
  = [ {| set_key := "late_threshold"; set_value := v |} ].
Proof.
  induction l as [|x l IH]; intros Hnd Hin Hkey; [contradiction|].
  cbn [map] in Hnd. apply NoDup_cons_iff in Hnd. destruct Hnd as [Hx Hnd].
  cbn [map filter].
  destruct (String.eqb_spec (set_key x) "late_threshold") as [E|N].
  - cbn [set_key]. rewrite E, String.eqb_refl. f_equal.
    apply filter_none. intros y Hy.
    apply in_map_iff in Hy. destruct Hy as [z [<- Hz]].
    assert (Hzk : set_key z <> "late_threshold").
    { intros Ez. apply Hx. rewrite E, <- Ez. now apply in_map. }
    apply String.eqb_neq in Hzk. rewrite Hzk. exact Hzk.
  - apply String.eqb_neq in N. rewrite N.
    destruct Hin as [->|Hin]; [now rewrite Hkey, String.eqb_refl in N|].
    now apply IH.
Qed.

Lemma unique_key_row (db : database) (r : settings_row) :
  settings_unique db -> In r (settings db) ->
  forall r', In r' (settings db) -> set_key r' = set_key r -> r' = r.
Proof.
  unfold settings_unique. induction (settings db) as [|x l IH];
    intros Hnd Hin r' Hin' Hk; [contradiction|].
  cbn [map] in Hnd. apply NoDup_cons_iff in Hnd. destruct Hnd as [Hx Hnd].
  destruct Hin as [->|Hin], Hin' as [->|Hin']; try reflexivity.
  - exfalso. apply Hx. rewrite <- Hk. now apply in_map.
  - exfalso. apply Hx. rewrite Hk. now apply in_map.
  - now apply IH.
Qed.

(** X2: a manager or admin who saves a valid time on the settings page,
    the seeded row being there, sets the threshold of the store: the page
    reads the saved value back, and from then on a check-in is late exactly
    when its time of day is past the saved time. Nothing but the settings
    changes. *)
Theorem saved_threshold_takes_effect
        (uid : uuid) (t : late_threshold_state) (db : database) (r : settings_row)
        (Hpriv : manager_or_admin db (Some uid) = true)
        (Hh : 0 <= lt_hours t <= 23) (Hm : 0 <= lt_minutes t <= 59)
        (Hnd : settings_unique db)
        (Hin : In r (settings db))
        (Hkey : set_key r = "late_threshold") :
  let out := handleSave (Some uid) t db in
  snd out = save_responded (Ok tt) /\
  (exists rows, fst out = set_settings db rows) /\
  loadSettings (Some uid) (fst out)
  = Some {| tv_hours := Some (lt_hours t); tv_minutes := Some (lt_minutes t) |} /\
  forall utc_offset check_in_time,
    is_late_check_in utc_offset (fst out) check_in_time
    = Ok (Some (time_of_hm (lt_hours t) (lt_minutes t)
                <? timestamptz_time utc_offset check_in_time)).
Proof.
  intros out. subst out. unfold handleSave.
  rewrite (timeSchema_parse_valid t Hh Hm), update_settings_value.
  cbn [fst snd].
  set (v := {| tv_hours := Some (lt_hours t); tv_minutes := Some (lt_minutes t) |}).
  assert (Hmap : map (fun r0 : settings_row =>
                        if (set_key r0 =s? "late_threshold")
                           && settings_select_using db (Some uid) r0
                           && settings_all_using db (Some uid) r0
                        then {| set_key := set_key r0; set_value := v |} else r0)
                     (settings db)
                 = map (fun x => if set_key x =s? "late_threshold"
                                 then {| set_key := set_key x; set_value := v |}
                                 else x) (settings db)).
  { apply map_ext. intros x. unfold settings_select_using, settings_all_using.
    rewrite Hpriv. cbn [orb]. now rewrite !andb_true_r. }
  rewrite Hmap.
  pose proof (save_rewrites_the_row v (settings db) r Hnd Hin Hkey) as Hsel.
  split; [reflexivity|]. split; [eexists; reflexivity|]. split.
  - unfold loadSettings, select_settings. cbn [settings set_settings].
    erewrite filter_ext; [rewrite Hsel; reflexivity|].
    intros x. cbn [settings_select_using orb]. now rewrite andb_true_r.
  - intros utc_offset check_in_time. unfold is_late_check_in, late_threshold_row.
    cbn [settings set_settings].
    match goal with |- context [find ?p ?l] =>
      assert (Hfind : find p l = Some {| set_key := "late_threshold";
                                         set_value := v |}) end.
    { match goal with |- find ?p ?l = _ =>
        destruct (find p l) as [y|] eqn:Ef end.
      - apply find_some in Ef. destruct Ef as [Hy Hk].
        assert (Hyf : In y (filter (fun x => set_key x =s? "late_threshold")
                              (map (fun x => if set_key x =s? "late_threshold"
                                             then {| set_key := set_key x;
                                                     set_value := v |}
                                             else x) (settings db))))
          by (apply filter_In; auto).
        rewrite Hsel in Hyf. destruct Hyf as [<-|[]]. reflexivity.
      - exfalso.
        assert (Hnew : In {| set_key := "late_threshold"; set_value := v |}
                          (filter (fun x => set_key x =s? "late_threshold")
                             (map (fun x => if set_key x =s? "late_threshold"
                                            then {| set_key := set_key x;
                                                    set_value := v |}
                                            else x) (settings db))))
          by (rewrite Hsel; now left).
        apply filter_In in Hnew. destruct Hnew as [Hn Hk].
        pose proof (find_none _ _ Ef _ Hn) as Hcontra. cbn in Hcontra.
        discriminate. }
    rewrite Hfind. cbn [set_value tv_hours tv_minutes v int4_in_null bind].
    rewrite !int4_in_small by lia. cbn [bind].
    rewrite make_time_hm by lia. reflexivity.
Qed.

Lemma saved_threshold_takes_effect_witness :
  let out := handleSave (Some "mona") {| lt_hours := 10; lt_minutes := 30 |} office in
  snd out = save_responded (Ok tt) /\
  (exists rows, fst out = set_settings office rows) /\
  loadSettings (Some "mona") (fst out)
  = Some {| tv_hours := Some 10; tv_minutes := Some 30 |} /\
  forall utc_offset check_in_time,
    is_late_check_in utc_offset (fst out) check_in_time
    = Ok (Some (time_of_hm 10 30 <? timestamptz_time utc_offset check_in_time)).
Proof.
  apply (saved_threshold_takes_effect "mona" {| lt_hours := 10; lt_minutes := 30 |}
           office nine_fifteen).
  - reflexivity.
  - simpl. lia.
  - simpl. lia.
  - unfold settings_unique. simpl. repeat constructor. intros [].
  - simpl. now left.
  - reflexivity.
Defined.

Lemma map_keys_kept (f : settings_row -> settings_row) (l : list settings_row) :
  (forall x, set_key (f x) = set_key x) ->
  map set_key (map f l) = map set_key l.
Proof.
  intros H. rewrite map_map. apply map_ext. exact H.
Qed.

(** X3: a save on the settings page changes nothing when the time is not a
    time of day (it is refused before any request), when the session is not
    a manager's or admin's, or when the store has no late_threshold row; in
    the last two cases the response is a success all the same. No save adds
    or removes a setting. *)
Theorem save_guarded
        (s : session) (t : late_threshold_state) (db : database) :
  let out := handleSave s t db in
  (lt_hours t < 0 \/ 23 < lt_hours t \/ lt_minutes t < 0 \/ 59 < lt_minutes t ->
   out = (db, invalid_time_format)) /\
  (manager_or_admin db s = false \/
   (forall r, In r (settings db) -> set_key r <> "late_threshold") ->
   fst out = db /\
   (0 <= lt_hours t <= 23 -> 0 <= lt_minutes t <= 59 ->
    snd out = save_responded (Ok tt))) /\
  map set_key (settings (fst out)) = map set_key (settings db).
Proof.
  intros out. subst out. unfold handleSave. split; [|split].
  - intros H. now rewrite (timeSchema_parse_invalid t H).
  - intros H. destruct (timeSchema_parse t) as [v|] eqn:E.
    + rewrite update_settings_value. cbn [fst snd]. split.
      * rewrite map_unchanged; [apply set_settings_same|].
        intros x Hx. destruct H as [H|H].
        -- unfold settings_all_using. rewrite H. now rewrite andb_false_r.
        -- apply H in Hx. apply String.eqb_neq in Hx. now rewrite Hx.
      * reflexivity.
    + cbn [fst snd]. split; [reflexivity|]. intros Hh Hm.
      now rewrite (timeSchema_parse_valid t Hh Hm) in E.
  - destruct (timeSchema_parse t) as [v|]; [|reflexivity].
    rewrite update_settings_value. cbn [fst settings set_settings].
    apply map_keys_kept. intros x.
    now destruct (_ && _).
Qed.

Lemma save_guarded_witness :
  handleSave (Some "mona") {| lt_hours := 24; lt_minutes := 0 |} office
  = (office, invalid_time_format) /\
  handleSave (Some "alice") {| lt_hours := 11; lt_minutes := 0 |} office
  = (office, save_responded (Ok tt)).
Proof.
  destruct (save_guarded (Some "mona") {| lt_hours := 24; lt_minutes := 0 |} office)
    as [Hbad _].
  destruct (save_guarded (Some "alice") {| lt_hours := 11; lt_minutes := 0 |} office)
    as [_ [Hno _]].
  split.
  - apply Hbad. simpl. lia.
  - destruct Hno as [Hdb Hok]; [left; reflexivity|].
    rewrite (surjective_pairing (handleSave _ _ _)), Hdb, Hok;
      [reflexivity | simpl; lia | simpl; lia].
Defined.

Lemma all_distinct_NoDup (l : list string) : all_distinct l = true -> NoDup l.
Proof.
  induction l as [|x l IH]; intros H; [constructor|].
  cbn [all_distinct] in H. apply andb_true_iff in H. destruct H as [Hx Hl].
  constructor; [|now apply IH].
  intros Hin. apply negb_true_iff in Hx.
  assert (existsb (String.eqb x) l = true); [|congruence].
  apply existsb_exists. exists x. split; [exact Hin|apply String.eqb_refl].
Qed.

Lemma NoDup_map_injective {A B : Type} (f : A -> B) (l : list A) (x y : A) :
  NoDup (map f l) -> In x l -> In y l -> f x = f y -> x = y.
Proof.
  induction l as [|a l IH]; intros Hnd Hx Hy E; [contradiction|].
  cbn [map] in Hnd. apply NoDup_cons_iff in Hnd. destruct Hnd as [Ha Hnd].
  destruct Hx as [->|Hx], Hy as [->|Hy]; try reflexivity.
  - exfalso. apply Ha. rewrite E. now apply in_map.
  - exfalso. apply Ha. rewrite <- E. now apply in_map.
  - now apply IH.
Qed.

Lemma valid_times_complete (h m : Z) :
  0 <= h <= 23 -> 0 <= m <= 59 -> In (h, m) valid_times.
Proof.
  intros Hh Hm. unfold valid_times. apply in_flat_map.
  exists (Z.to_nat h). split; [apply in_seq; lia|].
  apply in_map_iff. exists (Z.to_nat m).
  split; [now rewrite !Z2Nat.id by lia | apply in_seq; lia].
Qed.

Lemma formatTime_distinct :
  all_distinct (map (fun t => formatTime (fst t) (snd t)) valid_times) = true.
Proof. vm_compute. reflexivity. Qed.

(** X4: the display of the current threshold tells the times of day apart:
    two times the settings page admits that are shown alike are the same
    time. *)
Theorem formatTime_injective (h m h' m' : Z)
        (Hh : 0 <= h <= 23) (Hm : 0 <= m <= 59)
        (Hh' : 0 <= h' <= 23) (Hm' : 0 <= m' <= 59)
        (E : formatTime h m = formatTime h' m') :
  h = h' /\ m = m'.
Proof.
  pose proof (all_distinct_NoDup _ formatTime_distinct) as Hnd.
  pose proof (NoDup_map_injective (fun t => formatTime (fst t) (snd t))
                valid_times (h, m) (h', m') Hnd
                (valid_times_complete h m Hh Hm)
                (valid_times_complete h' m' Hh' Hm') E) as H.
  now injection H.
Qed.

Lemma formatTime_injective_witness :
  formatTime 0 5 = "12:05 AM" /\ formatTime 12 5 = "12:05 PM" /\
  formatTime 21 15 = "9:15 PM" /\ (0 = 0 /\ 5 = 5).
Proof.
  split; [reflexivity|]. split; [reflexivity|]. split; [reflexivity|].
  apply (formatTime_injective 0 5 0 5); try lia. reflexivity.
Defined.

(* ------------------------------------------------------------------ *)
(** ** Lateness with an unusual setting *)

Lemma late_threshold_row_unique (db : database) (r : settings_row) :
  settings_unique db -> In r (settings db) -> set_key r = "late_threshold" ->
  late_threshold_row db = Some r.
Proof.
  intros Hnd Hin Hkey. apply find_present; [exact Hin|exact Hkey|].
  intros r' Hr' Hk'. apply (unique_key_row db r Hnd Hin r' Hr'). congruence.
Qed.

(** X5: a late_threshold row that lacks its hour counts as no setting at
    all: the threshold is 9:15, whatever minute the row holds. *)
Theorem threshold_without_hour_is_default
        (utc_offset : timestamptz -> Z) (db : database) (r : settings_row)
        (check_in_time : timestamptz)
        (Hnd : settings_unique db)
        (Hin : In r (settings db))
        (Hkey : set_key r = "late_threshold")
        (Hhour : tv_hours (set_value r) = None)
        (Hmin : forall m, tv_minutes (set_value r) = Some m ->
                          -2147483648 <= m <= 2147483647) :
  is_late_check_in utc_offset db check_in_time
  = Ok (Some (time_of_hm 9 15 <? timestamptz_time utc_offset check_in_time)).
Proof.
  unfold is_late_check_in.
  rewrite (late_threshold_row_unique db r Hnd Hin Hkey), Hhour.
  cbn [int4_in_null bind].
  assert (Hm : exists x, int4_in_null (tv_minutes (set_value r)) = Ok x).
  { destruct (tv_minutes (set_value r)) as [m|]; [|now exists None].
    specialize (Hmin m eq_refl). exists (Some m). unfold int4_in_null, int4_in.
    destruct (Z.leb_spec (-2147483648) m); [|lia].
    destruct (Z.leb_spec m 2147483647); [|lia]. reflexivity. }
  destruct Hm as [x ->]. cbn [bind].
  rewrite make_time_hm by lia. reflexivity.
Qed.

Lemma threshold_without_hour_is_default_witness :
  is_late_check_in UTC office_without_hour (timestamptz_of_js jan1_0920)
  = Ok (Some (time_of_hm 9 15
              <? timestamptz_time UTC (timestamptz_of_js jan1_0920))).
Proof.
  apply (threshold_without_hour_is_default UTC office_without_hour
           {| set_key := "late_threshold";
              set_value := {| tv_hours := None; tv_minutes := Some 99 |} |}).
  - unfold settings_unique. simpl. repeat constructor. intros [].
  - simpl. now left.
  - reflexivity.
  - reflexivity.
  - simpl. intros m H. injection H as <-. lia.
Defined.

(** A first check-in of the day is stored, late or present as the answer of
    the lateness function reads in the browser. *)
Lemma handleCheckIn_first
      (utc_offset : timestamptz -> Z) (uid : uuid) (clock : js_date)
      (NOW : timestamptz) (new_id : uuid) (db : database) :
  (forall r, In r (attendance db) ->
             att_user_id r = uid -> att_date r <> iso_date clock) ->
  handleCheckIn utc_offset (Some uid) clock NOW new_id db
  = (set_attendance db
       (attendance db ++
        [checked_in_row uid clock NOW new_id
           (if truthy (match data (is_late_check_in utc_offset db
                                     (timestamptz_of_js clock)) with
                       | Some b => b
                       | None => None
                       end)
            then late else present)]),
     Ok tt).
Proof.
  intros Hfree. unfold handleCheckIn, insert_attendance.
  rewrite calculate_total_hours_no_check_out by reflexivity.
  unfold attendance_insert_check. cbn [att_user_id].
  rewrite String.eqb_refl. cbn [negb].
  match goal with |- (if existsb ?p ?l then _ else _) = _ =>
    assert (Hex : existsb p l = false) end.
  { apply not_true_is_false. intros Hex.
    apply existsb_exists in Hex. destruct Hex as [r [Hin Hk]].
    unfold attendance_key_eqb in Hk. cbn [att_user_id att_date] in Hk.
    apply andb_true_iff in Hk. destruct Hk as [Hu Hd].
    apply String.eqb_eq in Hu. apply Z.eqb_eq in Hd.
    apply (Hfree r Hin); [now rewrite <- Hu | now rewrite <- Hd]. }
  rewrite Hex. reflexivity.
Qed.

Lemma make_time_invalid (h m : Z) :
  h < 0 \/ 24 < h \/ m < 0 \/ 59 < m \/ (h = 24 /\ 0 < m) ->
  make_time h m 0 = Err datetime_field_overflow.
Proof.
  intros H. unfold make_time, USECS_PER_DAY, USECS_PER_SEC.
  destruct (Z.ltb_spec h 0); [reflexivity|].
  destruct (Z.ltb_spec 24 h); [reflexivity|].
  destruct (Z.ltb_spec m 0); [reflexivity|].
  destruct (Z.ltb_spec 59 m); [reflexivity|].
  change (0 <? 0) with false. change (60 <? 0) with false. cbn [orb].
  destruct (Z.ltb_spec 86400000000 (((h * 60 + m) * 60 + 0) * 1000000));
    [reflexivity|lia].
Qed.

(** X6: a stored threshold that is no time of day (an hour outside 0..24, a
    minute outside 0..59, 24 hours and some minutes, or no minute at all)
    does not stop anybody from checking in: the lateness function raises or
    answers NULL, and the first check-in of the day is stored as present at
    whatever time it happens. *)
Theorem unusable_threshold_means_present
        (utc_offset : timestamptz -> Z) (uid : uuid) (clock : js_date)
        (NOW : timestamptz) (new_id : uuid) (db : database)
        (r : settings_row) (h : Z)
        (Hnd : settings_unique db)
        (Hin : In r (settings db))
        (Hkey : set_key r = "late_threshold")
        (Hhour : tv_hours (set_value r) = Some h)
        (Hbad : tv_minutes (set_value r) = None \/
                exists m, tv_minutes (set_value r) = Some m /\
                          (h < 0 \/ 24 < h \/ m < 0 \/ 59 < m \/ (h = 24 /\ 0 < m)))
        (Hfree : forall x, In x (attendance db) ->
                           att_user_id x = uid -> att_date x <> iso_date clock) :
  is_late_check_in utc_offset db (timestamptz_of_js clock) <> Ok (Some true) /\
  is_late_check_in utc_offset db (timestamptz_of_js clock) <> Ok (Some false) /\
  handleCheckIn utc_offset (Some uid) clock NOW new_id db
  = (set_attendance db
       (attendance db ++ [checked_in_row uid clock NOW new_id present]),
     Ok tt).
Proof.
  assert (Hres : (exists e, is_late_check_in utc_offset db (timestamptz_of_js clock)
                            = Err e) \/
                 is_late_check_in utc_offset db (timestamptz_of_js clock) = Ok None).
  { unfold is_late_check_in.
    rewrite (late_threshold_row_unique db r Hnd Hin Hkey), Hhour.
    cbn [int4_in_null].
    destruct (int4_in h) as [h'|e] eqn:Eh; cbn [bind]; [|left; eauto].
    assert (h' = h) as ->.
    { unfold int4_in in Eh. destruct (_ && _); [now injection Eh|discriminate]. }
    destruct Hbad as [Hnone|[m [Hsome Hbad]]].
    - rewrite Hnone. cbn [int4_in_null bind]. now right.
    - rewrite Hsome. cbn [int4_in_null].
      destruct (int4_in m) as [m'|e] eqn:Em; cbn [bind]; [|left; eauto].
      assert (m' = m) as ->.
      { unfold int4_in in Em. destruct (_ && _); [now injection Em|discriminate]. }
      rewrite (make_time_invalid h m Hbad). cbn [bind]. left; eauto. }
  split; [|split].
  - destruct Hres as [[e ->]| ->]; discriminate.
  - destruct Hres as [[e ->]| ->]; discriminate.
  - rewrite (handleCheckIn_first utc_offset uid clock NOW new_id db Hfree).
    now destruct Hres as [[e ->]| ->].
Qed.

Lemma unusable_threshold_means_present_witness :
  is_late_check_in UTC office_with_hour_25 (timestamptz_of_js jan1_1720)
  <> Ok (Some true) /\
  is_late_check_in UTC office_with_hour_25 (timestamptz_of_js jan1_1720)
  <> Ok (Some false) /\
  handleCheckIn UTC (Some "mona") jan1_1720 0 "att-2" office_with_hour_25
  = (set_attendance office_with_hour_25
       (attendance office_with_hour_25
        ++ [checked_in_row "mona" jan1_1720 0 "att-2" present]),
     Ok tt).
Proof.
  apply (unusable_threshold_means_present UTC "mona" jan1_1720 0 "att-2"
           office_with_hour_25
           {| set_key := "late_threshold";
              set_value := {| tv_hours := Some 25; tv_minutes := Some 0 |} |} 25).
  - unfold settings_unique. simpl. repeat constructor. intros [].
  - simpl. now left.
  - reflexivity.
  - reflexivity.
  - right. exists 0. split; [reflexivity|]. lia.
  - simpl. intros x [<-|[]] H. discriminate H.
Defined.

(* ------------------------------------------------------------------ *)
(** ** Derived hours: order and sign *)

Lemma floor_mono (a1 b1 a2 b2 : Z) :
  0 < b1 -> 0 < b2 -> a1 * b2 <= a2 * b1 -> a1 / b1 <= a2 / b2.
Proof.
  intros H1 H2 H. apply Z.div_le_lower_bound; [exact H2|].
  pose proof (Z.mul_div_le a1 b1 H1) as Hk.
  set (k := a1 / b1) in *. nia.
Qed.

Lemma half_up_nonneg (n : Z) (d : positive) :
  0 <= (2 * Z.abs n + Zpos d) / (2 * Zpos d).
Proof. apply Z.div_pos; lia. Qed.

(** Rounding keeps the order. *)
Lemma round_half_away_mono (q1 q2 : Q) :
  (q1 <= q2)%Q -> round_half_away q1 <= round_half_away q2.
Proof.
  destruct q1 as [n1 d1], q2 as [n2 d2]. unfold Qle, round_half_away.
  cbn [Qnum Qden]. intros H.
  pose proof (half_up_nonneg n1 d1) as K1.
  pose proof (half_up_nonneg n2 d2) as K2.
  destruct (Z.sgn_spec n1) as [[Hn1 ->]|[[Hn1 ->]|[Hn1 ->]]];
    destruct (Z.sgn_spec n2) as [[Hn2 ->]|[[Hn2 ->]|[Hn2 ->]]];
    try lia; try nia.
  - (* both positive *)
    rewrite !Z.mul_1_l. apply floor_mono; lia.
  - (* both negative *)
    assert ((2 * Z.abs n2 + Z.pos d2) / (2 * Z.pos d2)
            <= (2 * Z.abs n1 + Z.pos d1) / (2 * Z.pos d1)); [|lia].
    apply floor_mono; lia.
Qed.


Lemma exact_hours_nonneg (check_in check_out : timestamptz) :
  check_in <= check_out -> (0 * 100 <= exact_hours check_in check_out * 100)%Q.
Proof.
  intros H. unfold exact_hours, Qle, Qmult, Qdiv, Qinv. cbn. lia.
Qed.

Lemma calculate_total_hours_both (r : attendance_row) (a b : timestamptz) :
  att_check_in_time r = Some a -> att_check_out_time r = Some b ->
  calculate_total_hours r
  = (h <- numeric_4_2 (exact_hours a b) ;; Ok (with_total_hours r (Some h))).
Proof.
  intros Ha Hb. unfold calculate_total_hours. now rewrite Ha, Hb.
Qed.



(* ------------------------------------------------------------------ *)
(** ** A day at the office: check-in, then check-out *)

Lemma numeric_4_2_in_range (q : Q) :
  (Qabs q < 19999 # 200)%Q ->
  exists c, numeric_4_2 q = Ok c /\ Z.abs c < 10000 /\
            (Qabs (hundredths c - q) <= 1 # 200)%Q.
Proof.
  intros H. destruct (numeric_4_2_cases q) as [Hok|[_ Hbig]]; [exact Hok|].
  exfalso. apply (Qlt_not_le _ _ H Hbig).
Qed.

Lemma same_day_in_range (clock1 clock2 : js_date) :
  0 <= clock2 - clock1 < 359982000 ->
  (Qabs (exact_hours (timestamptz_of_js clock1) (timestamptz_of_js clock2))
   < 19999 # 200)%Q.
Proof.
  intros H. unfold exact_hours, timestamptz_of_js, Qlt, Qabs, Qdiv, Qmult, Qinv.
  cbn. rewrite Z.abs_eq by lia. lia.
Qed.

Lemma update_attendance_rows_untouched s NOW db cond u rows :
  (forall r, In r rows -> cond r = false) ->
  update_attendance_rows s NOW db cond u rows = Ok rows.
Proof.
  induction rows as [|r rest IH]; intros H; [reflexivity|].
  cbn [update_attendance_rows]. unfold update_attendance_row at 1.
  rewrite (H r (or_introl eq_refl)). cbn [andb bind].
  rewrite IH; [reflexivity|]. intros x Hx. apply H. now right.
Qed.

Lemma update_attendance_rows_app s NOW db cond u l1 l2 l1' l2' :
  update_attendance_rows s NOW db cond u l1 = Ok l1' ->
  update_attendance_rows s NOW db cond u l2 = Ok l2' ->
  update_attendance_rows s NOW db cond u (l1 ++ l2)%list = Ok (l1' ++ l2')%list.
Proof.
  revert l1'. induction l1 as [|r rest IH]; intros l1' H1 H2.
  - injection H1 as <-. exact H2.
  - cbn [update_attendance_rows app] in *.
    destruct (update_attendance_row s NOW db cond u r) as [r'|e];
      cbn [bind] in *; [|discriminate].
    destruct (update_attendance_rows s NOW db cond u rest) as [rest'|e];
      cbn [bind] in *; [|discriminate].
    injection H1 as <-. now rewrite (IH rest' eq_refl H2).
Qed.

(** X8: a user with no record for the day who checks in and, less than
    99.995 hours later and an identifier not used before, checks out from the page,
    leaves the ledger with one more row: theirs, of that date, with both
    instants, the status decided at check-in, and hours that are not
    negative and within 0.005 of the time between the two instants. *)
Theorem check_in_then_check_out
        (utc_offset : timestamptz -> Z) (uid : uuid) (clock1 clock2 : js_date)
        (NOW1 NOW2 : timestamptz) (new_id : uuid) (db : database)
        (Hfree : forall r, In r (attendance db) ->
                           att_user_id r = uid -> att_date r <> iso_date clock1)
        (Hfresh : forall r, In r (attendance db) -> att_id r <> new_id)
        (Hspan : 0 <= clock2 - clock1 < 359982000) :
  exists st h,
    let rec := checked_in_row uid clock1 NOW1 new_id st in
    let db1 := fst (handleCheckIn utc_offset (Some uid) clock1 NOW1 new_id db) in
    let out := handleCheckOut (Some uid) clock2 NOW2 (Some rec) db1 in
    handleCheckIn utc_offset (Some uid) clock1 NOW1 new_id db
    = (set_attendance db (attendance db ++ [rec])%list, Ok tt) /\
    snd out = Ok tt /\
    fst out
    = set_attendance db
        (attendance db ++
         [with_updated_at
            (with_total_hours
               (apply_update
                  {| upd_check_out_time := Some (timestamptz_of_js clock2);
                     upd_status := None; upd_modified_by := None;
                     upd_modified_at := None; upd_original_status := None;
                     upd_modification_reason := None |} rec)
               (Some h)) NOW2]) /\
    0 <= h < 10000 /\
    (Qabs (hundredths h
           - exact_hours (timestamptz_of_js clock1) (timestamptz_of_js clock2))
     <= 1 # 200)%Q.
Proof.
  pose proof (handleCheckIn_first utc_offset uid clock1 NOW1 new_id db Hfree) as Hci.
  set (st := if truthy (match data (is_late_check_in utc_offset db
                                      (timestamptz_of_js clock1)) with
                        | Some b => b
                        | None => None
                        end)
             then late else present) in *.
  destruct (numeric_4_2_in_range _ (same_day_in_range clock1 clock2 Hspan))
    as [h [Eh [Hh Hq]]].
  exists st, h. cbv zeta. rewrite Hci. cbn [fst].
  set (rec := checked_in_row uid clock1 NOW1 new_id st).
  set (u := {| upd_check_out_time := Some (timestamptz_of_js clock2);
               upd_status := None; upd_modified_by := None;
               upd_modified_at := None; upd_original_status := None;
               upd_modification_reason := None |}).
  set (db1 := set_attendance db (attendance db ++ [rec])).
  assert (Hrows : update_attendance_rows (Some uid) NOW2 db1
                    (fun r => att_id r =s? att_id rec) u (attendance db ++ [rec])%list
                  = Ok (attendance db ++
                        [with_updated_at
                           (with_total_hours (apply_update u rec) (Some h)) NOW2])%list).
  { apply update_attendance_rows_app.
    - apply update_attendance_rows_untouched. intros r Hr.
      apply String.eqb_neq. exact (Hfresh r Hr).
    - cbn [update_attendance_rows]. unfold update_attendance_row.
      unfold attendance_select_using, attendance_update_using,
        attendance_owner_or_manager.
      cbn [rec checked_in_row att_id att_user_id].
      rewrite !String.eqb_refl. cbn [andb orb].
      rewrite (calculate_total_hours_both _ (timestamptz_of_js clock1)
                 (timestamptz_of_js clock2)) by reflexivity.
      rewrite Eh. cbn [bind].
      cbn [update_updated_at_column with_updated_at with_total_hours
           apply_update att_user_id].
      rewrite String.eqb_refl. reflexivity. }
  split; [reflexivity|].
  unfold handleCheckOut, update_attendance.
  change (attendance db1) with (attendance db ++ [rec])%list.
  fold u. rewrite Hrows. cbn [fst snd].
  split; [reflexivity|]. split; [now destruct db|].
  split; [|exact Hq].
  split; [|lia].
  assert (Hc : h = round_half_away
                     (exact_hours (timestamptz_of_js clock1)
                                  (timestamptz_of_js clock2) * 100)).
  { unfold numeric_4_2 in Eh. destruct (_ <? _); [now injection Eh|discriminate]. }
  rewrite Hc. change 0 with (round_half_away (0 * 100)).
  apply round_half_away_mono, exact_hours_nonneg.
  unfold timestamptz_of_js. lia.
Qed.

Lemma check_in_then_check_out_witness :
  exists st h,
    let rec := checked_in_row "mona" jan1_0920 1 "att-2" st in
    let db1 := fst (handleCheckIn UTC (Some "mona") jan1_0920 1 "att-2" office) in
    let out := handleCheckOut (Some "mona") jan1_1720 2 (Some rec) db1 in
    handleCheckIn UTC (Some "mona") jan1_0920 1 "att-2" office
    = (set_attendance office (attendance office ++ [rec])%list, Ok tt) /\
    snd out = Ok tt /\
    fst out
    = set_attendance office
        (attendance office ++
         [with_updated_at
            (with_total_hours
               (apply_update
                  {| upd_check_out_time := Some (timestamptz_of_js jan1_1720);
                     upd_status := None; upd_modified_by := None;
                     upd_modified_at := None; upd_original_status := None;
                     upd_modification_reason := None |} rec)
               (Some h)) 2]) /\
    0 <= h < 10000 /\
    (Qabs (hundredths h
           - exact_hours (timestamptz_of_js jan1_0920) (timestamptz_of_js jan1_1720))
     <= 1 # 200)%Q.
Proof.
  apply (check_in_then_check_out UTC "mona" jan1_0920 jan1_1720 1 2 "att-2" office).
  - simpl. intros r [<-|[]] H. discriminate H.
  - simpl. intros r [<-|[]] H. discriminate H.
  - vm_compute. split; [discriminate|reflexivity].
Defined.

(* ------------------------------------------------------------------ *)
(** ** One record per user and day *)

Lemma update_attendance_row_key s NOW db cond u r r' :
  update_attendance_row s NOW db cond u r = Ok r' ->
  att_user_id r' = att_user_id r /\ att_date r' = att_date r.
Proof.
  intros H.
  destruct (update_attendance_row_cases s NOW db cond u r)
    as [[_ E]|[_ [[NEW [Ec E]]|[_ E]]]]; rewrite E in H; try discriminate;
    injection H as <-; [split; reflexivity|].
  rewrite (calculate_total_hours_frame _ _ Ec). split; reflexivity.
Qed.

Lemma Forall2_map_eq {A B : Type} (f : A -> B) (l l' : list A) :
  Forall2 (fun x y => f y = f x) l l' -> map f l' = map f l.
Proof.
  intros F. induction F as [|x y l l' Hxy F IH]; [reflexivity|].
  cbn [map]. now rewrite Hxy, IH.
Qed.

Lemma update_attendance_keys s NOW db cond u :
  map (fun r => (att_user_id r, att_date r))
      (attendance (fst (update_attendance s NOW db cond u)))
  = map (fun r => (att_user_id r, att_date r)) (attendance db).
Proof.
  destruct (update_attendance_cases s NOW db cond u)
    as [[rows [E F]]|[E _]]; rewrite E; cbn [fst]; [|reflexivity].
  cbn [attendance set_attendance]. apply Forall2_map_eq.
  apply (Forall2_weaken _ _ _ _
           (fun x y _ (H : update_attendance_row s NOW db cond u x = Ok y) =>
              match update_attendance_row_key s NOW db cond u x y H with
              | conj Hu Hd => f_equal2 pair Hu Hd
              end) F).
Qed.

(** Dropping rows from a ledger with one record per user and day leaves
    such a ledger. *)
Lemma remaining_rows_unique (rows : list attendance_row)
      (keep : attendance_row -> bool) :
  NoDup (map (fun r => (att_user_id r, att_date r)) rows) ->
  NoDup (map (fun r => (att_user_id r, att_date r)) (filter keep rows)).
Proof.
  intros Hrows. induction rows as [|row rows IH]; cbn [filter map] in *.
  - constructor.
  - apply NoDup_cons_iff in Hrows. destruct Hrows as [Hfirst Hrest].
    destruct (keep row); [|exact (IH Hrest)].
    cbn [map]. constructor; [|exact (IH Hrest)].
    intros Hin. apply Hfirst.
    apply in_map_iff in Hin. destruct Hin as [other [Ekey Hother]].
    apply filter_In in Hother. destruct Hother as [Hother _].
    rewrite <- Ekey.
    exact (in_map (fun r => (att_user_id r, att_date r)) rows other Hother).
Qed.

Lemma NoDup_snoc {A : Type} (l : list A) (x : A) :
  NoDup l -> ~ In x l -> NoDup (l ++ [x]).
Proof.
  intros Hl Hx. apply NoDup_app; [exact Hl|repeat constructor; intros []|].
  intros y Hy [<-|[]]. contradiction.
Qed.

(** X9: the ledger never comes to hold two records of one user for one
    day: the check-in, the check-out, the edit dialog and a deletion all
    keep that. *)
Theorem ledger_stays_unique (db : database) (H : ledger_unique db) :
  (forall utc_offset user clock NOW new_id,
      ledger_unique (fst (handleCheckIn utc_offset user clock NOW new_id db))) /\
  (forall user clock NOW todayAttendance,
      ledger_unique (fst (handleCheckOut user clock NOW todayAttendance db))) /\
  (forall user clock NOW record status reason,
      ledger_unique (fst (handleSubmit user clock NOW record status reason db))) /\
  (forall s cond, ledger_unique (fst (delete_attendance s db cond))).
Proof.
  unfold ledger_unique in *. repeat split.
  - intros utc_offset [uid|] clock NOW new_id; [|exact H].
    unfold handleCheckIn, insert_attendance.
    rewrite calculate_total_hours_no_check_out by reflexivity.
    destruct (negb _); [exact H|].
    match goal with |- context [existsb ?p ?l] =>
      destruct (existsb p l) eqn:Hex end; [exact H|].
    cbn [fst attendance set_attendance]. rewrite map_app. cbn [map].
    apply NoDup_snoc; [exact H|].
    cbn [att_user_id att_date]. intros Hin.
    apply in_map_iff in Hin. destruct Hin as [r [Er Hr]].
    injection Er as Eu Ed.
    apply not_true_iff_false in Hex. apply Hex.
    apply existsb_exists. exists r. split; [exact Hr|].
    unfold attendance_key_eqb. cbn [att_user_id att_date].
    now rewrite Eu, Ed, String.eqb_refl, Z.eqb_refl.
  - intros user clock NOW [rec|]; [|exact H].
    unfold handleCheckOut. now rewrite update_attendance_keys.
  - intros user clock NOW record status reason. unfold handleSubmit.
    destruct (editSchema_parse _) as [v|]; [|exact H].
    destruct user as [uid|]; [|exact H].
    match goal with |- context [update_attendance ?s ?N ?d ?c ?u] =>
      pose proof (update_attendance_keys s N d c u) as K;
      destruct (update_attendance s N d c u) as [db' r] end.
    cbn [fst] in *. now rewrite K.
  - intros s cond. unfold delete_attendance. cbn [fst attendance set_attendance].
    now apply remaining_rows_unique.
Qed.

Lemma ledger_stays_unique_witness :
  ledger_unique (fst (handleCheckIn UTC (Some "mona") jan1_0920 1 "att-2" office)) /\
  ledger_unique (fst (handleCheckOut (Some "alice") jan1_1720 7 (Some alice_jan1)
                        office)).
Proof.
  assert (H : ledger_unique office).
  { unfold ledger_unique. simpl. repeat constructor. intros []. }
  destruct (ledger_stays_unique office H) as [Hin [Hout _]].
  split; [apply Hin | apply Hout].
Defined.

(* ------------------------------------------------------------------ *)
(** ** The edit request without the manager role *)

(** X10: the request of the edit dialog, sent by somebody who is neither
    manager nor admin, never touches a record of anybody else, and does
    rewrite the sender's own record: the status and the audit columns of
    one's own record are open to oneself. *)
Theorem edit_without_manager_role
        (uid : uuid) (clock : js_date) (NOW : timestamptz)
        (record : dialog_record) (status : attendance_status) (reason : string)
        (db : database)
        (Hno : manager_or_admin db (Some uid) = false)
        (Hlen : (3 <= String.length (trim reason) <= 500)%nat) :
  let out := handleSubmit (Some uid) clock NOW record status reason db in
  Forall2 (fun r r' => att_user_id r <> uid -> r' = r)
          (attendance db) (attendance (fst out)) /\
  (forall rec,
      In rec (attendance db) -> att_id rec = rec_id record ->
      att_user_id rec = uid ->
      (snd out = responded (Ok tt) /\
       exists rec',
         In rec' (attendance (fst out)) /\
         same_but_audit rec rec' /\
         att_status rec' = status /\
         att_modified_by rec' = Some uid /\
         att_modification_reason rec' = Some (trim reason)) \/
      (out = (db, responded (Err numeric_value_out_of_range)) /\
       exists r, In r (attendance db) /\ att_id r = rec_id record /\
                 hours_overflow r)).
Proof.
  intros out. subst out. unfold handleSubmit.
  rewrite (editSchema_parse_valid status reason Hlen). cbn [ed_status ed_reason].
  match goal with |- context [update_attendance ?s ?N ?d ?c ?u] =>
    set (cond := c); set (upd := u) end.
  assert (Hother : forall r, att_user_id r <> uid ->
                             attendance_owner_or_manager db (Some uid) r = false).
  { intros r Hr. unfold attendance_owner_or_manager.
    unfold manager_or_admin in Hno. rewrite <- orb_assoc, Hno, orb_false_r.
    apply String.eqb_neq. congruence. }
  destruct (update_attendance_cases (Some uid) NOW db cond upd)
    as [[rows [E F]]|[E [r [Hr [Hc Ho]]]]]; rewrite E; cbn [fst snd].
  - split.
    + cbn [attendance set_attendance].
      refine (Forall2_weaken _ _ _ _ _ F). intros x y _ Hrow Hx.
      unfold update_attendance_row, attendance_select_using in Hrow.
      rewrite (Hother x Hx), andb_false_r in Hrow. cbn in Hrow.
      now injection Hrow.
    + intros rec Hin Hid Hown. left. split; [reflexivity|].
      destruct (Forall2_In_l _ _ _ rec F Hin) as [rec' [Hin' Hrow]].
      destruct (update_attendance_row_cases (Some uid) NOW db cond upd rec)
        as [[Hhit _]|[_ [[NEW [Ec Er]]|[_ Er]]]].
      * exfalso.
        unfold cond, attendance_select_using, attendance_update_using,
          attendance_owner_or_manager in Hhit.
        rewrite Hid, Hown, !String.eqb_refl in Hhit. cbn in Hhit. discriminate.
      * rewrite Er in Hrow. injection Hrow as <-.
        exists (update_updated_at_column NOW NEW).
        split; [exact Hin'|].
        rewrite (calculate_total_hours_frame _ _ Ec).
        unfold same_but_audit. cbn. repeat split.
      * rewrite Er in Hrow. discriminate.
  - split.
    + apply Forall2_same. reflexivity.
    + intros rec Hin Hid Hown. right. split; [reflexivity|].
      exists r. split; [exact Hr|]. split; [now apply String.eqb_eq|exact Ho].
Qed.

Lemma edit_without_manager_role_witness :
  let out := handleSubmit (Some "alice") jan1_1720 7
               {| rec_id := "att-1"; rec_status := present |}
               half_day "left at noon" office in
  snd out = responded (Ok tt) /\
  map att_status (attendance (fst out)) = [ half_day ] /\
  Forall2 (fun r r' => att_user_id r <> "alice" -> r' = r)
          (attendance office) (attendance (fst out)).
Proof.
  destruct (edit_without_manager_role "alice" jan1_1720 7
              {| rec_id := "att-1"; rec_status := present |}
              half_day "left at noon" office) as [Hframe _].
  - reflexivity.
  - vm_compute. lia.
  - split; [reflexivity|]. split; [reflexivity|]. exact Hframe.
Defined.

(* ------------------------------------------------------------------ *)
(** ** Registration and the roles it grants *)

Lemma user_roles_key_eqb_eq (a b : user_roles_row) :
  user_roles_key_eqb a b = true <-> a = b.
Proof.
  unfold user_roles_key_eqb. rewrite andb_true_iff, String.eqb_eq, app_role_eqb_eq.
  destruct a, b; cbn. split; [intros [-> ->]; reflexivity|].
  intros H; injection H; auto.
Qed.

Lemma user_roles_store_cases (db : database) (new : user_roles_row) :
  (In new (user_roles db) /\ user_roles_store db new = (db, Err unique_violation)) \/
  (~ In new (user_roles db) /\
   user_roles_store db new
   = (set_user_roles db (user_roles db ++ [new]), Ok tt)).
Proof.
  unfold user_roles_store.
  destruct (existsb (user_roles_key_eqb new) (user_roles db)) eqn:E.
  - left. split; [|reflexivity]. apply existsb_exists in E.
    destruct E as [x [Hx Ex]]. apply user_roles_key_eqb_eq in Ex. now subst.
  - right. split; [|reflexivity]. intros Hin.
    apply not_true_iff_false in E. apply E. apply existsb_exists.
    exists new. split; [exact Hin|]. now apply user_roles_key_eqb_eq.
Qed.

Lemma has_role_snoc (db db' : database) (ur : user_roles_row)
      (uid : uuid) (role : app_role) :
  user_roles db' = (user_roles db ++ [ur])%list ->
  has_role db' uid role
  = has_role db uid role
    || (ur_user_id ur =s? uid) && app_role_eqb (ur_role ur) role.
Proof.
  intros H. unfold has_role. rewrite H, existsb_app. cbn [existsb].
  now rewrite orb_false_r.
Qed.

Lemma app_role_out_manager (r : app_role) :
  app_role_out r = "manager" -> r = manager.
Proof. destruct r; cbn; intros H; try discriminate H; reflexivity. Qed.

(** X11: a visitor who signs up through the form with the role select on
    Manager comes out holding the manager role: the policies then let that
    identity delete any attendance record and grant itself the admin
    role. *)
Theorem self_declared_manager
        (autoconfirm : bool) (new_id : uuid) (form : signup_form)
        (db : database) (e : text)
        (Hemail : form_email form = Some e)
        (Hrole : form_role form = Some "manager")
        (Hfresh : forall p, In p (profiles db) ->
                    pr_id p <> new_id /\
                    pr_employee_id p
                    <> "EMP" ++ LPAD (int8_out (employee_id_seq db + 1)) 4 "0")
        (Hnew : forall ur, In ur (user_roles db) -> ur_user_id ur <> new_id) :
  let out := handleSignUp autoconfirm new_id None form db in
  snd out = account_created /\
  user_roles (fst out)
  = (user_roles db ++ [ {| ur_user_id := new_id; ur_role := manager |} ])%list /\
  manager_or_admin (fst out) (Some new_id) = true /\
  (forall cond,
      delete_attendance (Some new_id) (fst out) cond
      = (set_attendance (fst out)
           (filter (fun r => negb (cond r)) (attendance db)),
         Ok (List.length (filter cond (attendance db))))) /\
  snd (insert_user_roles (Some new_id) (fst out)
         {| ur_user_id := new_id; ur_role := admin |}) = Ok tt.
Proof.
  intros out. subst out. unfold handleSignUp. cbn [option_map js_or].
  unfold signUp. rewrite Hemail.
  set (NEW := {| au_id := new_id; au_email := e;
                 au_raw_user_meta_data :=
                   {| meta_name := form_name form;
                      meta_department := form_department form;
                      meta_role := form_role form |} |}).
  destruct (insert_auth_users_succeeds db NEW) as [db' E];
    [right; right; exact Hrole | exact Hfresh | exact Hnew |].
  rewrite E. cbn [fst snd].
  destruct (insert_auth_users_ok db db' NEW E)
    as (p & ur & _ & _ & Hr & Hatt & _ & _ & _ & _ & _ & _ & _ & _ & _ & Hu & Hro).
  cbn [NEW au_id au_raw_user_meta_data meta_role] in Hu, Hro.
  rewrite Hrole in Hro. cbn [COALESCE] in Hro. apply app_role_out_manager in Hro.
  assert (Eur : ur = {| ur_user_id := new_id; ur_role := manager |}).
  { destruct ur as [u ro]. cbn in Hu, Hro. now subst. }
  subst ur.
  assert (Hm : manager_or_admin db' (Some new_id) = true).
  { unfold manager_or_admin. rewrite (has_role_snoc db db' _ new_id manager Hr).
    cbn [ur_user_id ur_role app_role_eqb]. rewrite String.eqb_refl.
    now rewrite orb_true_r. }
  split; [reflexivity|]. split; [exact Hr|]. split; [exact Hm|]. split.
  - intros cond. unfold delete_attendance, attendance_select_using,
      attendance_delete_using.
    rewrite Hatt. f_equal; [f_equal|f_equal; f_equal]; apply filter_ext; intros r;
      rewrite (manager_sees_every_row db' new_id r Hm), Hm; now rewrite !andb_true_r.
  - unfold insert_user_roles, user_roles_insert_check. rewrite Hm.
    destruct (user_roles_store_cases db' {| ur_user_id := new_id; ur_role := admin |})
      as [[Hin _]|[_ ->]]; [|reflexivity].
    exfalso. rewrite Hr in Hin. apply in_app_or in Hin.
    destruct Hin as [Hin|[Hin|[]]]; [|discriminate Hin].
    exact (Hnew _ Hin eq_refl).
Qed.

Lemma self_declared_manager_witness :
  let out := handleSignUp true "dave" None dave_form office in
  snd out = account_created /\
  user_roles (fst out)
  = (user_roles office ++ [ {| ur_user_id := "dave"; ur_role := manager |} ])%list /\
  manager_or_admin (fst out) (Some "dave") = true /\
  (forall cond,
      delete_attendance (Some "dave") (fst out) cond
      = (set_attendance (fst out)
           (filter (fun r => negb (cond r)) (attendance office)),
         Ok (List.length (filter cond (attendance office))))) /\
  snd (insert_user_roles (Some "dave") (fst out)
         {| ur_user_id := "dave"; ur_role := admin |}) = Ok tt.
Proof.
  apply (self_declared_manager true "dave" dave_form office "dave@example.com").
  - reflexivity.
  - reflexivity.
  - simpl. intros p [<-|[<-|[]]]; split; discriminate.
  - simpl. intros ur [<-|[<-|[]]]; discriminate.
Defined.

Lemma insert_auth_users_bad_role (db : database) (NEW : auth_users_row) (t : text) :
  meta_role (au_raw_user_meta_data NEW) = Some t ->
  t <> "employee" -> t <> "manager" ->
  insert_auth_users db NEW
  = (set_employee_id_seq db (employee_id_seq db + 1),
     Err invalid_text_representation).
Proof.
  intros Ht He Hm. unfold insert_auth_users, handle_new_user, nextval.
  rewrite Ht. cbn [cast_null]. unfold user_role_in.
  apply String.eqb_neq in He, Hm. rewrite He, Hm. reflexivity.
Qed.

(** X12: an invitation issued for the admin role cannot be redeemed: the
    trigger casts the role to the enum of the profile, which has no such
    label, so every sign-up bound to it fails, creating no identity, no
    profile and no grant, and leaving the invitation as it was. *)
Theorem admin_invitation_unusable
        (autoconfirm : bool) (new_id : uuid) (inv : invitation_data)
        (form : signup_form) (db : database)
        (Hrole : idata_role inv = "admin") :
  let out := handleSignUp autoconfirm new_id (Some inv) form db in
  (exists e, snd out = signup_failed e) /\
  auth_users (fst out) = auth_users db /\
  profiles (fst out) = profiles db /\
  user_roles (fst out) = user_roles db /\
  invitations (fst out) = invitations db /\
  attendance (fst out) = attendance db /\
  settings (fst out) = settings db.
Proof.
  intros out. subst out. unfold handleSignUp. cbn [option_map].
  rewrite Hrole. change (js_or (Some "admin") (form_role form)) with (Some "admin").
  unfold signUp.
  destruct (js_or (Some (idata_email inv)) (form_email form)) as [e|].
  - rewrite (insert_auth_users_bad_role db _ "admin") by (try reflexivity; discriminate).
    cbn [fst snd]. split; [eexists; reflexivity|]. now destruct db.
  - cbn [fst snd]. split; [eexists; reflexivity|]. repeat split.
Qed.

Lemma admin_invitation_unusable_witness :
  let out := handleSignUp true "bob" (Some (bob_invited_as "admin")) bob_form
               (office_inviting admin) in
  (exists e, snd out = signup_failed e) /\
  auth_users (fst out) = auth_users (office_inviting admin) /\
  profiles (fst out) = profiles (office_inviting admin) /\
  user_roles (fst out) = user_roles (office_inviting admin) /\
  invitations (fst out) = invitations (office_inviting admin) /\
  attendance (fst out) = attendance (office_inviting admin) /\
  settings (fst out) = settings (office_inviting admin).
Proof.
  apply (admin_invitation_unusable true "bob" (bob_invited_as "admin") bob_form
           (office_inviting admin)).
  reflexivity.
Defined.

(** X13: the lookup of the sign-up page prefills only from an invitation
    that is in the store under that token, still pending and not past its
    expiry at the browser's clock, and only in a session holding the
    manager or admin role; it hands on that invitation's own fields. *)
Theorem loaded_invitation_is_open
        (s : session) (clock : js_date) (db : database) (token : text)
        (d : invitation_data)
        (H : loadInvitation s clock db token = Some d) :
  manager_or_admin db s = true /\
  exists r,
    In r (invitations db) /\ inv_token r = token /\
    inv_status r = "pending" /\
    clock <= js_of_timestamptz (inv_expires_at r) /\
    d = {| idata_email := inv_email r; idata_name := inv_name r;
           idata_department := inv_department r;
           idata_role := app_role_out (inv_role r);
           idata_token := token |}.
Proof.
  unfold loadInvitation, select_invitations in H.
  match type of H with context [filter ?f ?l] =>
    destruct (filter f l) as [|r [|r' rest]] eqn:E end;
    cbn [maybeSingle] in H; try discriminate.
  assert (Hr : In r (filter
                       (fun r => (inv_token r =s? token)
                                 && (inv_status r =s? "pending")
                                 && invitations_select_using db s r)
                       (invitations db))) by (rewrite E; now left).
  apply filter_In in Hr. destruct Hr as [Hin Hc].
  apply andb_true_iff in Hc. destruct Hc as [Hc Hsel].
  apply andb_true_iff in Hc. destruct Hc as [Htok Hst].
  apply String.eqb_eq in Htok, Hst.
  destruct (Z.ltb_spec (js_of_timestamptz (inv_expires_at r)) clock) as [|Hle];
    [discriminate|].
  injection H as <-. split; [exact Hsel|].
  exists r. rewrite Htok. repeat split; assumption.
Qed.

Lemma loaded_invitation_is_open_witness :
  manager_or_admin office (Some "mona") = true /\
  exists r,
    In r (invitations office) /\ inv_token r = "tok-bob" /\
    inv_status r = "pending" /\
    jan1_0920 <= js_of_timestamptz (inv_expires_at r) /\
    bob_invitation
    = {| idata_email := inv_email r; idata_name := inv_name r;
         idata_department := inv_department r;
         idata_role := app_role_out (inv_role r);
         idata_token := "tok-bob" |}.
Proof.
  apply (loaded_invitation_is_open (Some "mona") jan1_0920 office "tok-bob"
           bob_invitation).
  reflexivity.
Defined.

Lemma accept_invitations_value (s : session) (db : database)
      (cond : invitations_row -> bool) :
  manager_or_admin db s = true ->
  accept_invitations s db cond
  = (set_invitations db
       (map (fun r => if cond r then with_status r "accepted" else r)
            (invitations db)),
     Ok tt).
Proof.
  intros H. unfold accept_invitations, invitations_select_using,
    invitations_update_using.
  rewrite H. do 2 f_equal. apply map_ext. intros r. now rewrite !andb_true_r.
Qed.

(** X14: an invitation issued for the manager role is used up by the
    sign-up bound to it, when the service opens the session at once: the
    account is created with the manager role granted once, every invitation
    under the token is accepted, and no later lookup of the token
    prefills. *)
Theorem manager_invitation_consumed
        (new_id : uuid) (inv : invitation_data) (form : signup_form)
        (db : database)
        (Hrole : idata_role inv = "manager")
        (Hemail : idata_email inv <> "")
        (Hfresh : forall p, In p (profiles db) ->
                    pr_id p <> new_id /\
                    pr_employee_id p
                    <> "EMP" ++ LPAD (int8_out (employee_id_seq db + 1)) 4 "0")
        (Hnew : forall ur, In ur (user_roles db) -> ur_user_id ur <> new_id) :
  let out := handleSignUp true new_id (Some inv) form db in
  snd out = account_created /\
  user_roles (fst out)
  = (user_roles db ++ [ {| ur_user_id := new_id; ur_role := manager |} ])%list /\
  invitations (fst out)
  = map (fun r => if inv_token r =s? idata_token inv
                  then with_status r "accepted" else r) (invitations db) /\
  forall s clock, loadInvitation s clock (fst out) (idata_token inv) = None.
Proof.
  intros out. subst out. unfold handleSignUp. cbn [option_map].
  rewrite Hrole. change (js_or (Some "manager") (form_role form)) with (Some "manager").
  assert (Hmail : js_or (Some (idata_email inv)) (form_email form)
                  = Some (idata_email inv)).
  { unfold js_or. apply String.eqb_neq in Hemail. now rewrite Hemail. }
  rewrite Hmail. unfold signUp.
  match goal with |- context [insert_auth_users db ?N] => set (NEW := N) end.
  destruct (insert_auth_users_succeeds db NEW) as [db' E];
    [right; right; reflexivity | exact Hfresh | exact Hnew |].
  rewrite E. cbn [fst snd au_id NEW].
  destruct (insert_auth_users_ok db db' NEW E)
    as (p & ur & _ & _ & Hr & _ & Hinv & _ & _ & _ & _ & _ & _ & _ & _ & Hu & Hro).
  cbn [NEW au_id au_raw_user_meta_data meta_role COALESCE] in Hu, Hro.
  apply app_role_out_manager in Hro.
  assert (Eur : ur = {| ur_user_id := new_id; ur_role := manager |}).
  { destruct ur as [u ro]. cbn in Hu, Hro. now subst. }
  subst ur.
  assert (Hm : manager_or_admin db' (Some new_id) = true).
  { unfold manager_or_admin. rewrite (has_role_snoc db db' _ new_id manager Hr).
    cbn [ur_user_id ur_role app_role_eqb]. rewrite String.eqb_refl.
    now rewrite orb_true_r. }
  rewrite (accept_invitations_value (Some new_id) db' _ Hm).
  cbn [app_role_in String.eqb]. change (app_role_in "manager") with (Ok manager).
  set (db2 := set_invitations db' _).
  assert (Hm2 : manager_or_admin db2 (Some new_id) = true) by exact Hm.
  unfold insert_user_roles, user_roles_insert_check. rewrite Hm2.
  destruct (user_roles_store_cases db2 {| ur_user_id := new_id; ur_role := manager |})
    as [[_ ->]|[Hnot _]].
  2:{ exfalso. apply Hnot. change (user_roles db2) with (user_roles db').
      rewrite Hr. apply in_or_app. right. now left. }
  cbn [fst snd]. split; [reflexivity|]. split; [exact Hr|]. split.
  - unfold db2. cbn [invitations set_invitations]. now rewrite Hinv.
  - intros s clock. unfold loadInvitation, select_invitations.
    rewrite filter_none; [reflexivity|].
    intros x Hx. unfold db2 in Hx. cbn [invitations set_invitations] in Hx.
    apply in_map_iff in Hx. destruct Hx as [r [<- _]].
    destruct (inv_token r =s? idata_token inv) eqn:Et.
    + cbn [with_status inv_token inv_status]. rewrite Et. reflexivity.
    + rewrite Et. reflexivity.
Qed.

Lemma manager_invitation_consumed_witness :
  let out := handleSignUp true "bob" (Some (bob_invited_as "manager")) bob_form
               (office_inviting manager) in
  snd out = account_created /\
  user_roles (fst out)
  = (user_roles (office_inviting manager)
     ++ [ {| ur_user_id := "bob"; ur_role := manager |} ])%list /\
  invitations (fst out)
  = map (fun r => if inv_token r =s? "tok-bob"
                  then with_status r "accepted" else r)
        (invitations (office_inviting manager)) /\
  forall s clock, loadInvitation s clock (fst out) "tok-bob" = None.
Proof.
  apply (manager_invitation_consumed "bob" (bob_invited_as "manager") bob_form
           (office_inviting manager)).
  - reflexivity.
  - discriminate.
  - simpl. intros p [<-|[<-|[]]]; split; discriminate.
  - simpl. intros ur [<-|[<-|[]]]; discriminate.
Defined.

(* ------------------------------------------------------------------ *)
(** ** The keys of the store under registration *)

Lemma insert_auth_users_keeps_unique (db : database) (NEW : auth_users_row) :
  profiles_unique db -> grants_unique db ->
  profiles_unique (fst (insert_auth_users db NEW)) /\
  grants_unique (fst (insert_auth_users db NEW)) /\
  invitations (fst (insert_auth_users db NEW)) = invitations db.
Proof.
  intros [Hid Hcode] Hg.
  split; [|split]; [| |apply insert_auth_users_invitations].
  - unfold profiles_unique, insert_auth_users, handle_new_user, nextval.
    destruct (cast_null user_role_in _) as [urole|e]; [|now split].
    unfold profiles_store.
    match goal with |- context [existsb ?f ?l] =>
      destruct (existsb f l) eqn:Ep end; [now split|].
    assert (Hfresh : forall q, In q (profiles db) ->
              pr_id q <> au_id NEW /\
              pr_employee_id q
              <> "EMP" ++ LPAD (int8_out (employee_id_seq db + 1)) 4 "0").
    { intros q Hq. apply not_true_iff_false in Ep.
      split; intros Hc; apply Ep; apply existsb_exists; exists q;
        (split; [exact Hq|]); cbn; rewrite Hc, String.eqb_refl;
        [reflexivity | apply orb_true_r]. }
    destruct (cast_null app_role_in _) as [arole|e]; [|now split].
    unfold user_roles_store.
    match goal with |- context [existsb ?f ?l] => destruct (existsb f l) end;
      [now split|].
    cbn. rewrite !map_app. cbn [map].
    split; apply NoDup_snoc; try assumption; intros Hin;
      apply in_map_iff in Hin; destruct Hin as [q [Eq Hq]];
      destruct (Hfresh q Hq); contradiction.
  - unfold grants_unique, insert_auth_users, handle_new_user, nextval.
    destruct (cast_null user_role_in _) as [urole|e]; [|exact Hg].
    unfold profiles_store.
    match goal with |- context [existsb ?f ?l] => destruct (existsb f l) end;
      [exact Hg|].
    destruct (cast_null app_role_in _) as [arole|e]; [|exact Hg].
    match goal with |- context [user_roles_store ?d ?n] =>
      destruct (user_roles_store_cases d n) as [[_ ->]|[Hnot ->]] end;
      [exact Hg|].
    cbn in *. now apply NoDup_snoc.
Qed.

Lemma insert_user_roles_keeps_unique (s : session) (db : database)
      (new : user_roles_row) :
  grants_unique db ->
  grants_unique (fst (insert_user_roles s db new)) /\
  profiles (fst (insert_user_roles s db new)) = profiles db /\
  invitations (fst (insert_user_roles s db new)) = invitations db.
Proof.
  intros Hg. unfold insert_user_roles.
  destruct (user_roles_insert_check db s new); [|now repeat split].
  destruct (user_roles_store_cases db new) as [[_ ->]|[Hnot ->]];
    [now repeat split|].
  cbn. repeat split. now apply NoDup_snoc.
Qed.

Lemma accept_invitations_frame (s : session) (db : database)
      (cond : invitations_row -> bool) :
  profiles (fst (accept_invitations s db cond)) = profiles db /\
  user_roles (fst (accept_invitations s db cond)) = user_roles db /\
  map inv_token (invitations (fst (accept_invitations s db cond)))
  = map inv_token (invitations db).
Proof.
  unfold accept_invitations. cbn. repeat split.
  rewrite map_map. apply map_ext. intros r. now destruct (_ && _).
Qed.

(** X15: registration keeps the keys of the store unique: whatever the
    form, the invitation and the outcome, afterwards no two profiles share
    an identifier or an employee code, no role is granted twice to one
    user, and no two invitations share a token. *)
Theorem sign_up_keeps_keys_unique
        (autoconfirm : bool) (new_id : uuid)
        (invitationData : option invitation_data) (form : signup_form)
        (db : database)
        (Hp : profiles_unique db) (Hg : grants_unique db) (Ht : tokens_unique db) :
  let out := handleSignUp autoconfirm new_id invitationData form db in
  profiles_unique (fst out) /\ grants_unique (fst out) /\ tokens_unique (fst out).
Proof.
  intros out. subst out. unfold handleSignUp, signUp.
  destruct (js_or (option_map idata_email invitationData) (form_email form))
    as [e|]; [|cbn [fst]; auto].
  match goal with |- context [insert_auth_users db ?N] => set (NEW := N) end.
  destruct (insert_auth_users_keeps_unique db NEW Hp Hg) as [Hp1 [Hg1 Hi1]].
  assert (Ht1 : tokens_unique (fst (insert_auth_users db NEW)))
    by (unfold tokens_unique; now rewrite Hi1).
  clear Hi1.
  destruct (insert_auth_users db NEW) as [db1 [[]|err]]; cbn [fst snd] in *;
    [|auto].
  destruct invitationData as [inv|]; [|cbn [fst]; auto].
  destruct (accept_invitations_frame
              (if autoconfirm then Some new_id else None) db1
              (fun r => inv_token r =s? idata_token inv)) as [Hpa [Hra Hta]].
  destruct (accept_invitations _ db1 _) as [db2 r2]. cbn [fst] in *.
  assert (Hp2 : profiles_unique db2) by (unfold profiles_unique; now rewrite Hpa).
  assert (Hg2 : grants_unique db2) by (unfold grants_unique; now rewrite Hra).
  assert (Ht2 : tokens_unique db2) by (unfold tokens_unique; now rewrite Hta).
  destruct (app_role_in (idata_role inv)) as [ro|e']; [|cbn [fst]; auto].
  destruct (insert_user_roles_keeps_unique
              (if autoconfirm then Some new_id else None) db2
              {| ur_user_id := new_id; ur_role := ro |} Hg2) as [Hg3 [Hp3 Hi3]].
  destruct (insert_user_roles _ db2 _) as [db3 r3]. cbn [fst] in *.
  unfold profiles_unique, tokens_unique in *.
  rewrite Hp3, Hi3. auto.
Qed.

Lemma sign_up_keeps_keys_unique_witness :
  let out := handleSignUp true "bob" (Some bob_invitation) bob_form office in
  profiles_unique (fst out) /\ grants_unique (fst out) /\ tokens_unique (fst out).
Proof.
  apply (sign_up_keeps_keys_unique true "bob" (Some bob_invitation) bob_form office).
  - unfold profiles_unique. simpl. split; repeat constructor;
      simpl; intros H; decompose [or] H; try discriminate; assumption.
  - unfold grants_unique. simpl. repeat constructor;
      simpl; intros H; decompose [or] H; try discriminate; assumption.
  - unfold tokens_unique. simpl. repeat constructor. intros [].
Defined.

(* ------------------------------------------------------------------ *)
(** ** The profile page *)

Lemma update_profiles_value (uid : uuid) (db : database)
      (name department : text) :
  update_profiles (Some uid) db (fun r => pr_id r =s? uid) name department
  = (set_profiles db
       (map (fun r => if pr_id r =s? uid
                      then {| pr_id := pr_id r; pr_name := name;
                              pr_email := pr_email r;
                              pr_employee_id := pr_employee_id r;
                              pr_department := department;
                              pr_role := pr_role r |}
                      else r) (profiles db)),
     Ok tt).
Proof.
  unfold update_profiles.
  assert (H : forall rows,
             update_profiles_rows (Some uid) db (fun r => pr_id r =s? uid)
               name department rows
             = Ok (map (fun r => if pr_id r =s? uid
                                 then {| pr_id := pr_id r; pr_name := name;
                                         pr_email := pr_email r;
                                         pr_employee_id := pr_employee_id r;
                                         pr_department := department;
                                         pr_role := pr_role r |}
                                 else r) rows)).
  { induction rows as [|r rest IH]; [reflexivity|].
    cbn [update_profiles_rows map]. rewrite IH.
    unfold update_profiles_row, profiles_select_using, profiles_update_using.
    cbn [pr_id]. rewrite andb_true_r.
    destruct (String.eqb_spec (pr_id r) uid) as [E|N].
    - rewrite E, String.eqb_refl. reflexivity.
    - apply not_eq_sym in N. apply String.eqb_neq in N. rewrite N. reflexivity. }
  now rewrite H.
Qed.

(** X16: saving the profile page changes the name and the department of
    the user's own profile and nothing else: every profile keeps its
    identifier, e-mail, employee code and role, the profiles of the others
    are untouched, and so are the role grants. *)
Theorem profile_update_frame
        (uid : uuid) (name department : text) (db : database) :
  let out := handleUpdate (Some uid) name department db in
  snd out = Ok tt /\
  Forall2 (fun p p' =>
             pr_id p' = pr_id p /\ pr_email p' = pr_email p /\
             pr_employee_id p' = pr_employee_id p /\ pr_role p' = pr_role p /\
             (pr_id p <> uid -> p' = p) /\
             (pr_id p = uid -> pr_name p' = name /\ pr_department p' = department))
          (profiles db) (profiles (fst out)) /\
  user_roles (fst out) = user_roles db /\
  (profiles_unique db -> profiles_unique (fst out)).
Proof.
  intros out. subst out. unfold handleUpdate. rewrite update_profiles_value.
  cbn [fst snd profiles set_profiles user_roles].
  set (f := fun r : profiles_row => if pr_id r =s? uid then _ else r).
  assert (Hf : forall p, pr_id (f p) = pr_id p /\ pr_email (f p) = pr_email p /\
                         pr_employee_id (f p) = pr_employee_id p /\
                         pr_role (f p) = pr_role p /\
                         (pr_id p <> uid -> f p = p) /\
                         (pr_id p = uid ->
                          pr_name (f p) = name /\ pr_department (f p) = department)).
  { intros p. unfold f. destruct (String.eqb_spec (pr_id p) uid) as [E|N];
      cbn; repeat split; try tauto. }
  split; [reflexivity|]. split; [|split; [reflexivity|]].
  - induction (profiles db) as [|p l IH]; constructor; [apply Hf | exact IH].
  - unfold profiles_unique. cbn [profiles set_profiles]. rewrite !map_map.
    intros [Hid Hcode]. split.
    + erewrite map_ext; [exact Hid|]. intros p. now destruct (Hf p).
    + erewrite map_ext; [exact Hcode|]. intros p.
      now destruct (Hf p) as (_ & _ & H & _).
Qed.

(* ------------------------------------------------------------------ *)
(** ** Migration of the profile roles *)

Lemma migrate_profile_value (urs : list user_roles_row) (p : profiles_row) :
  migrate_profile urs p
  = Ok (if existsb (user_roles_key_eqb (profile_grant p)) urs
        then urs else (urs ++ [profile_grant p])%list).
Proof.
  unfold migrate_profile, profile_grant. now destruct (pr_role p).
Qed.

Lemma migrate_profile_cases (urs : list user_roles_row) (p : profiles_row) :
  (In (profile_grant p) urs /\ migrate_profile urs p = Ok urs) \/
  (~ In (profile_grant p) urs /\
   migrate_profile urs p = Ok (urs ++ [profile_grant p])%list).
Proof.
  rewrite migrate_profile_value.
  destruct (existsb (user_roles_key_eqb (profile_grant p)) urs) eqn:E.
  - left. split; [|reflexivity]. apply existsb_exists in E.
    destruct E as [x [Hx Ex]]. apply user_roles_key_eqb_eq in Ex. now subst.
  - right. split; [|reflexivity]. intros Hin.
    apply not_true_iff_false in E. apply E. apply existsb_exists.
    exists (profile_grant p). split; [exact Hin|]. now apply user_roles_key_eqb_eq.
Qed.

Lemma migrate_profiles_spec (ps : list profiles_row) :
  forall urs, exists urs',
    migrate_profiles ps urs = Ok urs' /\
    (forall ur, In ur urs -> In ur urs') /\
    (forall p, In p ps -> In (profile_grant p) urs') /\
    (forall ur, In ur urs' ->
                In ur urs \/ exists p, In p ps /\ ur = profile_grant p) /\
    (NoDup urs -> NoDup urs').
Proof.
  induction ps as [|p rest IH]; intros urs.
  - exists urs. cbn. repeat split; auto. intros p [].
  - cbn [migrate_profiles].
    destruct (migrate_profile_cases urs p) as [[Hin ->]|[Hnot ->]]; cbn [bind].
    + destruct (IH urs) as [urs' [E [Hkeep [Hall [Honly Hnd]]]]].
      exists urs'. split; [exact E|]. split; [exact Hkeep|]. split; [|split].
      * intros q [<-|Hq]; [now apply Hkeep | now apply Hall].
      * intros ur Hur. destruct (Honly ur Hur) as [H|[q [Hq ->]]]; [now left|].
        right. exists q. split; [now right | reflexivity].
      * exact Hnd.
    + destruct (IH (urs ++ [profile_grant p])%list)
        as [urs' [E [Hkeep [Hall [Honly Hnd]]]]].
      exists urs'. split; [exact E|]. split; [|split; [|split]].
      * intros ur Hur. apply Hkeep, in_or_app. now left.
      * intros q [<-|Hq]; [|now apply Hall].
        apply Hkeep, in_or_app. right. now left.
      * intros ur Hur. destruct (Honly ur Hur) as [H|[q [Hq ->]]].
        -- apply in_app_or in H. destruct H as [H|[<-|[]]]; [now left|].
           right. exists p. split; [now left | reflexivity].
        -- right. exists q. split; [now right | reflexivity].
      * intros H. apply Hnd. now apply NoDup_snoc.
Qed.

Lemma migrate_profiles_settled (ps : list profiles_row) (urs : list user_roles_row) :
  (forall p, In p ps -> In (profile_grant p) urs) ->
  migrate_profiles ps urs = Ok urs.
Proof.
  induction ps as [|p rest IH]; intros H; [reflexivity|].
  cbn [migrate_profiles].
  destruct (migrate_profile_cases urs p) as [[_ ->]|[Hnot _]]; cbn [bind].
  - apply IH. intros q Hq. apply H. now right.
  - exfalso. apply Hnot, H. now left.
Qed.

(** X17: the migration of the profile roles never raises; afterwards every
    profile holds its role among the grants ([has_role] is true for it),
    the grants there were are kept, nothing is granted that is neither an
    old grant nor the role of a profile, unique grants stay unique, and
    running the statement again changes nothing. *)
Theorem roles_migration (db : database) :
  exists urs,
    migrate_roles db = (set_user_roles db urs, Ok tt) /\
    (forall ur, In ur (user_roles db) -> In ur urs) /\
    (forall p, In p (profiles db) ->
               has_role (set_user_roles db urs) (pr_id p)
                        (ur_role (profile_grant p)) = true) /\
    (forall ur, In ur urs ->
                In ur (user_roles db) \/
                exists p, In p (profiles db) /\ ur = profile_grant p) /\
    (grants_unique db -> grants_unique (set_user_roles db urs)) /\
    migrate_roles (set_user_roles db urs) = (set_user_roles db urs, Ok tt).
Proof.
  destruct (migrate_profiles_spec (profiles db) (user_roles db))
    as [urs [E [Hkeep [Hall [Honly Hnd]]]]].
  exists urs. unfold migrate_roles. rewrite E.
  split; [reflexivity|]. split; [exact Hkeep|]. split; [|split; [exact Honly|split]].
  - intros p Hp. apply has_role_In. cbn [user_roles set_user_roles].
    exact (Hall p Hp).
  - exact Hnd.
  - cbn [profiles user_roles set_user_roles].
    rewrite (migrate_profiles_settled _ _ Hall). now destruct db.
Qed.

Example office_needs_no_migration : migrate_roles office = (office, Ok tt).
Proof. reflexivity. Qed.

(* ------------------------------------------------------------------ *)
(** ** Invitations: from the invitation to the sign-up page *)

Lemma invitationSchema_parse_valid (is_email : string -> bool)
      (f : Invitations.form) (ro : app_role) :
  is_email (Invitations.email f) = true ->
  (String.length (Invitations.email f) <= 255)%nat ->
  (1 <= String.length (trim (Invitations.name f)) <= 100)%nat ->
  (1 <= String.length (trim (Invitations.department f)) <= 100)%nat ->
  app_role_in (Invitations.role f) = Ok ro ->
  Invitations.invitationSchema_parse is_email f
  = Some {| Invitations.v_email := Invitations.email f;
            Invitations.v_name := trim (Invitations.name f);
            Invitations.v_department := trim (Invitations.department f);
            Invitations.v_role := ro |}.
Proof.
  intros Hmail Hlen Hn Hd Hr. unfold Invitations.invitationSchema_parse.
  rewrite Hmail, Hr.
  destruct (Nat.leb_spec (String.length (Invitations.email f)) 255); [|lia].
  destruct (Nat.leb_spec 1 (String.length (trim (Invitations.name f)))); [|lia].
  destruct (Nat.leb_spec (String.length (trim (Invitations.name f))) 100); [|lia].
  destruct (Nat.leb_spec 1 (String.length (trim (Invitations.department f))));
    [|lia].
  destruct (Nat.leb_spec (String.length (trim (Invitations.department f))) 100);
    [|lia].
  reflexivity.
Qed.

Lemma filter_snoc_only {A : Type} (p : A -> bool) (l : list A) (x : A) :
  (forall y, In y l -> p y = false) -> p x = true ->
  filter p (l ++ [x]) = [x].
Proof.
  intros Hl Hx. rewrite filter_app, (filter_none p l Hl). cbn. now rewrite Hx.
Qed.

(** X18: an invitation a manager or admin submits with a valid form and a
    token not in use is stored pending, under that token, with the trimmed
    name and department, and expires when the default of the store says.
    Until that instant, at the clock of the browser, the sign-up page of a
    manager's or admin's session prefills from it; after it, no session
    does. *)
Theorem invitation_open_until_expiry
        (is_email : string -> bool) (seven_days_later : timestamptz -> timestamptz)
        (uid : uuid) (NOW : timestamptz) (new_id : uuid) (token : text)
        (f : Invitations.form) (db : database) (ro : app_role)
        (Hpriv : manager_or_admin db (Some uid) = true)
        (Hmail : is_email (Invitations.email f) = true)
        (Hlen : (String.length (Invitations.email f) <= 255)%nat)
        (Hn : (1 <= String.length (trim (Invitations.name f)) <= 100)%nat)
        (Hd : (1 <= String.length (trim (Invitations.department f)) <= 100)%nat)
        (Hr : app_role_in (Invitations.role f) = Ok ro)
        (Hfresh : forall r, In r (invitations db) -> inv_token r <> token) :
  let out := Invitations.handleSubmit is_email seven_days_later (Some uid) NOW
               new_id token f db in
  let row := {| inv_id := new_id; inv_email := Invitations.email f;
                inv_name := trim (Invitations.name f);
                inv_department := trim (Invitations.department f);
                inv_role := ro; inv_invited_by := uid; inv_token := token;
                inv_status := "pending";
                inv_expires_at := seven_days_later NOW |} in
  out = (set_invitations db (invitations db ++ [row]), Invitations.responded (Ok row)) /\
  (tokens_unique db -> tokens_unique (fst out)) /\
  forall s clock,
    (manager_or_admin db s = true ->
     clock <= js_of_timestamptz (seven_days_later NOW) ->
     loadInvitation s clock (fst out) token
     = Some {| idata_email := Invitations.email f;
               idata_name := trim (Invitations.name f);
               idata_department := trim (Invitations.department f);
               idata_role := app_role_out ro; idata_token := token |}) /\
    (js_of_timestamptz (seven_days_later NOW) < clock ->
     loadInvitation s clock (fst out) token = None).
Proof.
  intros out row.
  assert (E : out = (set_invitations db (invitations db ++ [row]),
                     Invitations.responded (Ok row))).
  { subst out. unfold Invitations.handleSubmit.
    rewrite (invitationSchema_parse_valid is_email f ro Hmail Hlen Hn Hd Hr).
    unfold Invitations.insert_invitations, invitations_insert_check.
    rewrite Hpriv. cbn [negb].
    match goal with |- context [existsb ?p ?l] =>
      assert (Hex : existsb p l = false) end.
    { apply not_true_iff_false. intros Hex. apply existsb_exists in Hex.
      destruct Hex as [r [Hin Hk]]. apply String.eqb_eq in Hk.
      exact (Hfresh r Hin Hk). }
    rewrite Hex. reflexivity. }
  rewrite E. cbn [fst]. split; [reflexivity|]. split.
  - unfold tokens_unique. cbn [invitations set_invitations]. intros Hnd.
    rewrite map_app. cbn [map]. apply NoDup_snoc; [exact Hnd|].
    intros Hin. apply in_map_iff in Hin. destruct Hin as [r [Er Hrin]].
    exact (Hfresh r Hrin Er).
  - intros s clock.
    assert (Hsel : manager_or_admin db s = true ->
              select_invitations s (set_invitations db (invitations db ++ [row]))
                (fun r => (inv_token r =s? token) && (inv_status r =s? "pending"))
              = [row]).
    { intros Hs. unfold select_invitations. cbn [invitations set_invitations].
      apply filter_snoc_only.
      - intros y Hy. apply Hfresh in Hy. apply String.eqb_neq in Hy.
        now rewrite Hy.
      - unfold invitations_select_using.
        change (manager_or_admin (set_invitations db (invitations db ++ [row])) s)
          with (manager_or_admin db s).
        rewrite Hs. cbn [row inv_token inv_status].
        now rewrite !String.eqb_refl. }
    split.
    + intros Hs Hopen. unfold loadInvitation. rewrite (Hsel Hs).
      cbn [maybeSingle row inv_expires_at].
      destruct (Z.ltb_spec (js_of_timestamptz (seven_days_later NOW)) clock);
        [lia|reflexivity].
    + intros Hpast. unfold loadInvitation, select_invitations.
      cbn [invitations set_invitations].
      match goal with |- context [filter ?p ?l] =>
        destruct (filter p l) as [|d [|d' rest]] eqn:Ef end;
        cbn [maybeSingle]; try reflexivity.
      assert (Hdin : In d (filter
                             (fun r => (inv_token r =s? token)
                                       && (inv_status r =s? "pending")
                                       && invitations_select_using
                                            (set_invitations db
                                               (invitations db ++ [row])) s r)
                             (invitations db ++ [row])))
        by (rewrite Ef; now left).
      apply filter_In in Hdin. destruct Hdin as [Hdin Hc].
      apply andb_true_iff in Hc. destruct Hc as [Hc _].
      apply andb_true_iff in Hc. destruct Hc as [Htok _].
      apply String.eqb_eq in Htok.
      apply in_app_or in Hdin. destruct Hdin as [Hold|[<-|[]]].
      * exfalso. exact (Hfresh d Hold Htok).
      * cbn [row inv_expires_at].
        destruct (Z.ltb_spec (js_of_timestamptz (seven_days_later NOW)) clock);
          [reflexivity|lia].
Qed.

Lemma invitation_open_until_expiry_witness :
  let out := Invitations.handleSubmit has_at_sign seven_days_utc (Some "mona")
               (timestamptz_of_js jan1_0900) "inv-2" "tok-erin" erin_form office in
  snd out
  = Invitations.responded
      (Ok {| inv_id := "inv-2"; inv_email := "erin@example.com";
             inv_name := "Erin"; inv_department := "Lab"; inv_role := employee;
             inv_invited_by := "mona"; inv_token := "tok-erin";
             inv_status := "pending";
             inv_expires_at := seven_days_utc (timestamptz_of_js jan1_0900) |}) /\
  loadInvitation (Some "mona") (jan1_0900 + 7 * MSECS_PER_DAY) (fst out) "tok-erin"
  = Some {| idata_email := "erin@example.com"; idata_name := "Erin";
            idata_department := "Lab"; idata_role := "employee";
            idata_token := "tok-erin" |} /\
  loadInvitation (Some "mona") (jan1_0900 + 7 * MSECS_PER_DAY + 1) (fst out)
                 "tok-erin" = None.
Proof.
  destruct (invitation_open_until_expiry has_at_sign seven_days_utc "mona"
              (timestamptz_of_js jan1_0900) "inv-2" "tok-erin" erin_form office
              employee) as [E [_ Hwin]].
  - reflexivity.
  - reflexivity.
  - vm_compute. lia.
  - vm_compute. lia.
  - vm_compute. lia.
  - reflexivity.
  - simpl. intros r [<-|[]]. discriminate.
  - destruct (Hwin (Some "mona") (jan1_0900 + 7 * MSECS_PER_DAY)) as [Hopen _].
    destruct (Hwin (Some "mona") (jan1_0900 + 7 * MSECS_PER_DAY + 1)) as [_ Hshut].
    cbv zeta. split; [reflexivity|]. split.
    + apply Hopen; [reflexivity|]. vm_compute. discriminate.
    + apply Hshut. vm_compute. reflexivity.
Defined.

(* ------------------------------------------------------------------ *)
(** ** The team page: search *)

Lemma text_app_assoc (a b c : string) : (a ++ b) ++ c = a ++ b ++ c.
Proof. induction a as [|x a IH]; cbn; [reflexivity | now rewrite IH]. Qed.

Lemma prefix_is_head (s t : string) :
  String.prefix t s = true <-> exists rest, s = t ++ rest.
Proof.
  revert t. induction s as [|c s IH]; intros [|d t]; cbn.
  - split; [exists ""; reflexivity | reflexivity].
  - split; [discriminate | intros [rest H]; discriminate H].
  - split; [exists (String c s); reflexivity | reflexivity].
  - destruct (ascii_dec d c) as [->|N].
    + rewrite IH. split; intros [rest H]; exists rest; [now rewrite H|].
      now injection H.
    + split; [discriminate|]. intros [rest H]. injection H as E _.
      symmetry in E. contradiction.
Qed.

Lemma includes_is_part (s t : string) :
  includes s t = true <-> exists before after, s = before ++ t ++ after.
Proof.
  split.
  - induction s as [|c s IH]; cbn [includes]; intros H;
      apply orb_true_iff in H; destruct H as [H|H].
    + apply prefix_is_head in H. destruct H as [rest H]. now exists "", rest.
    + discriminate.
    + apply prefix_is_head in H. destruct H as [rest H]. now exists "", rest.
    + destruct (IH H) as [before [after E]].
      exists (String c before), after. cbn. now rewrite E.
  - intros [before [after E]]. subst s.
    assert (Hhead : forall x, String.prefix t x = true -> includes x t = true)
      by (intros [|c x] Hp; cbn [includes]; now rewrite Hp).
    induction before as [|c before IH].
    + cbn [append]. apply Hhead, prefix_is_head. now exists after.
    + cbn [append includes]. rewrite IH. apply orb_true_r.
Qed.

Lemma includes_chain (s t u : string) :
  includes s t = true -> includes t u = true -> includes s u = true.
Proof.
  intros Hst Htu. apply includes_is_part in Hst, Htu.
  destruct Hst as [a [b ->]]. destruct Htu as [c [d ->]].
  apply includes_is_part. exists (a ++ c), (d ++ b).
  now rewrite !text_app_assoc.
Qed.

Lemma toLowerCase_empty (s : string) : toLowerCase s = "" -> s = "".
Proof. destruct s; [reflexivity | discriminate]. Qed.

Lemma includes_of_empty (t : string) : includes "" t = true -> t = "".
Proof. destruct t; [reflexivity | cbn; discriminate]. Qed.

(** X19: the search of the team page only ever hides records: what it shows
    is among the records loaded, and a term that, letter case aside,
    contains another term shows no record the other term hides. The empty
    term hides nothing. *)
Theorem search_narrows
        (records : list team_record) (term part : string)
        (H : includes (toLowerCase term) (toLowerCase part) = true) :
  filteredRecords records "" = records /\
  (forall r, In r (filteredRecords records term) -> In r records) /\
  (forall r, In r (filteredRecords records term) ->
             In r (filteredRecords records part)).
Proof.
  split; [reflexivity|]. split.
  - intros r. unfold filteredRecords. destruct (term =s? ""); [tauto|].
    intros Hr. apply filter_In in Hr. tauto.
  - intros r. unfold filteredRecords.
    destruct (String.eqb_spec part "") as [->|Npart].
    + destruct (term =s? ""); [tauto|]. intros Hr. apply filter_In in Hr. tauto.
    + destruct (String.eqb_spec term "") as [->|Nterm].
      * exfalso. apply Npart, toLowerCase_empty, includes_of_empty. exact H.
      * intros Hr. apply filter_In in Hr. destruct Hr as [Hin Hm].
        apply filter_In. split; [exact Hin|].
        apply orb_true_iff in Hm. destruct Hm as [Hm|Hm];
          [apply orb_true_iff in Hm; destruct Hm as [Hm|Hm]|].
        -- now rewrite (includes_chain _ _ _ Hm H).
        -- rewrite (includes_chain _ _ _ Hm H). now rewrite orb_true_r.
        -- rewrite (includes_chain _ _ _ Hm H). now rewrite !orb_true_r.
Qed.

Lemma search_narrows_witness :
  filteredRecords team "" = team /\
  (forall r, In r (filteredRecords team "SALES") -> In r team) /\
  (forall r, In r (filteredRecords team "SALES") ->
             In r (filteredRecords team "al")).
Proof.
  apply (search_narrows team "SALES" "al"). reflexivity.
Defined.

Example search_ignores_case :
  map tr_name (filteredRecords team "SALES") = [ "Alice" ] /\
  map tr_name (filteredRecords team "emp000") = [ "Alice"; "Mona" ] /\
  filteredRecords team "z" = [].
Proof. repeat split. Qed.

(* ------------------------------------------------------------------ *)
(** ** The attendance history page *)

Lemma In_insert_by_date_desc (r x : attendance_row) (l : list attendance_row) :
  In x (insert_by_date_desc r l) <-> x = r \/ In x l.
Proof.
  induction l as [|y l IH]; cbn [insert_by_date_desc].
  - cbn. intuition.
  - destruct (att_date y <=? att_date r); cbn [In]; [intuition|].
    rewrite IH. intuition.
Qed.

Lemma In_order_by_date_desc (x : attendance_row) (l : list attendance_row) :
  In x (order_by_date_desc l) <-> In x l.
Proof.
  unfold order_by_date_desc. induction l as [|y l IH]; cbn [fold_right]; [tauto|].
  rewrite In_insert_by_date_desc, IH. cbn. intuition.
Qed.

Lemma count_status_split (rows : list attendance_row) :
  (count_status "present" rows + count_status "absent" rows
   + count_status "late" rows + count_status "half-day" rows
   = List.length rows)%nat.
Proof.
  unfold count_status.
  induction rows as [|r rows IH]; [reflexivity|].
  cbn [filter List.length]. destruct (att_status r); cbn; lia.
Qed.

(** X20: the attendance history page loads the signed-in user's own
    records of the selected month and no others; its four counters add up
    to the number of records loaded; and, the ledger holding one record per
    user and day, the calendar shows for the day of each record loaded the
    status of that record. *)
Theorem history_page_is_faithful
        (uid : uuid) (monthStart monthEnd : date) (db : database) :
  exists rows stats,
    loadAttendance (Some uid) monthStart monthEnd db = Some (rows, stats) /\
    (forall r, In r rows <->
               In r (attendance db) /\ att_user_id r = uid /\
               monthStart <= att_date r <= monthEnd) /\
    (ms_present stats + ms_absent stats + ms_late stats + ms_halfDay stats
     = List.length rows)%nat /\
    (ledger_unique db ->
     forall r, In r rows -> getDateStatus rows (att_date r) = Some (att_status r)).
Proof.
  eexists _, _. split; [reflexivity|].
  set (rows := order_by_date_desc _).
  assert (Hrows : forall r, In r rows <->
                    In r (attendance db) /\ att_user_id r = uid /\
                    monthStart <= att_date r <= monthEnd).
  { intros r. unfold rows, select_attendance.
    rewrite In_order_by_date_desc, filter_In.
    unfold attendance_select_using, attendance_owner_or_manager.
    split.
    - intros [Hin Hc]. apply andb_true_iff in Hc. destruct Hc as [Hc _].
      apply andb_true_iff in Hc. destruct Hc as [Hc Hend].
      apply andb_true_iff in Hc. destruct Hc as [Hu Hstart].
      apply String.eqb_eq in Hu. apply Z.leb_le in Hstart, Hend. auto.
    - intros [Hin [Hu [Hstart Hend]]]. split; [exact Hin|].
      apply Z.leb_le in Hstart, Hend. rewrite Hu, Hstart, Hend.
      now rewrite !String.eqb_refl. }
  split; [exact Hrows|]. split; [apply count_status_split|].
  intros Hunique r Hr. unfold getDateStatus.
  destruct (find (fun x => att_date x =? att_date r) rows) as [x|] eqn:Ef.
  - apply find_some in Ef. destruct Ef as [Hx Ed]. apply Z.eqb_eq in Ed.
    apply Hrows in Hx, Hr.
    destruct Hx as [Hx [Hxu _]], Hr as [Hr [Hru _]].
    assert (x = r) as ->; [|reflexivity].
    apply (NoDup_map_injective (fun y => (att_user_id y, att_date y))
             (attendance db) x r Hunique Hx Hr).
    now rewrite Hxu, Hru, Ed.
  - exfalso. pose proof (find_none _ _ Ef r Hr) as Hcontra. cbn in Hcontra.
    now rewrite Z.eqb_refl in Hcontra.
Qed.

Example alice_history :
  loadAttendance (Some "alice") 19723 19753 office
  = Some ([alice_jan1],
          {| ms_present := 1; ms_absent := 0; ms_late := 0; ms_halfDay := 0 |}) /\
  loadAttendance (Some "mona") 19723 19753 office
  = Some ([], {| ms_present := 0; ms_absent := 0; ms_late := 0; ms_halfDay := 0 |}).
Proof. split; reflexivity. Qed.

(* ------------------------------------------------------------------ *)
(** ** The invitation list and the sign-up page *)

Lemma pending_row_selected (s : session) (db : database) (r : invitations_row) :
  manager_or_admin db s = true -> tokens_unique db ->
  In r (invitations db) -> inv_status r = "pending" ->
  select_invitations s db
    (fun x => (inv_token x =s? inv_token r) && (inv_status x =s? "pending"))
  = [r].
Proof.
  intros Hs Hnd Hin Hst. unfold select_invitations, invitations_select_using.
  rewrite Hs. unfold tokens_unique in Hnd.
  induction (invitations db) as [|x l IH]; [contradiction|].
  cbn [map] in Hnd. apply NoDup_cons_iff in Hnd. destruct Hnd as [Hx Hl].
  cbn [filter]. destruct Hin as [->|Hin].
  - rewrite Hst, !String.eqb_refl. cbn [andb]. f_equal.
    apply filter_none. intros y Hy.
    destruct (String.eqb_spec (inv_token y) (inv_token r)) as [E|_];
      [|reflexivity].
    exfalso. apply Hx. rewrite <- E. now apply in_map.
  - destruct (String.eqb_spec (inv_token x) (inv_token r)) as [E|_].
    + exfalso. apply Hx. rewrite E. now apply in_map.
    + cbn [andb]. now apply IH.
Qed.

(** X21: the invitation list and the sign-up page read the expiry alike:
    for a pending invitation, tokens being unique, the badge of the list
    says "pending" exactly when the sign-up page of a manager's or admin's
    session prefills from its token at the same clock, and "Expired"
    exactly when it does not. *)
Theorem badge_agrees_with_lookup
        (s : session) (clock : js_date) (db : database) (r : invitations_row)
        (Hs : manager_or_admin db s = true)
        (Hnd : tokens_unique db)
        (Hin : In r (invitations db))
        (Hst : inv_status r = "pending") :
  (Invitations.getStatusBadge clock (inv_status r) (inv_expires_at r) = "pending"
   <-> loadInvitation s clock db (inv_token r) <> None) /\
  (Invitations.getStatusBadge clock (inv_status r) (inv_expires_at r) = "Expired"
   <-> loadInvitation s clock db (inv_token r) = None).
Proof.
  unfold Invitations.getStatusBadge, loadInvitation.
  rewrite (pending_row_selected s db r Hs Hnd Hin Hst). cbn [maybeSingle].
  rewrite Hst.
  destruct (js_of_timestamptz (inv_expires_at r) <? clock); split; split;
    intros H; try reflexivity; try discriminate H; try congruence.
Qed.

Lemma badge_agrees_with_lookup_witness :
  (Invitations.getStatusBadge jan1_0920 (inv_status invite_bob)
     (inv_expires_at invite_bob) = "pending"
   <-> loadInvitation (Some "mona") jan1_0920 office (inv_token invite_bob) <> None) /\
  (Invitations.getStatusBadge jan1_0920 (inv_status invite_bob)
     (inv_expires_at invite_bob) = "Expired"
   <-> loadInvitation (Some "mona") jan1_0920 office (inv_token invite_bob) = None).
Proof.
  apply (badge_agrees_with_lookup (Some "mona") jan1_0920 office invite_bob).
  - reflexivity.
  - unfold tokens_unique. simpl. repeat constructor. intros [].
  - simpl. now left.
  - reflexivity.
Defined.
